(** * kubeconfig-updater: a shallow embedding of [main.go]

    [main.go] comes in two variants that share the same pipeline
    (load, select, resolve, merge, report, write):

    - the YAML variant keeps the kubeconfig as slices of named entries
      decoded by [yaml.v3] (module [Yaml]);
    - the clientcmd variant keeps it as the maps of client-go's
      [api.Config] (module [Clientcmd]).

    Go strings are byte strings: [len], [s[:5]] and [s[len(s)-5:]] count
    bytes, which is what [String.length] and [substring] do on Rocq's
    [string]. *)

From Stdlib Require Import String Ascii List ZArith Lia Bool.
From Stdlib Require Import DecimalString.
From Stdlib.Strings Require Import Byte.
From stdpp Require Import base option gmap strings list.

Open Scope string_scope.
Open Scope list_scope.
Open Scope nat_scope.

#[global] Instance byte_eq_dec : EqDecision byte := Byte.byte_eq_dec.

(** ** Helpers shared by both variants *)

Module Go.

(** [bytes.Equal]: nil and the empty slice are equal, both are [[]] here. *)
Definition bytesEqual (a b : list byte) : bool := bool_decide (a = b).

(** [[]byte(s)] *)
Definition bytesOfString (s : string) : list byte := list_byte_of_string s.

(** ** [encoding/base64], [StdEncoding.EncodeToString] (RFC 4648, padded) *)

Definition encodeStd : string :=
  "ABCDEFGHIJKLMNOPQRSTUVWXYZabcdefghijklmnopqrstuvwxyz0123456789+/".

Definition padChar : ascii := "="%char.

Definition sextet (n : N) : ascii :=
  match String.get (N.to_nat (n mod 64)) encodeStd with
  | Some c => c
  | None => padChar
  end.

Fixpoint EncodeToString (src : list byte) : string :=
  match src with
  | [] => EmptyString
  | [a] =>
      let v := (Byte.to_N a * 65536)%N in
      String (sextet (v / 262144)) (String (sextet (v / 4096))
        (String padChar (String padChar EmptyString)))
  | [a; b] =>
      let v := (Byte.to_N a * 65536 + Byte.to_N b * 256)%N in
      String (sextet (v / 262144)) (String (sextet (v / 4096))
        (String (sextet (v / 64)) (String padChar EmptyString)))
  | a :: b :: c :: rest =>
      let v := (Byte.to_N a * 65536 + Byte.to_N b * 256 + Byte.to_N c)%N in
      String (sextet (v / 262144)) (String (sextet (v / 4096))
        (String (sextet (v / 64)) (String (sextet v) (EncodeToString rest))))
  end.

(** ** [time.Time] and the two layouts the program formats with *)

Record Time := {
  year : nat; month : nat; day : nat;
  hour : nat; minute : nat; second : nat;
  zoneOffset : Z  (* seconds east of UTC *)
}.

Definition decimal (n : nat) : string := NilZero.string_of_uint (Nat.to_uint n).

Fixpoint zeros (n : nat) : string :=
  match n with
  | O => EmptyString
  | S k => String "0"%char (zeros k)
  end.

(** zero-padded to at least [w] digits *)
Definition padded (w n : nat) : string :=
  let d := decimal n in zeros (w - String.length d) +:+ d.

(** layout ["20060102"] *)
Definition formatYYYYMMDD (t : Time) : string :=
  padded 4 (year t) +:+ padded 2 (month t) +:+ padded 2 (day t).

(** layout [time.RFC3339], ["2006-01-02T15:04:05Z07:00"] *)
Definition formatZone (off : Z) : string :=
  if (off =? 0)%Z then "Z"
  else
    let a := Z.to_nat (Z.abs off / 60) in
    (if (off <? 0)%Z then "-" else "+")
      +:+ padded 2 (a / 60) +:+ ":" +:+ padded 2 (a mod 60).

Definition formatRFC3339 (t : Time) : string :=
  padded 4 (year t) +:+ "-" +:+ padded 2 (month t) +:+ "-" +:+ padded 2 (day t)
    +:+ "T" +:+ padded 2 (hour t) +:+ ":" +:+ padded 2 (minute t) +:+ ":"
    +:+ padded 2 (second t) +:+ formatZone (zoneOffset t).

End Go.

(** ** Secret truncation *)

(** [shorten]: identical in both variants. *)
Definition shorten (s : string) : string :=
  if (String.length s <=? 15)%nat then s
  else substring 0 5 s +:+ "..." +:+ substring (String.length s - 5) 5 s.

(** [shortenBytes] (clientcmd variant): base64 first, then the same cut. *)
Definition shortenBytes (data : list byte) : string :=
  if (length data =? 0)%nat then "<empty>"
  else
    let s := Go.EncodeToString data in
    if (String.length s <=? 15)%nat then s
    else substring 0 5 s +:+ "..." +:+ substring (String.length s - 5) 5 s.

(** ** The process: files, terminal, operator, exits *)

Module Run.

(** What a [huh] form shows. *)
Inductive Prompt :=
| Select (title : string) (options : list string)
| Input3 (title1 title2 title3 : string)
| Confirm (title : string)
| Text (title : string).

(** The operator at the terminal: what each form's [Run] leaves in its
    [Value], or [None] when [Run] returns an error.  A select is not
    required to answer with one of its options, which covers every
    behaviour of the form library. *)
Record Operator := {
  onSelect : string → list string → option string;
  onInput3 : string → string → string → option (string * string * string);
  onConfirm : string → option bool;
  onText : string → option string
}.

(** The diagnostics of [main], one per [os.Exit(1)] site; a nil pointer
    dereference ends the process with a panic instead. *)
Inductive Failure :=
| HomeDirFailed
| ReadConfigFailed (path : string)
| ParseConfigFailed
| SelectContextFailed
| NewContextDetailsFailed
| ContextNotFound (name : string)
| ConfirmServerFailed
| ReadPastedFailed
| ParsePastedFailed
| SelectClusterFailed
| SelectedClusterNotFound
| NoContextForCluster (cluster : string)
| SelectPastedContextFailed
| SelectUserFailed
| SelectedUserNotFound
| MarshalFailed
| WriteBackupFailed
| WriteConfigFailed
| NilDereference.

Inductive ErrorKind :=
| ReadError | ParseError | PromptError | ResolutionError | WriteError
| MarshalError | EnvironmentError | Panic.

Definition kind (f : Failure) : ErrorKind :=
  match f with
  | HomeDirFailed => EnvironmentError
  | ReadConfigFailed _ => ReadError
  | ParseConfigFailed | ParsePastedFailed => ParseError
  | SelectContextFailed | NewContextDetailsFailed | ConfirmServerFailed
  | ReadPastedFailed | SelectClusterFailed | SelectPastedContextFailed
  | SelectUserFailed => PromptError
  | ContextNotFound _ | SelectedClusterNotFound | NoContextForCluster _
  | SelectedUserNotFound => ResolutionError
  | MarshalFailed => MarshalError
  | WriteBackupFailed | WriteConfigFailed => WriteError
  | NilDereference => Panic
  end.

(** The mutable part of the world.  [ioutil.WriteFile] either replaces the
    whole content or, on the paths of [denied], fails and leaves the file
    as it was. *)
Record World := {
  files : gmap string (list byte);
  denied : string → bool;
  stdout : list string;
  asked : list Prompt
}.

Definition M (A : Type) : Type := World → World * (Failure + A).

Definition ret {A} (a : A) : M A := fun w => (w, inr a).

Definition exit {A} (f : Failure) : M A := fun w => (w, inl f).

Definition bind {A B} (m : M A) (k : A → M B) : M B :=
  fun w =>
    match m w with
    | (w1, inl f) => (w1, inl f)
    | (w1, inr a) => k a w1
    end.

Notation "'let*' x ':=' m 'in' k" := (bind m (fun x => k))
  (at level 10, x pattern, m at level 100, k at level 200).

Notation "m ';;' k" := (bind m (fun _ => k))
  (at level 100, k at level 200, right associativity).

Definition println (line : string) : M unit :=
  fun w =>
    ({| files := files w; denied := denied w;
        stdout := stdout w ++ [line]; asked := asked w |}, inr tt).

Definition show (p : Prompt) (w : World) : World :=
  {| files := files w; denied := denied w;
     stdout := stdout w; asked := asked w ++ [p] |}.

Definition answer {A} (p : Prompt) (a : option A) (f : Failure) : M A :=
  fun w =>
    match a with
    | Some v => (show p w, inr v)
    | None => (show p w, inl f)
    end.

Section Forms.
Variable op : Operator.

Definition select (title : string) (options : list string) (f : Failure)
  : M string :=
  answer (Select title options) (onSelect op title options) f.

Definition input3 (t1 t2 t3 : string) (f : Failure)
  : M (string * string * string) :=
  answer (Input3 t1 t2 t3) (onInput3 op t1 t2 t3) f.

Definition confirm (title : string) (f : Failure) : M bool :=
  answer (Confirm title) (onConfirm op title) f.

Definition text (title : string) (f : Failure) : M string :=
  answer (Text title) (onText op title) f.
End Forms.

(** [ioutil.ReadFile] *)
Definition readFile (path : string) (f : Failure) : M (list byte) :=
  fun w =>
    match files w !! path with
    | Some data => (w, inr data)
    | None => (w, inl f)
    end.

(** [ioutil.WriteFile] *)
Definition writeFile (path : string) (data : list byte) (f : Failure)
  : M unit :=
  fun w =>
    if denied w path then (w, inl f)
    else
      ({| files := <[path := data]> (files w); denied := denied w;
          stdout := stdout w; asked := asked w |}, inr tt).

(** Lifting a fallible library call. *)
Definition orExit {A} (a : option A) (f : Failure) : M A :=
  match a with
  | Some v => ret v
  | None => exit f
  end.

(** Exit status of the process. *)
Definition exitCode {A} (r : Failure + A) : nat :=
  match r with
  | inr _ => 0
  | inl NilDereference => 2
  | inl _ => 1
  end.

(** What is fixed for one run: flags, environment, clock, the operator,
    and the library calls the program treats as black boxes. *)
Record Env (Cfg : Type) := {
  configFlag : string;
  tryFlag : bool;
  userHomeDir : option string;
  filepathJoin : string → string → string;
  now : Go.Time;
  operator : Operator;
  unmarshal : list byte → option Cfg;
  marshal : Cfg → option (list byte);
  quote : string → string  (* the [%q] verb *)
}.

Arguments configFlag {Cfg} _.
Arguments tryFlag {Cfg} _.
Arguments userHomeDir {Cfg} _.
Arguments filepathJoin {Cfg} _ _ _.
Arguments now {Cfg} _.
Arguments operator {Cfg} _.
Arguments unmarshal {Cfg} _ _.
Arguments marshal {Cfg} _ _.
Arguments quote {Cfg} _ _.

(** [strings.HasPrefix(configPath, "~")] and the expansion that follows. *)
Definition expandHome {Cfg} (e : Env Cfg) : M string :=
  let configPath := configFlag e in
  if String.prefix "~" configPath then
    let* home := orExit (userHomeDir e) HomeDirFailed in
    ret (filepathJoin e home
           (substring 1 (String.length configPath - 1) configPath))
  else ret configPath.

(** [[]byte] back to [string] for printing. *)
Definition stringOfBytes (b : list byte) : string := string_of_list_byte b.

(** The change summary printed after the merge. *)
Definition printSummary (changes : list string) : M unit :=
  println "Summary of changes:";;
  match changes with
  | [] => println "No changes made."
  | _ => fold_right (fun change k => println ("- " +:+ change);; k)
           (ret tt) changes
  end.

(** The lines [printSummary] leaves on standard output. *)
Definition summaryLines (changes : list string) : list string :=
  "Summary of changes:" ::
  match changes with
  | [] => ["No changes made."]
  | _ => map (fun change => "- " +:+ change) changes
  end.

(** A step that writes no file. *)
Definition keepsFiles {A} (m : M A) : Prop := ∀ w, files (m w).1 = files w.

(** What an apply-mode run may leave in the file system: nothing new, or
    the original bytes under the backup path and, only then, new content
    under the configured path. *)
Definition backedUp (before after : gmap string (list byte))
    (path backup : string) (origData : list byte) : Prop :=
  after = before ∨
  after = <[backup := origData]> before ∨
  ∃ outData, after = <[path := outData]> (<[backup := origData]> before).

End Run.

(** ** Change records

    The program appends [fmt.Sprintf] strings to [changes].  A record keeps
    the arguments of each [Sprintf] call (secrets already cut where the
    call cuts them); [render] of each variant is the call's format. *)

Module Report.

Inductive Field := FieldCA | FieldServer | FieldToken | FieldCert | FieldKey.

#[global] Instance Field_eq_dec : EqDecision Field.
Proof. solve_decision. Defined.

Inductive Change :=
| Updated (f : Field) (name old new : string)
| AddedCluster (name server ca : string)
| AddedUser (name token cert key : string).

Definition clusterField (f : Field) : bool :=
  match f with
  | FieldCA | FieldServer => true
  | _ => false
  end.

Definition aboutCluster (c : Change) : bool :=
  match c with
  | Updated f _ _ _ => clusterField f
  | AddedCluster _ _ _ => true
  | AddedUser _ _ _ _ => false
  end.

Definition aboutUser (c : Change) : bool := negb (aboutCluster c).

Definition isUpdate (f : Field) (c : Change) : bool :=
  match c with
  | Updated g _ _ _ => bool_decide (f = g)
  | _ => false
  end.

(** Position of an entry in a summary: cluster entries first, then user
    entries in the order token, certificate, key; [caFirst] says whether
    the CA entry stands before or after the server entry. *)
Definition rank (caFirst : bool) (c : Change) : nat :=
  match c with
  | Updated FieldCA _ _ _ => if caFirst then 0 else 1
  | Updated FieldServer _ _ _ => if caFirst then 1 else 0
  | AddedCluster _ _ _ => 1
  | Updated FieldToken _ _ _ => 2
  | Updated FieldCert _ _ _ => 3
  | Updated FieldKey _ _ _ => 4
  | AddedUser _ _ _ _ => 4
  end.

Fixpoint ascending (l : list nat) : bool :=
  match l with
  | x :: (y :: _) as rest => (x <? y)%nat && ascending rest
  | _ => true
  end.

Definition countWhere (p : Change → bool) (changes : list Change) : nat :=
  length (List.filter p changes).

Definition inOrder (caFirst : bool) (changes : list Change) : bool :=
  ascending (map (rank caFirst) changes).

End Report.

(** ** The YAML variant *)

Module Yaml.
Import Run Report.

Record Cluster := {
  Server : string;
  CertificateAuthorityData : string
}.

Record NamedCluster := { ncName : string; ncCluster : Cluster }.

Record Context := { ctxCluster : string; ctxUser : string }.

Record NamedContext := { nxName : string; nxContext : Context }.

Record User := {
  Token : string;
  ClientCertificateData : string;
  ClientKeyData : string
}.

Record NamedUser := { nuName : string; nuUser : User }.

Record KubeConfig := {
  APIVersion : string;
  Kind : string;
  Clusters : list NamedCluster;
  Contexts : list NamedContext;
  Users : list NamedUser;
  CurrentContext : string
}.

Definition withClusters (cfg : KubeConfig) (cs : list NamedCluster) :=
  {| APIVersion := APIVersion cfg; Kind := Kind cfg; Clusters := cs;
     Contexts := Contexts cfg; Users := Users cfg;
     CurrentContext := CurrentContext cfg |}.

Definition withContexts (cfg : KubeConfig) (xs : list NamedContext) :=
  {| APIVersion := APIVersion cfg; Kind := Kind cfg; Clusters := Clusters cfg;
     Contexts := xs; Users := Users cfg;
     CurrentContext := CurrentContext cfg |}.

Definition withUsers (cfg : KubeConfig) (us : list NamedUser) :=
  {| APIVersion := APIVersion cfg; Kind := Kind cfg; Clusters := Clusters cfg;
     Contexts := Contexts cfg; Users := us;
     CurrentContext := CurrentContext cfg |}.

(** [for i, x := range xs { if x.Name == name { ...; break } }]: the first
    index whose entry has the name, with the entry. *)
Definition findCluster (name : string) (cs : list NamedCluster) :=
  list_find (fun c => ncName c = name) cs.

Definition findContext (name : string) (xs : list NamedContext) :=
  list_find (fun x => nxName x = name) xs.

Definition findUser (name : string) (us : list NamedUser) :=
  list_find (fun u => nuName u = name) us.

(** The pasted contexts that use a cluster. *)
Definition usesCluster (name : string) (x : NamedContext) : Prop :=
  ctxCluster (nxContext x) = name.

#[global] Instance usesCluster_dec name x : Decision (usesCluster name x).
Proof. unfold usesCluster. apply _. Defined.

(** [targetContext] points into [origCfg.Contexts]: an index.  Every index
    the program builds is in range; the zero [Context] stands for the
    others. *)
Definition target (cfg : KubeConfig) (ti : nat) : Context :=
  match Contexts cfg !! ti with
  | Some x => nxContext x
  | None => {| ctxCluster := EmptyString; ctxUser := EmptyString |}
  end.

(** [targetContext.Context.Cluster = name] *)
Definition setTargetCluster (cfg : KubeConfig) (ti : nat) (name : string) :=
  match Contexts cfg !! ti with
  | Some x =>
      withContexts cfg
        (<[ti := {| nxName := nxName x;
                    nxContext := {| ctxCluster := name;
                                    ctxUser := ctxUser (nxContext x) |} |}]>
           (Contexts cfg))
  | None => cfg
  end.

Definition render (q : string → string) (c : Change) : string :=
  match c with
  | Updated FieldCA n o v =>
      "Updated cluster " +:+ q n +:+ " certificateAuthorityData from " +:+ o
        +:+ " to " +:+ v
  | Updated FieldServer n o v =>
      "Updated cluster " +:+ q n +:+ " server from " +:+ o +:+ " to " +:+ v
  | AddedCluster n s ca =>
      "Added new cluster " +:+ q n +:+ " with server " +:+ s
        +:+ " and certificateAuthorityData " +:+ ca
  | Updated FieldToken n o v =>
      "Updated user " +:+ q n +:+ " token from " +:+ o +:+ " to " +:+ v
  | Updated FieldCert n o v =>
      "Updated user " +:+ q n +:+ " clientCertificateData from " +:+ o
        +:+ " to " +:+ v
  | Updated FieldKey n o v =>
      "Updated user " +:+ q n +:+ " clientKeyData from " +:+ o +:+ " to " +:+ v
  | AddedUser n t c k =>
      "Added new user " +:+ q n +:+ " with token " +:+ t
        +:+ ", clientCertificateData " +:+ c +:+ ", and clientKeyData " +:+ k
  end.

(** *** Merge engine *)

(** [if old != new { changes = append(changes, ...) }] *)
Definition noteIf (differs : bool) (c : Change) (changes : list Change) :=
  if differs then changes ++ [c] else changes.

Definition differ (a b : string) : bool := negb (String.eqb a b).

(** "Update cluster information." *)
Definition mergeCluster (cfg : KubeConfig) (tc : Context)
    (pastedCluster : NamedCluster) (newContext updateServer : bool)
    (changes : list Change) : KubeConfig * list Change :=
  match findCluster (ctxCluster tc) (Clusters cfg) with
  | Some (i, c) =>
      let oldCA := CertificateAuthorityData (ncCluster c) in
      let newCA := CertificateAuthorityData (ncCluster pastedCluster) in
      let changes :=
        noteIf (differ oldCA newCA)
          (Updated FieldCA (ncName c) (shorten oldCA) (shorten newCA))
          changes in
      let oldServer := Server (ncCluster c) in
      let newServer := Server (ncCluster pastedCluster) in
      let changes :=
        if newContext || updateServer then
          noteIf (differ oldServer newServer)
            (Updated FieldServer (ncName c) (shorten oldServer)
               (shorten newServer))
            changes
        else changes in
      let server := if newContext || updateServer then newServer
                    else oldServer in
      (withClusters cfg
         (<[i := {| ncName := ncName c;
                    ncCluster := {| Server := server;
                                    CertificateAuthorityData := newCA |} |}]>
            (Clusters cfg)),
       changes)
  | None =>
      (withClusters cfg
         (Clusters cfg ++ [{| ncName := ctxCluster tc;
                              ncCluster := ncCluster pastedCluster |}]),
       changes ++ [AddedCluster (ctxCluster tc)
                     (shorten (Server (ncCluster pastedCluster)))
                     (shorten (CertificateAuthorityData
                                 (ncCluster pastedCluster)))])
  end.

(** "Update user information." *)
Definition mergeUser (cfg : KubeConfig) (tc : Context)
    (pastedUser : NamedUser) (changes : list Change)
    : KubeConfig * list Change :=
  match findUser (ctxUser tc) (Users cfg) with
  | Some (i, u) =>
      let old := nuUser u in
      let new := nuUser pastedUser in
      let changes :=
        noteIf (differ (Token old) (Token new))
          (Updated FieldToken (nuName u) (shorten (Token old))
             (shorten (Token new)))
          changes in
      let changes :=
        noteIf (differ (ClientCertificateData old) (ClientCertificateData new))
          (Updated FieldCert (nuName u) (shorten (ClientCertificateData old))
             (shorten (ClientCertificateData new)))
          changes in
      let changes :=
        noteIf (differ (ClientKeyData old) (ClientKeyData new))
          (Updated FieldKey (nuName u) (shorten (ClientKeyData old))
             (shorten (ClientKeyData new)))
          changes in
      (withUsers cfg (<[i := {| nuName := nuName u; nuUser := new |}]>
                        (Users cfg)),
       changes)
  | None =>
      (withUsers cfg
         (Users cfg ++ [{| nuName := ctxUser tc; nuUser := nuUser pastedUser |}]),
       changes ++ [AddedUser (ctxUser tc)
                     (shorten (Token (nuUser pastedUser)))
                     (shorten (ClientCertificateData (nuUser pastedUser)))
                     (shorten (ClientKeyData (nuUser pastedUser)))])
  end.

(** Lines "Prepare to record changes" to the end of the user update. *)
Definition merge (cfg : KubeConfig) (tc : Context)
    (pastedCluster : NamedCluster) (pastedUser : NamedUser)
    (newContext updateServer : bool) : KubeConfig * list Change :=
  let '(cfg1, changes) :=
    mergeCluster cfg tc pastedCluster newContext updateServer [] in
  mergeUser cfg1 tc pastedUser changes.

(** *** Interactive selector *)

Definition newline : string := String "010"%char EmptyString.

Section Pipeline.
Variable e : Env KubeConfig.

Let op := operator e.

(** "Gather context names" up to the end of the [if/else] that sets
    [targetContext] and [newContext]. *)
Definition selectTarget (origCfg : KubeConfig)
  : M (KubeConfig * nat * bool) :=
  let contextNames := map nxName (Contexts origCfg) ++ ["new context"] in
  let* selectedContext :=
    select op "Select a context to update" contextNames
      SelectContextFailed in
  if String.eqb selectedContext "new context" then
    let* names :=
      input3 op "Enter new context name" "Enter new cluster name"
        "Enter new user name" NewContextDetailsFailed in
    let '(newCtxName, newClusterName, newUserName) := names in
    let newCtx :=
      {| nxName := newCtxName;
         nxContext := {| ctxCluster := newClusterName;
                         ctxUser := newUserName |} |} in
    let cfg := withContexts origCfg (Contexts origCfg ++ [newCtx]) in
    ret (cfg, length (Contexts cfg) - 1, true)
  else
    match findContext selectedContext (Contexts origCfg) with
    | Some (i, _) => ret (origCfg, i, false)
    | None => exit (ContextNotFound selectedContext)
    end.

(** "For an existing context, ask if the server URL should be updated." *)
Definition askUpdateServer (newContext : bool) (tc : Context) : M bool :=
  if negb newContext then
    confirm op
      ("Do you want to update the server URL for cluster "
         +:+ ctxCluster tc +:+ "?")
      ConfirmServerFailed
  else ret false.

(** "Ask the user to paste a kubeconfig file" and parse it. *)
Definition readPasted : M KubeConfig :=
  let* pastedKubeconfig :=
    text op "Paste kubeconfig file (press ctrl+d when done)"
      ReadPastedFailed in
  orExit (unmarshal e (Go.bytesOfString pastedKubeconfig))
    ParsePastedFailed.

(** "Look for the target cluster in the pasted kubeconfig", with the
    selection on a miss; the selection renames the target's cluster. *)
Definition resolveCluster (origCfg : KubeConfig) (ti : nat)
    (newCfg : KubeConfig) : M (KubeConfig * NamedCluster) :=
  let targetClusterName := ctxCluster (target origCfg ti) in
  match findCluster targetClusterName (Clusters newCfg) with
  | Some (_, c) => ret (origCfg, c)
  | None =>
      let options := map ncName (Clusters newCfg) in
      let* selectedPastedClusterName :=
        select op
          ("The pasted kubeconfig does not contain a cluster named "
             +:+ targetClusterName
             +:+ ". Select a cluster from the pasted file")
          options SelectClusterFailed in
      match findCluster selectedPastedClusterName (Clusters newCfg) with
      | Some (_, c) =>
          ret (setTargetCluster origCfg ti selectedPastedClusterName, c)
      | None => exit SelectedClusterNotFound
      end
  end.

(** "Find in the pasted kubeconfig a context that uses the selected
    pasted cluster."  When the selection names no pasted context,
    [pastedContext] stays nil and the next line dereferences it. *)
Definition resolveContext (newCfg : KubeConfig)
    (pastedCluster : NamedCluster) : M NamedContext :=
  match list_find (usesCluster (ncName pastedCluster)) (Contexts newCfg) with
  | Some (_, x) => ret x
  | None =>
      let options :=
        map nxName
          (filter (usesCluster (ncName pastedCluster)) (Contexts newCfg)) in
      if (length options =? 0)%nat then
        exit (NoContextForCluster (ncName pastedCluster))
      else
        let* selectedPastedContextName :=
          select op
            ("Select a context from pasted kubeconfig for cluster "
               +:+ quote e (ncName pastedCluster))
            options SelectPastedContextFailed in
        match findContext selectedPastedContextName (Contexts newCfg) with
        | Some (_, x) => ret x
        | None => exit NilDereference
        end
  end.

(** "Using the context from the pasted file, determine the
    corresponding user." *)
Definition resolveUser (newCfg : KubeConfig) (pastedContext : NamedContext)
  : M NamedUser :=
  let targetPastedUserName := ctxUser (nxContext pastedContext) in
  match findUser targetPastedUserName (Users newCfg) with
  | Some (_, u) => ret u
  | None =>
      let options := map nuName (Users newCfg) in
      let* selectedPastedUserName :=
        select op "Select a user from the pasted kubeconfig" options
          SelectUserFailed in
      match findUser selectedPastedUserName (Users newCfg) with
      | Some (_, u) => ret u
      | None => exit SelectedUserNotFound
      end
  end.

(** *** Writer *)

Definition backupPath (configPath : string) : string :=
  configPath +:+ ".backup." +:+ Go.formatYYYYMMDD (now e).

Definition write (configPath : string) (origData outData : list byte)
  : M unit :=
  if tryFlag e then
    println (newline +:+ "---- Updated kubeconfig (try mode) ----");;
    println (stringOfBytes outData)
  else
    writeFile (backupPath configPath) origData WriteBackupFailed;;
    println ("Backup of original kubeconfig saved as "
               +:+ backupPath configPath);;
    writeFile configPath outData WriteConfigFailed;;
    println ("Kubeconfig updated successfully in " +:+ configPath).

(** *** [main] *)

(** What [main] holds once the pasted cluster is resolved. *)
Record Session := {
  configPath : string;
  origData : list byte;
  origCfg : KubeConfig;
  targetContext : nat;
  newContext : bool;
  updateServer : bool;
  newCfg : KubeConfig;
  pastedCluster : NamedCluster
}.

(** "Read the existing kubeconfig." *)
Definition load : M (string * list byte * KubeConfig) :=
  let* configPath := expandHome e in
  let* origData := readFile configPath (ReadConfigFailed configPath) in
  let* cfg0 := orExit (unmarshal e origData) ParseConfigFailed in
  ret (configPath, origData, cfg0).

(** [main] from its first line to the resolution of the pasted cluster. *)
Definition upToCluster : M Session :=
  let* loaded := load in
  let '(configPath, origData, cfg0) := loaded in
  let* sel := selectTarget cfg0 in
  let '(cfg1, ti, newContext) := sel in
  let* updateServer := askUpdateServer newContext (target cfg1 ti) in
  let* newCfg := readPasted in
  let* res := resolveCluster cfg1 ti newCfg in
  let '(cfg2, pastedCluster) := res in
  ret {| configPath := configPath; origData := origData; origCfg := cfg2;
         targetContext := ti; newContext := newContext;
         updateServer := updateServer; newCfg := newCfg;
         pastedCluster := pastedCluster |}.

(** The in-memory result of the merge for a session and a pasted user. *)
Definition merged (s : Session) (pastedUser : NamedUser)
  : KubeConfig * list Change :=
  merge (origCfg s) (target (origCfg s) (targetContext s))
    (pastedCluster s) pastedUser (newContext s) (updateServer s).

(** [main] from the merge to its last line. *)
Definition finish (s : Session) (pastedUser : NamedUser) : M unit :=
  let '(cfg, changes) := merged s pastedUser in
  let* outData := orExit (marshal e cfg) MarshalFailed in
  printSummary (map (render (quote e)) changes);;
  write (configPath s) (origData s) outData.

Definition main : M unit :=
  let* s := upToCluster in
  let* pastedContext := resolveContext (newCfg s) (pastedCluster s) in
  let* pastedUser := resolveUser (newCfg s) pastedContext in
  finish s pastedUser.

End Pipeline.

End Yaml.

(** ** The clientcmd variant *)

Module Clientcmd.
Import Run Report.

(** Go ranges over a map in an order of its own choosing, a new one at
    every [range] statement: any permutation of the entries, one per
    [range] site. *)
Record MapOrder := {
  shuffle : ∀ A : Type, nat → list A → list A;
  shuffle_perm : ∀ (A : Type) (site : nat) (l : list A), shuffle A site l ≡ₚ l
}.

Definition sourceOrder : MapOrder :=
  {| shuffle := fun _ _ l => l; shuffle_perm := fun _ _ l => reflexivity l |}.

Section Api.
(** The fields of client-go's [api.Cluster], [api.AuthInfo],
    [api.Context] and [api.Config] the program never reads or writes
    (namespace, file-based certificates, exec plugins, preferences,
    extensions, ...) travel in [Extra]; [zero] is what a composite
    literal leaves in them. *)
Context {Extra : Type} (zero : Extra).

Record Cluster := {
  Server : string;
  CertificateAuthorityData : list byte;
  clusterRest : Extra
}.

Record Context := {
  ctxCluster : string;
  AuthInfo : string;
  contextRest : Extra
}.

Record User := {
  Token : string;
  ClientCertificateData : list byte;
  ClientKeyData : list byte;
  userRest : Extra
}.

(** The maps hold pointers; [clientcmd.Load] allocates one object per
    entry, so an update through a pointer read from a map is an update of
    that map entry. *)
Record Config := {
  Clusters : gmap string Cluster;
  AuthInfos : gmap string User;
  Contexts : gmap string Context;
  CurrentContext : string;
  configRest : Extra
}.

Definition withClusters (cfg : Config) (cs : gmap string Cluster) :=
  {| Clusters := cs; AuthInfos := AuthInfos cfg; Contexts := Contexts cfg;
     CurrentContext := CurrentContext cfg; configRest := configRest cfg |}.

Definition withAuthInfos (cfg : Config) (us : gmap string User) :=
  {| Clusters := Clusters cfg; AuthInfos := us; Contexts := Contexts cfg;
     CurrentContext := CurrentContext cfg; configRest := configRest cfg |}.

Definition withContexts (cfg : Config) (xs : gmap string Context) :=
  {| Clusters := Clusters cfg; AuthInfos := AuthInfos cfg; Contexts := xs;
     CurrentContext := CurrentContext cfg; configRest := configRest cfg |}.

Definition render (q : string → string) (c : Change) : string :=
  match c with
  | Updated FieldServer n o v =>
      "Updated cluster " +:+ q n +:+ " server from " +:+ o +:+ " to " +:+ v
  | Updated FieldCA n o v =>
      "Updated cluster " +:+ q n +:+ " CA data from " +:+ o +:+ " to " +:+ v
  | AddedCluster n s ca =>
      "Added cluster " +:+ q n +:+ " with server " +:+ s
        +:+ " and CA data " +:+ ca
  | Updated FieldToken n o v =>
      "Updated user " +:+ q n +:+ " token from " +:+ o +:+ " to " +:+ v
  | Updated FieldCert n o v =>
      "Updated user " +:+ q n +:+ " client cert from " +:+ o +:+ " to " +:+ v
  | Updated FieldKey n o v =>
      "Updated user " +:+ q n +:+ " client key from " +:+ o +:+ " to " +:+ v
  | AddedUser n t c k =>
      "Added user " +:+ q n +:+ " with token " +:+ t +:+ ", client cert "
        +:+ c +:+ ", and client key " +:+ k
  end.

(** *** Merge engine *)

Definition noteIf (differs : bool) (c : Change) (changes : list Change) :=
  if differs then changes ++ [c] else changes.

Definition differ (a b : string) : bool := negb (String.eqb a b).

Definition differBytes (a b : list byte) : bool := negb (Go.bytesEqual a b).

(** "Update cluster" *)
Definition mergeCluster (cfg : Config) (targetClusterName : string)
    (pastedCluster : Cluster) (newContext updateServer : bool)
    (changes : list Change) : Config * list Change :=
  match Clusters cfg !! targetClusterName with
  | Some existingCluster =>
      let serverChanged :=
        (updateServer || newContext)
          && differ (Server existingCluster) (Server pastedCluster) in
      let changes :=
        noteIf serverChanged
          (Updated FieldServer targetClusterName (Server existingCluster)
             (Server pastedCluster))
          changes in
      let server := if serverChanged then Server pastedCluster
                    else Server existingCluster in
      let caChanged :=
        differBytes (CertificateAuthorityData existingCluster)
          (CertificateAuthorityData pastedCluster) in
      let changes :=
        noteIf caChanged
          (Updated FieldCA targetClusterName
             (shortenBytes (CertificateAuthorityData existingCluster))
             (shortenBytes (CertificateAuthorityData pastedCluster)))
          changes in
      let ca := if caChanged then CertificateAuthorityData pastedCluster
                else CertificateAuthorityData existingCluster in
      (withClusters cfg
         (<[targetClusterName :=
              {| Server := server; CertificateAuthorityData := ca;
                 clusterRest := clusterRest existingCluster |}]>
            (Clusters cfg)),
       changes)
  | None =>
      (withClusters cfg (<[targetClusterName := pastedCluster]> (Clusters cfg)),
       changes ++ [AddedCluster targetClusterName (Server pastedCluster)
                     (shortenBytes (CertificateAuthorityData pastedCluster))])
  end.

(** "Update user" *)
Definition mergeUser (cfg : Config) (targetUserName : string)
    (pastedUser : User) (changes : list Change) : Config * list Change :=
  match AuthInfos cfg !! targetUserName with
  | Some existingUser =>
      let tokenChanged := differ (Token existingUser) (Token pastedUser) in
      let changes :=
        noteIf tokenChanged
          (Updated FieldToken targetUserName (shorten (Token existingUser))
             (shorten (Token pastedUser)))
          changes in
      let certChanged :=
        differBytes (ClientCertificateData existingUser)
          (ClientCertificateData pastedUser) in
      let changes :=
        noteIf certChanged
          (Updated FieldCert targetUserName
             (shortenBytes (ClientCertificateData existingUser))
             (shortenBytes (ClientCertificateData pastedUser)))
          changes in
      let keyChanged :=
        differBytes (ClientKeyData existingUser) (ClientKeyData pastedUser) in
      let changes :=
        noteIf keyChanged
          (Updated FieldKey targetUserName
             (shortenBytes (ClientKeyData existingUser))
             (shortenBytes (ClientKeyData pastedUser)))
          changes in
      (withAuthInfos cfg
         (<[targetUserName :=
              {| Token := if tokenChanged then Token pastedUser
                          else Token existingUser;
                 ClientCertificateData :=
                   if certChanged then ClientCertificateData pastedUser
                   else ClientCertificateData existingUser;
                 ClientKeyData :=
                   if keyChanged then ClientKeyData pastedUser
                   else ClientKeyData existingUser;
                 userRest := userRest existingUser |}]>
            (AuthInfos cfg)),
       changes)
  | None =>
      (withAuthInfos cfg (<[targetUserName := pastedUser]> (AuthInfos cfg)),
       changes ++ [AddedUser targetUserName (shorten (Token pastedUser))
                     (shortenBytes (ClientCertificateData pastedUser))
                     (shortenBytes (ClientKeyData pastedUser))])
  end.

(** From [var changes []string] to the end of the user update, for a
    pasted cluster and user that are not nil. *)
Definition merge (cfg : Config) (targetClusterName targetUserName : string)
    (pastedCluster : Cluster) (pastedUser : User)
    (newContext updateServer : bool) : Config * list Change :=
  let '(cfg1, changes) :=
    mergeCluster cfg targetClusterName pastedCluster newContext
      updateServer [] in
  mergeUser cfg1 targetUserName pastedUser changes.

(** *** Interactive selector *)

Definition newline : string := String "010"%char EmptyString.

(** [targetContext] points at the object stored under
    [targetContextName]; the zero [Context] stands for a missing one,
    which the program never builds. *)
Definition target (cfg : Config) (targetContextName : string) : Context :=
  match Contexts cfg !! targetContextName with
  | Some x => x
  | None => {| ctxCluster := EmptyString; AuthInfo := EmptyString;
               contextRest := zero |}
  end.

(** [targetContext.Cluster = name] *)
Definition setTargetCluster (cfg : Config) (targetContextName name : string) :=
  match Contexts cfg !! targetContextName with
  | Some x =>
      withContexts cfg
        (<[targetContextName :=
             {| ctxCluster := name; AuthInfo := AuthInfo x;
                contextRest := contextRest x |}]> (Contexts cfg))
  | None => cfg
  end.

Definition usesCluster (name : string) (entry : string * Context) : Prop :=
  ctxCluster entry.2 = name.

#[global] Instance usesCluster_dec name entry
  : Decision (usesCluster name entry).
Proof. unfold usesCluster. apply _. Defined.

Section Pipeline.
Variable e : Env Config.
Variable o : MapOrder.

Let op := operator e.

(** [for name, x := range m] at a [range] site *)
Definition rangeMap {V} (site : nat) (m : gmap string V)
  : list (string * V) :=
  shuffle o _ site (map_to_list m).

(** "Gather context names" and "Select context", up to the end of the
    [if/else] that sets [targetContext]. *)
Definition selectTarget (origCfg : Config) : M (Config * string * bool) :=
  let contextNames := (rangeMap 0 (Contexts origCfg)).*1 ++ ["new context"] in
  let* selectedContext :=
    select op "Select a context to update" contextNames
      SelectContextFailed in
  if String.eqb selectedContext "new context" then
    let* names :=
      input3 op "Enter new context name" "Enter new cluster name"
        "Enter new user name" NewContextDetailsFailed in
    let '(newCtxName, newClusterName, newUserName) := names in
    let cfg :=
      withContexts origCfg
        (<[newCtxName := {| ctxCluster := newClusterName;
                            AuthInfo := newUserName;
                            contextRest := zero |}]> (Contexts origCfg)) in
    ret (cfg, newCtxName, true)
  else
    match Contexts origCfg !! selectedContext with
    | Some _ => ret (origCfg, selectedContext, false)
    | None => exit (ContextNotFound selectedContext)
    end.

Definition askUpdateServer (newContext : bool) (tc : Context) : M bool :=
  if negb newContext then
    confirm op ("Update server URL for cluster " +:+ ctxCluster tc +:+ "?")
      ConfirmServerFailed
  else ret false.

(** "Get pasted kubeconfig" *)
Definition readPasted : M Config :=
  let* pastedKubeconfig :=
    text op "Paste kubeconfig (ctrl+d when done)" ReadPastedFailed in
  orExit (unmarshal e (Go.bytesOfString pastedKubeconfig))
    ParsePastedFailed.

(** The pasted cluster: by the target's cluster name, else by
    selection, which also renames the target's cluster.  A selection
    that names no pasted cluster leaves [pastedCluster] nil. *)
Definition resolveCluster (origCfg : Config) (targetContextName : string)
    (newCfg : Config) : M (Config * string * option Cluster) :=
  let targetClusterName := ctxCluster (target origCfg targetContextName) in
  match Clusters newCfg !! targetClusterName with
  | Some c => ret (origCfg, targetClusterName, Some c)
  | None =>
      let clusterOptions := (rangeMap 1 (Clusters newCfg)).*1 in
      let* selectedCluster :=
        select op "Select cluster from pasted config" clusterOptions
          SelectClusterFailed in
      ret (setTargetCluster origCfg targetContextName selectedCluster,
           selectedCluster, Clusters newCfg !! selectedCluster)
  end.

(** The first pasted context met that uses the cluster, by name; the
    empty name also stands for "none met". *)
Definition firstContextFor (newCfg : Config) (targetClusterName : string)
  : string :=
  match list_find (usesCluster targetClusterName)
          (rangeMap 2 (Contexts newCfg)) with
  | Some (_, entry) => entry.1
  | None => EmptyString
  end.

Definition resolveContext (newCfg : Config) (targetClusterName : string)
  : M (option Context) :=
  let pastedContextName := firstContextFor newCfg targetClusterName in
  let* pastedContextName :=
    if String.eqb pastedContextName EmptyString then
      let ctxOptions :=
        (filter (usesCluster targetClusterName)
           (rangeMap 3 (Contexts newCfg))).*1 in
      if (length ctxOptions =? 0)%nat then
        exit (NoContextForCluster targetClusterName)
      else
        select op "Select context from pasted config" ctxOptions
          SelectPastedContextFailed
    else ret pastedContextName in
  ret (Contexts newCfg !! pastedContextName).

(** [newCfg.AuthInfos[pastedContext.AuthInfo]] dereferences
    [pastedContext]. *)
Definition resolveUser (newCfg : Config) (pastedContext : option Context)
  : M (option User) :=
  match pastedContext with
  | None => exit NilDereference
  | Some pastedContext =>
      match AuthInfos newCfg !! AuthInfo pastedContext with
      | Some u => ret (Some u)
      | None =>
          let userOptions := (rangeMap 4 (AuthInfos newCfg)).*1 in
          let* selectedUser :=
            select op "Select user from pasted config" userOptions
              SelectUserFailed in
          ret (AuthInfos newCfg !! selectedUser)
      end
  end.

(** *** Writer *)

Definition backupPath (configPath : string) : string :=
  configPath +:+ ".backup." +:+ Go.formatRFC3339 (now e).

Definition write (configPath : string) (origData : list byte)
    (cfg : Config) : M unit :=
  if tryFlag e then
    let* outData := orExit (marshal e cfg) MarshalFailed in
    println (newline +:+ "---- Updated kubeconfig (try mode) ----");;
    println (stringOfBytes outData)
  else
    writeFile (backupPath configPath) origData WriteBackupFailed;;
    println ("Backup saved to " +:+ backupPath configPath);;
    let* outData := orExit (marshal e cfg) MarshalFailed in
    writeFile configPath outData WriteConfigFailed;;
    println ("Successfully updated " +:+ configPath).

(** *** [main] *)

(** What [main] holds once the pasted cluster is resolved. *)
Record Session := {
  configPath : string;
  origData : list byte;
  origCfg : Config;
  targetContextName : string;
  targetClusterName : string;
  newContext : bool;
  updateServer : bool;
  newCfg : Config;
  pastedCluster : option Cluster
}.

(** "Read original kubeconfig content for backup", "Parse original
    kubeconfig" *)
Definition load : M (string * list byte * Config) :=
  let* configPath := expandHome e in
  let* origData := readFile configPath (ReadConfigFailed configPath) in
  let* cfg0 := orExit (unmarshal e origData) ParseConfigFailed in
  ret (configPath, origData, cfg0).

Definition upToCluster : M Session :=
  let* loaded := load in
  let '(configPath, origData, cfg0) := loaded in
  let* sel := selectTarget cfg0 in
  let '(cfg1, targetContextName, newContext) := sel in
  let* updateServer :=
    askUpdateServer newContext (target cfg1 targetContextName) in
  let* newCfg := readPasted in
  let* res := resolveCluster cfg1 targetContextName newCfg in
  let '(cfg2, targetClusterName, pastedCluster) := res in
  ret {| configPath := configPath; origData := origData; origCfg := cfg2;
         targetContextName := targetContextName;
         targetClusterName := targetClusterName;
         newContext := newContext; updateServer := updateServer;
         newCfg := newCfg; pastedCluster := pastedCluster |}.

(** The merge in [main]: every path through it reads a field of
    [pastedCluster] and one of [pastedUser]. *)
Definition merged (s : Session) (pastedUser : option User)
  : M (Config * list Change) :=
  match pastedCluster s, pastedUser with
  | Some c, Some u =>
      ret (merge (origCfg s) (targetClusterName s)
             (AuthInfo (target (origCfg s) (targetContextName s)))
             c u (newContext s) (updateServer s))
  | _, _ => exit NilDereference
  end.

Definition finish (s : Session) (pastedUser : option User) : M unit :=
  let* res := merged s pastedUser in
  let '(cfg, changes) := res in
  printSummary (map (render (quote e)) changes);;
  write (configPath s) (origData s) cfg.

Definition main : M unit :=
  let* s := upToCluster in
  let* pastedContext := resolveContext (newCfg s) (targetClusterName s) in
  let* pastedUser := resolveUser (newCfg s) pastedContext in
  finish s pastedUser.

End Pipeline.

End Api.

Arguments Cluster : clear implicits.
Arguments Context : clear implicits.
Arguments User : clear implicits.
Arguments Config : clear implicits.

End Clientcmd.

(** ** A concrete run

    The operator rotates the credentials of context [prod]; the documents
    are identified by their bytes, the parser is a table. *)

Module Scenario.
Import Run.

Definition doubleQuote : ascii := "034"%char.

(** [%q] on names without quotes, backslashes or control characters. *)
Definition quotePlain (s : string) : string :=
  String doubleQuote (s +:+ String doubleQuote EmptyString).

Definition clock : Go.Time :=
  {| Go.year := 2026; Go.month := 11; Go.day := 3; Go.hour := 8;
     Go.minute := 30; Go.second := 0; Go.zoneOffset := 0 |}.

Definition diskData : list byte := Go.bytesOfString "# kubeconfig on disk".
Definition pastedText : string := "# kubeconfig from the cluster admin".
Definition mergedData : list byte := Go.bytesOfString "# kubeconfig merged".

Definition caData : string := "LS0tLS1CRUdJTiBDRVJUSUZJQ0FURS0tLS0t".

Definition table {Cfg} (disk pasted : Cfg) (data : list byte) : option Cfg :=
  if bool_decide (data = diskData) then Some disk
  else if bool_decide (data = Go.bytesOfString pastedText) then Some pasted
  else None.

(** Picks [prod], agrees to update the server, pastes. *)
Definition rotate : Operator :=
  {| onSelect := fun title _ =>
       if String.eqb title "Select a context to update" then Some "prod"
       else None;
     onInput3 := fun _ _ _ => None;
     onConfirm := fun _ => Some true;
     onText := fun _ => Some pastedText |}.

(** Picks the sentinel, names a new context, and takes the pasted
    [prod-cluster] for it. *)
Definition create : Operator :=
  {| onSelect := fun title _ =>
       if String.eqb title "Select a context to update"
       then Some "new context" else Some "prod-cluster";
     onInput3 := fun _ _ _ => Some ("staging", "staging-cluster", "staging-user");
     onConfirm := fun _ => None;
     onText := fun _ => Some pastedText |}.

Definition env {Cfg} (disk pasted : Cfg) (try : bool) (op : Operator)
  : Env Cfg :=
  {| configFlag := "~/.kube/config"; tryFlag := try;
     userHomeDir := Some "/home/op";
     filepathJoin := fun a b => a +:+ b;
     now := clock; operator := op;
     unmarshal := table disk pasted;
     marshal := fun _ => Some mergedData;
     quote := quotePlain |}.

Definition world : World :=
  {| files := {[ "/home/op/.kube/config" := diskData ]};
     denied := fun _ => false; stdout := []; asked := [] |}.

(** The same machine with the backup path write-protected. *)
Definition lockedWorld (backup : string) : World :=
  {| files := {[ "/home/op/.kube/config" := diskData ]};
     denied := fun p => String.eqb p backup; stdout := []; asked := [] |}.

Module Y.
Import Yaml.

Definition disk : KubeConfig :=
  {| APIVersion := "v1"; Kind := "Config";
     Clusters :=
       [{| ncName := "dev-cluster";
           ncCluster := {| Server := "https://dev.example:6443";
                           CertificateAuthorityData := "ZGV2" |} |};
        {| ncName := "prod-cluster";
           ncCluster := {| Server := "https://old.example:6443";
                           CertificateAuthorityData := EmptyString |} |}];
     Contexts :=
       [{| nxName := "dev";
           nxContext := {| ctxCluster := "dev-cluster";
                           ctxUser := "dev-user" |} |};
        {| nxName := "prod";
           nxContext := {| ctxCluster := "prod-cluster";
                           ctxUser := "prod-user" |} |}];
     Users :=
       [{| nuName := "dev-user";
           nuUser := {| Token := "tok-dev"; ClientCertificateData := EmptyString;
                        ClientKeyData := EmptyString |} |};
        {| nuName := "prod-user";
           nuUser := {| Token := "tok-old-aaaa";
                        ClientCertificateData := EmptyString;
                        ClientKeyData := EmptyString |} |}];
     CurrentContext := "dev" |}.

Definition pasted : KubeConfig :=
  {| APIVersion := "v1"; Kind := "Config";
     Clusters :=
       [{| ncName := "prod-cluster";
           ncCluster := {| Server := "https://new.example:6443";
                           CertificateAuthorityData := caData |} |}];
     Contexts :=
       [{| nxName := "prod-paste";
           nxContext := {| ctxCluster := "prod-cluster";
                           ctxUser := "prod-user2" |} |}];
     Users :=
       [{| nuName := "prod-user2";
           nuUser := {| Token := "tok-new-bbbb";
                        ClientCertificateData := EmptyString;
                        ClientKeyData := EmptyString |} |}];
     CurrentContext := "prod-paste" |}.

(** A pasted document whose only context uses another cluster. *)
Definition orphan : KubeConfig :=
  {| APIVersion := "v1"; Kind := "Config";
     Clusters := Clusters pasted;
     Contexts :=
       [{| nxName := "other";
           nxContext := {| ctxCluster := "other-cluster";
                           ctxUser := "prod-user2" |} |}];
     Users := Users pasted;
     CurrentContext := "other" |}.

Definition prodContext : Context :=
  {| ctxCluster := "prod-cluster"; ctxUser := "prod-user" |}.

Definition pastedProd : NamedCluster :=
  {| ncName := "prod-cluster";
     ncCluster := {| Server := "https://new.example:6443";
                     CertificateAuthorityData := caData |} |}.

Definition pastedUser2 : NamedUser :=
  {| nuName := "prod-user2";
     nuUser := {| Token := "tok-new-bbbb";
                  ClientCertificateData := EmptyString;
                  ClientKeyData := EmptyString |} |}.
End Y.

Module C.
Import Clientcmd.

Definition caBytes : list byte := Go.bytesOfString "-----BEGIN CERTIFICATE-----".

Definition disk : Config unit :=
  {| Clusters :=
       {[ "dev-cluster" :=
            {| Server := "https://dev.example:6443";
               CertificateAuthorityData := Go.bytesOfString "dev";
               clusterRest := tt |};
          "prod-cluster" :=
            {| Server := "https://old.example:6443";
               CertificateAuthorityData := [];
               clusterRest := tt |} ]};
     AuthInfos :=
       {[ "dev-user" :=
            {| Token := "tok-dev"; ClientCertificateData := [];
               ClientKeyData := []; userRest := tt |};
          "prod-user" :=
            {| Token := "tok-old-aaaa"; ClientCertificateData := [];
               ClientKeyData := []; userRest := tt |} ]};
     Contexts :=
       {[ "dev" := {| ctxCluster := "dev-cluster"; AuthInfo := "dev-user";
                      contextRest := tt |};
          "prod" := {| ctxCluster := "prod-cluster"; AuthInfo := "prod-user";
                       contextRest := tt |} ]};
     CurrentContext := "dev"; configRest := tt |}.

Definition pastedProd : Cluster unit :=
  {| Server := "https://new.example:6443";
     CertificateAuthorityData := caBytes; clusterRest := tt |}.

Definition pastedUser2 : User unit :=
  {| Token := "tok-new-bbbb"; ClientCertificateData := [];
     ClientKeyData := []; userRest := tt |}.

Definition pasted : Config unit :=
  {| Clusters := {[ "prod-cluster" := pastedProd ]};
     AuthInfos := {[ "prod-user2" := pastedUser2 ]};
     Contexts :=
       {[ "prod-paste" := {| ctxCluster := "prod-cluster";
                             AuthInfo := "prod-user2";
                             contextRest := tt |} ]};
     CurrentContext := "prod-paste"; configRest := tt |}.

Definition orphan : Config unit :=
  {| Clusters := Clusters pasted;
     AuthInfos := AuthInfos pasted;
     Contexts :=
       {[ "other" := {| ctxCluster := "other-cluster";
                        AuthInfo := "prod-user2";
                        contextRest := tt |} ]};
     CurrentContext := "other"; configRest := tt |}.
End C.

End Scenario.

(** *** The sessions of the concrete run *)

Module Sessions.
Import Run Scenario.

Definition afterPrompts (confirmTitle pasteTitle : string) : World :=
  {| files := files world; denied := denied world; stdout := [];
     asked := [Select "Select a context to update" ["dev"; "prod"; "new context"];
               Confirm confirmTitle; Text pasteTitle] |}.

Module Y.
Import Yaml.

Definition prompted : World :=
  afterPrompts "Do you want to update the server URL for cluster prod-cluster?"
    "Paste kubeconfig file (press ctrl+d when done)".

Definition session (newCfg : KubeConfig) : Session :=
  {| configPath := "/home/op/.kube/config"; origData := diskData;
     origCfg := Scenario.Y.disk; targetContext := 1; newContext := false;
     updateServer := true; newCfg := newCfg;
     pastedCluster := Scenario.Y.pastedProd |}.

(** A document that already has a context called like the sentinel. *)
Definition shadowed : KubeConfig :=
  withContexts Scenario.Y.disk
    [{| nxName := "new context";
        nxContext := {| ctxCluster := "dev-cluster"; ctxUser := "dev-user" |} |}].
End Y.

Module C.
Import Clientcmd.

Definition prompted : World :=
  afterPrompts "Update server URL for cluster prod-cluster?"
    "Paste kubeconfig (ctrl+d when done)".

Definition session (newCfg : Config unit) : Session :=
  {| configPath := "/home/op/.kube/config"; origData := diskData;
     origCfg := Scenario.C.disk; targetContextName := "prod";
     targetClusterName := "prod-cluster"; newContext := false;
     updateServer := true; newCfg := newCfg;
     pastedCluster := Some Scenario.C.pastedProd |}.

Definition shadowed : Config unit :=
  withContexts Scenario.C.disk
    {[ "new context" := {| ctxCluster := "dev-cluster"; AuthInfo := "dev-user";
                           contextRest := tt |} ]}.
End C.

End Sessions.

(** ** Documents equal but for the target context *)

(** The document the selector was given and the one it hands on differ at
    most in the target context. *)
Record yamlSameButTarget (ti : nat) (cfg cfg' : Yaml.KubeConfig) : Prop := {
  yst_clusters : Yaml.Clusters cfg' = Yaml.Clusters cfg;
  yst_users : Yaml.Users cfg' = Yaml.Users cfg;
  yst_current : Yaml.CurrentContext cfg' = Yaml.CurrentContext cfg;
  yst_contexts : ∀ j, j ≠ ti → Yaml.Contexts cfg' !! j = Yaml.Contexts cfg !! j
}.

(** The document the selector was given and the one it hands on differ at
    most in the target context. *)
Record ccSameButTarget {Extra} (tn : string)
    (cfg cfg' : Clientcmd.Config Extra) : Prop := {
  cst_clusters : Clientcmd.Clusters cfg' = Clientcmd.Clusters cfg;
  cst_users : Clientcmd.AuthInfos cfg' = Clientcmd.AuthInfos cfg;
  cst_current : Clientcmd.CurrentContext cfg' = Clientcmd.CurrentContext cfg;
  cst_rest : Clientcmd.configRest cfg' = Clientcmd.configRest cfg;
  cst_contexts :
    ∀ k, k ≠ tn → Clientcmd.Contexts cfg' !! k = Clientcmd.Contexts cfg !! k
}.


(** ** Observations on steps *)

(** A step that prints nothing and writes no file. *)
Definition quiet {A} (m : Run.M A) : Prop :=
  ∀ w, Run.files (m w).1 = Run.files w ∧ Run.stdout (m w).1 = Run.stdout w.

(** A step whose failures all satisfy [P]. *)
Definition failsOnly {A} (P : Run.Failure → Prop) (m : Run.M A) : Prop :=
  ∀ w w' f, m w = (w', inl f) → P f.

(** A step that, when it succeeds, has shown between [lo] and [hi] forms
    and taken back none. *)
Definition asksBetween {A} (lo hi : nat) (m : Run.M A) : Prop :=
  ∀ w w' a, m w = (w', inr a) →
    ∃ shown, Run.asked w' = Run.asked w ++ shown ∧ lo ≤ length shown ≤ hi.

(** A document with two clusters and two users of the same name. *)
Definition twins : Yaml.KubeConfig :=
  {| Yaml.APIVersion := "v1"; Yaml.Kind := "Config";
     Yaml.Clusters :=
       [{| Yaml.ncName := "prod-cluster";
           Yaml.ncCluster := {| Yaml.Server := "https://a.example";
                                Yaml.CertificateAuthorityData := EmptyString |} |};
        {| Yaml.ncName := "prod-cluster";
           Yaml.ncCluster := {| Yaml.Server := "https://b.example";
                                Yaml.CertificateAuthorityData := EmptyString |} |}];
     Yaml.Contexts :=
       [{| Yaml.nxName := "prod";
           Yaml.nxContext := {| Yaml.ctxCluster := "prod-cluster";
                                Yaml.ctxUser := "prod-user" |} |}];
     Yaml.Users :=
       [{| Yaml.nuName := "prod-user";
           Yaml.nuUser := {| Yaml.Token := "one";
                             Yaml.ClientCertificateData := EmptyString;
                             Yaml.ClientKeyData := EmptyString |} |};
        {| Yaml.nuName := "prod-user";
           Yaml.nuUser := {| Yaml.Token := "two";
                             Yaml.ClientCertificateData := EmptyString;
                             Yaml.ClientKeyData := EmptyString |} |}];
     Yaml.CurrentContext := "prod" |}.

(** *** Further runs of the scenario *)

Module Reruns.
Import Run Scenario.

(** One second later. *)
Definition laterClock : Go.Time :=
  {| Go.year := 2026; Go.month := 11; Go.day := 3; Go.hour := 8;
     Go.minute := 30; Go.second := 1; Go.zoneOffset := 0 |}.

(** The parser of a machine that also knows the merged file. *)
Definition tableAfter {Cfg} (disk merged pasted : Cfg) (data : list byte)
  : option Cfg :=
  if bool_decide (data = mergedData) then Some merged
  else table disk pasted data.

Definition envAfter {Cfg} (disk merged pasted : Cfg) (clock : Go.Time)
  : Env Cfg :=
  {| configFlag := "~/.kube/config"; tryFlag := false;
     userHomeDir := Some "/home/op";
     filepathJoin := fun a b => a +:+ b;
     now := clock; operator := rotate;
     unmarshal := tableAfter disk merged pasted;
     marshal := fun _ => Some mergedData;
     quote := quotePlain |}.

(** What the first run of the scenario leaves in the file. *)
Definition mergedY : Yaml.KubeConfig :=
  (Yaml.merged (Sessions.Y.session Scenario.Y.pasted) Scenario.Y.pastedUser2).1.


(** Picks [dev], whose cluster the pasted file lacks, then answers every
    other selection with [answer]. *)
Definition pickDev (answer : string) : Operator :=
  {| onSelect := fun title _ =>
       if String.eqb title "Select a context to update" then Some "dev"
       else Some answer;
     onInput3 := fun _ _ _ => None;
     onConfirm := fun _ => Some true;
     onText := fun _ => Some pastedText |}.

(** Asks for a new context and gives it the name of an existing one. *)
Definition recreate : Operator :=
  {| onSelect := fun _ _ => Some "new context";
     onInput3 := fun _ _ _ => Some ("dev", "prod-cluster", "prod-user");
     onConfirm := fun _ => None;
     onText := fun _ => Some pastedText |}.

(** A machine without the kubeconfig. *)
Definition bareWorld : World :=
  {| files := ∅; denied := fun _ => false; stdout := []; asked := [] |}.

(** A pasted document whose context has the empty name. *)
Definition anonymous : Clientcmd.Config unit :=
  {| Clientcmd.Clusters := Clientcmd.Clusters Scenario.C.pasted;
     Clientcmd.AuthInfos := Clientcmd.AuthInfos Scenario.C.pasted;
     Clientcmd.Contexts :=
       {[ EmptyString :=
            {| Clientcmd.ctxCluster := "prod-cluster";
               Clientcmd.AuthInfo := "prod-user2";
               Clientcmd.contextRest := tt |} ]};
     Clientcmd.CurrentContext := EmptyString;
     Clientcmd.configRest := tt |}.

End Reruns.

(** * Facts *)

Import Report Run.

(** ** The process monad *)

Section Monad.
Context {A B : Type}.

Lemma bind_inr (m : M A) (k : A → M B) w w' b :
  bind m k w = (w', inr b) →
  ∃ a w1, m w = (w1, inr a) ∧ k a w1 = (w', inr b).
Proof.
  unfold bind. destruct (m w) as [w1 [f|a]]; [discriminate|]. eauto.
Qed.

Lemma bind_step (m : M A) (k : A → M B) w w1 a :
  m w = (w1, inr a) → bind m k w = k a w1.
Proof. unfold bind. by intros ->. Qed.

Lemma bind_exit (m : M A) (k : A → M B) w w1 f :
  m w = (w1, inl f) → bind m k w = (w1, inl f).
Proof. unfold bind. by intros ->. Qed.

Lemma keepsFiles_bind (m : M A) (k : A → M B) :
  keepsFiles m → (∀ a, keepsFiles (k a)) → keepsFiles (bind m k).
Proof.
  intros Hm Hk w. unfold bind. specialize (Hm w).
  destruct (m w) as [w1 [f|a]]; simpl in *; [done|].
  by rewrite Hk.
Qed.
End Monad.

Lemma keepsFiles_ret {A} (a : A) : keepsFiles (ret a).
Proof. done. Qed.

Lemma keepsFiles_exit {A} f : keepsFiles (@exit A f).
Proof. done. Qed.

Lemma keepsFiles_println s : keepsFiles (println s).
Proof. done. Qed.

Lemma keepsFiles_answer {A} p (a : option A) f : keepsFiles (answer p a f).
Proof. intros w. unfold answer. by destruct a. Qed.

Lemma keepsFiles_readFile p f : keepsFiles (readFile p f).
Proof. intros w. unfold readFile. by destruct (files w !! p). Qed.

Lemma keepsFiles_orExit {A} (a : option A) f : keepsFiles (orExit a f).
Proof. by destruct a. Qed.

Lemma keepsFiles_printSummary l : keepsFiles (printSummary l).
Proof.
  unfold printSummary. apply keepsFiles_bind; [apply keepsFiles_println|].
  intros _. destruct l as [|c l]; [apply keepsFiles_println|].
  generalize (c :: l). clear. intros l.
  induction l as [|x l IH]; simpl; [apply keepsFiles_ret|].
  apply keepsFiles_bind; [apply keepsFiles_println|done].
Qed.

Lemma keepsFiles_expandHome {C} (e : Env C) : keepsFiles (expandHome e).
Proof.
  unfold expandHome. destruct (String.prefix _ _); [|apply keepsFiles_ret].
  apply keepsFiles_bind; [apply keepsFiles_orExit|]. intros; apply keepsFiles_ret.
Qed.

Create HintDb keeps.
#[export] Hint Resolve keepsFiles_ret keepsFiles_exit keepsFiles_println
  keepsFiles_answer keepsFiles_readFile keepsFiles_orExit
  keepsFiles_printSummary keepsFiles_expandHome : keeps.

Ltac keeps :=
  repeat first
    [ solve [auto with keeps]
    | apply keepsFiles_bind; [|intro]
    | match goal with
      | |- keepsFiles (match ?x with _ => _ end) => destruct x
      | |- keepsFiles (let '(_, _) := ?x in _) => destruct x
      end ].


(** ** First match in a slice *)

Section Find.
Context {A : Type} (P : A → Prop) `{!∀ x, Decision (P x)}.

Lemma find_insert (l : list A) i x y :
  list_find P l = Some (i, x) → P y →
  list_find P (<[i := y]> l) = Some (i, y).
Proof.
  intros Hf Hy. apply list_find_Some in Hf as (Hi & _ & Hlt).
  apply list_find_Some. split_and!; [|done|].
  - apply list_lookup_insert_eq. by eapply lookup_lt_Some.
  - intros j z Hj Hji. rewrite list_lookup_insert_ne in Hj by lia. eauto.
Qed.

Lemma find_snoc (l : list A) y :
  list_find P l = None → P y →
  list_find P (l ++ [y]) = Some (length l, y).
Proof.
  intros Hf Hy. apply list_find_None in Hf. rewrite Forall_lookup in Hf.
  apply list_find_Some. split_and!; [|done|].
  - by rewrite lookup_app_r, Nat.sub_diag.
  - intros j z Hj Hji. rewrite lookup_app_l in Hj by done. eauto.
Qed.

Lemma find_at (l : list A) i x :
  list_find P l = Some (i, x) → l !! i = Some x ∧ P x.
Proof. intros Hf. apply list_find_Some in Hf. tauto. Qed.

Lemma find_none (l : list A) j y :
  list_find P l = None → l !! j = Some y → ¬ P y.
Proof.
  intros Hf Hj. apply list_find_None in Hf. rewrite Forall_lookup in Hf. eauto.
Qed.
End Find.

Section YamlMerge.
Import Yaml.

Lemma yaml_differ_false a b : differ a b = false ↔ a = b.
Proof. unfold differ. rewrite negb_false_iff. apply String.eqb_eq. Qed.

Lemma yaml_differ_true a b : differ a b = true ↔ a ≠ b.
Proof. unfold differ. rewrite negb_true_iff. apply String.eqb_neq. Qed.


Lemma yaml_mergeCluster_frame cfg tc pc nc us ch0 cfg' ch :
  mergeCluster cfg tc pc nc us ch0 = (cfg', ch) →
  (∀ j c, ncName c ≠ ctxCluster tc →
     Clusters cfg' !! j = Some c ↔ Clusters cfg !! j = Some c) ∧
  Contexts cfg' = Contexts cfg ∧ Users cfg' = Users cfg ∧
  CurrentContext cfg' = CurrentContext cfg.
Proof.
  unfold mergeCluster, findCluster.
  destruct (list_find _ _) as [[i c]|] eqn:Hf.
  - intros [= <- <-]. simpl. split; [|done].
    apply find_at in Hf as (Hi & Hn).
    intros j d Hd. destruct (decide (i = j)) as [->|Hne].
    + rewrite list_lookup_insert_eq by (by eapply lookup_lt_Some).
      split; intros H; [injection H as <-; simpl in Hd; congruence|].
      rewrite Hi in H. injection H as <-. congruence.
    + by rewrite list_lookup_insert_ne.
  - intros [= <- <-]. simpl. split; [|done].
    intros j d Hd. split.
    + intros H. apply lookup_app_Some in H as [H|[_ H]]; [done|].
      apply list_lookup_singleton_Some in H as [_ <-]. done.
    + intros H. by apply lookup_app_l_Some.
Qed.

Lemma yaml_mergeUser_frame cfg tc pu ch0 cfg' ch :
  mergeUser cfg tc pu ch0 = (cfg', ch) →
  (∀ j u, nuName u ≠ ctxUser tc →
     Users cfg' !! j = Some u ↔ Users cfg !! j = Some u) ∧
  Contexts cfg' = Contexts cfg ∧ Clusters cfg' = Clusters cfg ∧
  CurrentContext cfg' = CurrentContext cfg.
Proof.
  unfold mergeUser, findUser.
  destruct (list_find _ _) as [[i c]|] eqn:Hf.
  - intros [= <- <-]. simpl. split; [|done].
    apply find_at in Hf as (Hi & Hn).
    intros j d Hd. destruct (decide (i = j)) as [->|Hne].
    + rewrite list_lookup_insert_eq by (by eapply lookup_lt_Some).
      split; intros H; [injection H as <-; simpl in Hd; congruence|].
      rewrite Hi in H. injection H as <-. congruence.
    + by rewrite list_lookup_insert_ne.
  - intros [= <- <-]. simpl. split; [|done].
    intros j d Hd. split.
    + intros H. apply lookup_app_Some in H as [H|[_ H]]; [done|].
      apply list_lookup_singleton_Some in H as [_ <-]. done.
    + intros H. by apply lookup_app_l_Some.
Qed.

Lemma yaml_merge_frame cfg tc pc pu nc us cfg' ch :
  merge cfg tc pc pu nc us = (cfg', ch) →
  (∀ j c, ncName c ≠ ctxCluster tc →
     Clusters cfg' !! j = Some c ↔ Clusters cfg !! j = Some c) ∧
  (∀ j u, nuName u ≠ ctxUser tc →
     Users cfg' !! j = Some u ↔ Users cfg !! j = Some u) ∧
  Contexts cfg' = Contexts cfg ∧
  CurrentContext cfg' = CurrentContext cfg.
Proof.
  unfold merge. destruct (mergeCluster _ _ _ _ _ _) as [cfg1 ch1] eqn:H1.
  intros H2.
  apply yaml_mergeCluster_frame in H1 as (Hc & Hx & Hu & Hcur).
  apply yaml_mergeUser_frame in H2 as (Hu' & Hx' & Hc' & Hcur').
  rewrite Hc', Hx', Hcur', <- Hu. done.
Qed.

(** the cluster the merge leaves under the target name *)
Lemma yaml_mergeCluster_result cfg tc pc nc us ch0 :
  ∃ i c',
    findCluster (ctxCluster tc) (Clusters (mergeCluster cfg tc pc nc us ch0).1)
      = Some (i, c') ∧
    CertificateAuthorityData (ncCluster c')
      = CertificateAuthorityData (ncCluster pc) ∧
    (nc || us = true → Server (ncCluster c') = Server (ncCluster pc)) ∧
    match findCluster (ctxCluster tc) (Clusters cfg) with
    | Some (j, c) =>
        i = j ∧ (nc || us = false → Server (ncCluster c') = Server (ncCluster c))
    | None => i = length (Clusters cfg) ∧ ncCluster c' = ncCluster pc
    end.
Proof.
  unfold mergeCluster. unfold findCluster at 2 3.
  destruct (list_find _ (Clusters cfg)) as [[i c]|] eqn:Hf; simpl.
  - eexists i, _. split.
    + eapply find_insert; [exact Hf|]. simpl. by apply find_at in Hf as [_ ?].
    + simpl. destruct (nc || us); done.
  - eexists _, _. split; [by apply find_snoc|]. done.
Qed.

Lemma yaml_mergeUser_result cfg tc pu ch0 :
  ∃ i u',
    findUser (ctxUser tc) (Users (mergeUser cfg tc pu ch0).1) = Some (i, u') ∧
    nuUser u' = nuUser pu ∧
    match findUser (ctxUser tc) (Users cfg) with
    | Some (j, _) => i = j
    | None => i = length (Users cfg)
    end.
Proof.
  unfold mergeUser. unfold findUser at 2 3.
  destruct (list_find _ (Users cfg)) as [[i c]|] eqn:Hf; simpl.
  - eexists i, _. split.
    + eapply find_insert; [exact Hf|]. simpl. by apply find_at in Hf as [_ ?].
    + done.
  - eexists _, _. split; [by apply find_snoc|]. done.
Qed.




Lemma yaml_mergeUser_clusters cfg tc pu ch0 :
  Clusters (mergeUser cfg tc pu ch0).1 = Clusters cfg.
Proof.
  destruct (mergeUser cfg tc pu ch0) as [cfg1 ch1] eqn:H.
  by apply yaml_mergeUser_frame in H as (_ & _ & ? & _).
Qed.




End YamlMerge.

(** ** The YAML variant writes no file before the writer *)

Lemma yaml_keepsFiles_selectTarget e cfg : keepsFiles (Yaml.selectTarget e cfg).
Proof. unfold Yaml.selectTarget, select, input3. keeps. Qed.
#[export] Hint Resolve yaml_keepsFiles_selectTarget : keeps.
Lemma yaml_keepsFiles_resolveContext e cfg pc : keepsFiles (Yaml.resolveContext e cfg pc).
Proof. unfold Yaml.resolveContext, select. keeps. Qed.
#[export] Hint Resolve yaml_keepsFiles_resolveContext : keeps.
Lemma yaml_keepsFiles_resolveUser e cfg pc : keepsFiles (Yaml.resolveUser e cfg pc).
Proof. unfold Yaml.resolveUser, select. keeps. Qed.
#[export] Hint Resolve yaml_keepsFiles_resolveUser : keeps.
Lemma yaml_keepsFiles_upToCluster e : keepsFiles (Yaml.upToCluster e).
Proof.
  unfold Yaml.upToCluster, Yaml.load, Yaml.askUpdateServer, Yaml.readPasted, Yaml.resolveCluster, confirm, text, select.
  keeps.
Qed.
#[export] Hint Resolve yaml_keepsFiles_upToCluster : keeps.

(** ** Inversion of the selector steps (YAML variant) *)

Lemma answer_inr {A} p (a : option A) f w w' v :
  answer p a f w = (w', inr v) → a = Some v ∧ w' = show p w.
Proof. unfold answer. destruct a; intros [= <- <-]; done. Qed.

Lemma orExit_inr {A} (a : option A) f w w' v :
  orExit a f w = (w', inr v) → a = Some v ∧ w' = w.
Proof. destruct a; intros [= <- <-]; done. Qed.

Lemma ret_inr {A} (a : A) w w' v : ret a w = (w', inr v) → v = a ∧ w' = w.
Proof. by intros [= <- <-]. Qed.

Section YamlSelector.
Import Yaml.
Variable e : Env KubeConfig.

Lemma yaml_sameButTarget_refl ti cfg : yamlSameButTarget ti cfg cfg.
Proof. by split. Qed.

Lemma yaml_sameButTarget_trans ti a b c :
  yamlSameButTarget ti a b → yamlSameButTarget ti b c → yamlSameButTarget ti a c.
Proof.
  intros [H1 H2 H3 H4] [K1 K2 K3 K4].
  split; [by rewrite K1|by rewrite K2|by rewrite K3|].
  intros j Hj. by rewrite K4, H4.
Qed.

Lemma yaml_selectTarget_inv cfg w w' cfg1 ti nc :
  selectTarget e cfg w = (w', inr (cfg1, ti, nc)) →
  yamlSameButTarget ti cfg cfg1 ∧ is_Some (Contexts cfg1 !! ti) ∧
  if nc then ti = length (Contexts cfg)
  else ∃ x, Contexts cfg !! ti = Some x ∧ nxName x ≠ "new context".
Proof.
  unfold selectTarget. intros H.
  apply bind_inr in H as (sel & w1 & Hsel & H).
  destruct (String.eqb sel "new context") eqn:Hnew.
  - apply bind_inr in H as ([[a b] c] & w2 & _ & H).
    apply ret_inr in H as [[= -> -> ->] _]. simpl.
    rewrite length_app, Nat.add_sub. simpl. split_and!; [|..|done].
    + split; try done. simpl. intros j Hj.
      destruct (decide (j < length (Contexts cfg))).
      * by rewrite lookup_app_l.
      * rewrite !lookup_ge_None_2; [done|lia|rewrite length_app; simpl; lia].
    + rewrite lookup_app_r, Nat.sub_diag by done. by eexists.
  - destruct (findContext sel (Contexts cfg)) as [[i x]|] eqn:Hf; [|discriminate].
    apply ret_inr in H as [[= -> -> ->] _].
    apply find_at in Hf as [Hi Hn].
    split_and!; [apply yaml_sameButTarget_refl|by eexists|].
    exists x. split; [done|]. simpl in Hn. rewrite Hn.
    by apply String.eqb_neq.
Qed.

Lemma yaml_setTargetCluster_spec cfg ti name :
  is_Some (Contexts cfg !! ti) →
  yamlSameButTarget ti cfg (setTargetCluster cfg ti name) ∧
  is_Some (Contexts (setTargetCluster cfg ti name) !! ti) ∧
  ctxCluster (target (setTargetCluster cfg ti name) ti) = name ∧
  ctxUser (target (setTargetCluster cfg ti name) ti) = ctxUser (target cfg ti).
Proof.
  intros [x Hx]. unfold setTargetCluster, target. rewrite Hx. simpl.
  rewrite list_lookup_insert_eq by (by eapply lookup_lt_Some). simpl.
  split_and!; try done. split; try done. simpl.
  intros j Hj. by rewrite list_lookup_insert_ne.
Qed.

Lemma yaml_resolveCluster_inv cfg1 ti newCfg w w' cfg2 pc :
  is_Some (Contexts cfg1 !! ti) →
  resolveCluster e cfg1 ti newCfg w = (w', inr (cfg2, pc)) →
  yamlSameButTarget ti cfg1 cfg2 ∧
  is_Some (Contexts cfg2 !! ti) ∧
  ctxCluster (target cfg2 ti) = ncName pc ∧
  ctxUser (target cfg2 ti) = ctxUser (target cfg1 ti) ∧
  (∃ i, Clusters newCfg !! i = Some pc).
Proof.
  intros Hti. unfold resolveCluster.
  destruct (findCluster _ _) as [[i c]|] eqn:Hf.
  - intros H. apply ret_inr in H as [[= -> ->] _].
    apply find_at in Hf as [Hi Hn].
    split_and!; [apply yaml_sameButTarget_refl|done|done|done|by eexists].
  - intros H. apply bind_inr in H as (sel & w1 & _ & H).
    destruct (findCluster sel _) as [[i c]|] eqn:Hs; [|discriminate].
    apply ret_inr in H as [[= -> ->] _].
    apply find_at in Hs as [Hi Hn]. simpl in Hn. subst sel.
    destruct (yaml_setTargetCluster_spec cfg1 ti (ncName c) Hti) as (?&?&?&?).
    split_and!; [done..|by eexists].
Qed.

Lemma yaml_load_inv w w' p d cfg0 :
  load e w = (w', inr (p, d, cfg0)) →
  w' = w ∧ files w !! p = Some d ∧ unmarshal e d = Some cfg0.
Proof.
  unfold load. intros H.
  apply bind_inr in H as (p1 & w1 & Hp & H).
  assert (w1 = w) as ->.
  { unfold expandHome in Hp. destruct (String.prefix _ _).
    - apply bind_inr in Hp as (h & w2 & Hh & Hp).
      apply orExit_inr in Hh as [_ ->]. by apply ret_inr in Hp as [_ ->].
    - by apply ret_inr in Hp as [_ ->]. }
  apply bind_inr in H as (d1 & w2 & Hd & H).
  unfold readFile in Hd. destruct (files w !! p1) eqn:Hr; [|discriminate].
  injection Hd as <- <-.
  apply bind_inr in H as (c & w3 & Hc & H).
  apply orExit_inr in Hc as [Hc ->].
  apply ret_inr in H as [[= -> -> ->] ->]. done.
Qed.

Lemma yaml_upToCluster_inv w w' s :
  upToCluster e w = (w', inr s) →
  let ti := targetContext s in
  ∃ cfg0,
    load e w = (w, inr (configPath s, origData s, cfg0)) ∧
    yamlSameButTarget ti cfg0 (origCfg s) ∧
    is_Some (Contexts (origCfg s) !! ti) ∧
    ctxCluster (target (origCfg s) ti) = ncName (pastedCluster s).
Proof.
  unfold upToCluster. intros H.
  apply bind_inr in H as ([[p d] cfg0] & w1 & Hl & H).
  destruct (yaml_load_inv _ _ _ _ _ Hl) as (-> & _).
  apply bind_inr in H as ([[cfg1 ti] nc] & w2 & Hsel & H).
  apply bind_inr in H as (us & w3 & _ & H).
  apply bind_inr in H as (newCfg & w4 & _ & H).
  apply bind_inr in H as ([cfg2 pc] & w5 & Hres & H).
  apply ret_inr in H as [-> ->]. simpl.
  apply yaml_selectTarget_inv in Hsel as (Hs1 & Hsome & _).
  apply yaml_resolveCluster_inv in Hres as (Hs2 & Hsome2 & Hn & _); [|done].
  exists cfg0. split_and!; try done.
  by eapply yaml_sameButTarget_trans.
Qed.
End YamlSelector.

(** ** Strings and truncation *)

Section Strings.
Implicit Types s t : string.

Lemma length_append s t :
  String.length (s +:+ t) = String.length s + String.length t.
Proof. induction s as [|c s IH]; simpl; [done|]. by rewrite IH. Qed.

Lemma substring_0_0 s : substring 0 0 s = EmptyString.
Proof. by destruct s. Qed.

Lemma substring_whole s : substring 0 (String.length s) s = s.
Proof. induction s as [|c s IH]; simpl; [done|]. by rewrite IH. Qed.

Lemma length_substring n m s :
  n + m ≤ String.length s → String.length (substring n m s) = m.
Proof.
  revert n m. induction s as [|c s IH]; intros n m H; simpl in *.
  - assert (n = 0 ∧ m = 0) as [-> ->] by lia. done.
  - destruct n as [|n].
    + destruct m as [|m]; simpl; [done|]. rewrite IH; [done|lia].
    + apply IH. lia.
Qed.

Lemma substring_cut n s :
  n ≤ String.length s →
  s = substring 0 n s +:+ substring n (String.length s - n) s.
Proof.
  revert s. induction n as [|n IH]; intros s H.
  - rewrite substring_0_0, Nat.sub_0_r, substring_whole. done.
  - destruct s as [|c s]; simpl in *; [lia|].
    change (String c s
            = String c (substring 0 n s
                          +:+ substring n (String.length s - n) s)).
    f_equal. apply IH. lia.
Qed.

Lemma substring_of_rest a k m s :
  a ≤ String.length s →
  substring k m (substring a (String.length s - a) s) = substring (a + k) m s.
Proof.
  revert s. induction a as [|a IH]; intros s H.
  - by rewrite Nat.sub_0_r, substring_whole.
  - destruct s as [|c s]; simpl in *; [lia|]. apply IH. lia.
Qed.

(** Above ten bytes the first five and the last five do not overlap. *)
Lemma ends_of_string s :
  10 ≤ String.length s →
  ∃ mid,
    s = substring 0 5 s +:+ mid +:+ substring (String.length s - 5) 5 s ∧
    String.length (substring 0 5 s) = 5 ∧
    String.length (substring (String.length s - 5) 5 s) = 5.
Proof.
  intros H.
  set (r := substring 5 (String.length s - 5) s).
  assert (Hr : String.length r = String.length s - 5).
  { apply length_substring. lia. }
  exists (substring 0 (String.length s - 10) r). split_and!.
  - assert (Hs : substring (String.length s - 5) 5 s
                 = substring (String.length s - 10)
                     (String.length r - (String.length s - 10)) r).
    { unfold r at 2. rewrite substring_of_rest by lia. rewrite Hr.
      f_equal; lia. }
    rewrite Hs, <- substring_cut by lia.
    apply substring_cut. lia.
  - apply length_substring. lia.
  - apply length_substring. lia.
Qed.
End Strings.

Lemma shorten_short s : String.length s ≤ 15 → shorten s = s.
Proof.
  intros H. unfold shorten.
  by destruct (Nat.leb_spec (String.length s) 15); [|lia].
Qed.

Lemma shorten_long s :
  15 < String.length s →
  shorten s = substring 0 5 s +:+ "..." +:+ substring (String.length s - 5) 5 s.
Proof.
  intros H. unfold shorten.
  by destruct (Nat.leb_spec (String.length s) 15); [lia|].
Qed.

Lemma shortenBytes_nonempty data :
  data ≠ [] → shortenBytes data = shorten (Go.EncodeToString data).
Proof. intros H. unfold shortenBytes, shorten. by destruct data. Qed.

(** four characters for every three bytes, the last group padded *)
Lemma length_EncodeToString data :
  String.length (Go.EncodeToString data) = 4 * ((length data + 2) / 3).
Proof.
  induction data as [data IH] using (well_founded_induction
    (well_founded_ltof _ (@length byte))).
  destruct data as [|a [|b [|c rest]]]; try reflexivity.
  cbn [Go.EncodeToString String.length length].
  rewrite IH by (unfold ltof; simpl; lia).
  replace (S (S (S (length rest))) + 2) with (length rest + 2 + 1 * 3) by lia.
  rewrite Nat.div_add by done. lia.
Qed.

(** ** Resolution, sentinel and writer (YAML variant) *)

Lemma append_longer p x : x ≠ EmptyString → p ≠ p +:+ x.
Proof.
  intros Hx Heq. apply (f_equal String.length) in Heq.
  rewrite length_append in Heq. destruct x; [done|]. simpl in Heq. lia.
Qed.

Lemma yaml_backupPath_fresh e p : p ≠ Yaml.backupPath e p.
Proof. unfold Yaml.backupPath. by apply append_longer. Qed.

Section YamlRun.
Import Yaml.
Variable e : Env KubeConfig.

Lemma yaml_resolveContext_none newCfg pc w :
  (∀ j x, Contexts newCfg !! j = Some x → ctxCluster (nxContext x) ≠ ncName pc) →
  resolveContext e newCfg pc w = (w, inl (NoContextForCluster (ncName pc))).
Proof.
  intros Hno. unfold resolveContext.
  assert (Hall : Forall (fun x => ¬ usesCluster (ncName pc) x) (Contexts newCfg)).
  { apply Forall_lookup. intros j x Hj. by apply Hno in Hj. }
  assert (list_find (usesCluster (ncName pc)) (Contexts newCfg) = None) as ->
    by by apply list_find_None.
  assert (filter (usesCluster (ncName pc)) (Contexts newCfg) = []) as ->.
  { clear Hno. induction Hall as [|x l Hx _ IH]; [done|].
    rewrite filter_cons_False by done. exact IH. }
  done.
Qed.

Lemma yaml_main_no_context w w1 s :
  upToCluster e w = (w1, inr s) →
  (∀ j x, Contexts (newCfg s) !! j = Some x →
          ctxCluster (nxContext x) ≠ ncName (pastedCluster s)) →
  main e w = (w1, inl (NoContextForCluster (ncName (pastedCluster s)))).
Proof.
  intros Hup Hno. unfold main.
  rewrite (bind_step _ _ _ _ _ Hup).
  apply bind_exit. by apply yaml_resolveContext_none.
Qed.

Lemma yaml_sentinel cfg w :
  let options := map nxName (Contexts cfg) ++ ["new context"] in
  onSelect (operator e) "Select a context to update" options
    = Some "new context" →
  selectTarget e cfg w =
    let form := Input3 "Enter new context name" "Enter new cluster name"
                  "Enter new user name" in
    let w2 := show form (show (Select "Select a context to update" options) w) in
    match onInput3 (operator e) "Enter new context name"
            "Enter new cluster name" "Enter new user name" with
    | Some (a, b, c) =>
        (w2, inr (withContexts cfg
                    (Contexts cfg
                       ++ [{| nxName := a;
                              nxContext := {| ctxCluster := b;
                                              ctxUser := c |} |}]),
                  length (Contexts cfg), true))
    | None => (w2, inl NewContextDetailsFailed)
    end.
Proof.
  intros options Hsel. unfold selectTarget, select, input3, bind, answer.
  fold options. rewrite Hsel. simpl.
  destruct (onInput3 _ _ _ _) as [[[a b] c]|]; [|done].
  simpl. rewrite length_app, Nat.add_sub. done.
Qed.

(** *** writer *)

Lemma yaml_write_try p d out w :
  tryFlag e = true →
  write e p d out w =
    ({| files := files w; denied := denied w;
        stdout := stdout w ++ [newline +:+ "---- Updated kubeconfig (try mode) ----";
                               stringOfBytes out];
        asked := asked w |}, inr tt).
Proof.
  intros Ht. unfold write. rewrite Ht. unfold bind, println. simpl.
  by rewrite <- app_assoc.
Qed.

Lemma yaml_write_apply p d out w :
  tryFlag e = false →
  let r := write e p d out w in
  if denied w (backupPath e p) then r = (w, inl WriteBackupFailed)
  else
    files r.1 !! backupPath e p = Some d ∧
    if denied w p then
      r.2 = inl WriteConfigFailed ∧ files r.1 = <[backupPath e p := d]> (files w)
    else
      r.2 = inr tt ∧
      files r.1 = <[p := out]> (<[backupPath e p := d]> (files w)).
Proof.
  intros Ht r. subst r. unfold write. rewrite Ht.
  unfold bind, writeFile, println. simpl.
  destruct (denied w (backupPath e p)) eqn:Hb; [done|]. simpl.
  destruct (denied w p) eqn:Hp; simpl.
  - by rewrite lookup_insert_eq.
  - split; [|done]. rewrite lookup_insert_ne by apply yaml_backupPath_fresh.
    by rewrite lookup_insert_eq.
Qed.
End YamlRun.


(** ** Merge engine (clientcmd variant) *)

Section ClientcmdMerge.
Import Clientcmd.
Context {Extra : Type}.
Implicit Types cfg : Config Extra.
Implicit Types pc : Cluster Extra.
Implicit Types pu : User Extra.

Lemma cc_differ_false a b : differ a b = false ↔ a = b.
Proof. unfold differ. rewrite negb_false_iff. apply String.eqb_eq. Qed.


Lemma cc_differBytes_false a b : differBytes a b = false ↔ a = b.
Proof.
  unfold differBytes, Go.bytesEqual. rewrite negb_false_iff.
  apply bool_decide_eq_true.
Qed.


Lemma cc_mergeCluster_frame cfg name pc nc us ch0 cfg' ch :
  mergeCluster cfg name pc nc us ch0 = (cfg', ch) →
  (∀ k, k ≠ name → Clusters cfg' !! k = Clusters cfg !! k) ∧
  Contexts cfg' = Contexts cfg ∧ AuthInfos cfg' = AuthInfos cfg ∧
  CurrentContext cfg' = CurrentContext cfg ∧ configRest cfg' = configRest cfg.
Proof.
  unfold mergeCluster. destruct (Clusters cfg !! name);
    intros [= <- <-]; simpl; (split; [|done]);
    intros k Hk; by rewrite lookup_insert_ne.
Qed.

Lemma cc_mergeUser_frame cfg name pu ch0 cfg' ch :
  mergeUser cfg name pu ch0 = (cfg', ch) →
  (∀ k, k ≠ name → AuthInfos cfg' !! k = AuthInfos cfg !! k) ∧
  Contexts cfg' = Contexts cfg ∧ Clusters cfg' = Clusters cfg ∧
  CurrentContext cfg' = CurrentContext cfg ∧ configRest cfg' = configRest cfg.
Proof.
  unfold mergeUser. destruct (AuthInfos cfg !! name);
    intros [= <- <-]; simpl; (split; [|done]);
    intros k Hk; by rewrite lookup_insert_ne.
Qed.

Lemma cc_merge_frame cfg cname uname pc pu nc us cfg' ch :
  merge cfg cname uname pc pu nc us = (cfg', ch) →
  (∀ k, k ≠ cname → Clusters cfg' !! k = Clusters cfg !! k) ∧
  (∀ k, k ≠ uname → AuthInfos cfg' !! k = AuthInfos cfg !! k) ∧
  Contexts cfg' = Contexts cfg ∧
  CurrentContext cfg' = CurrentContext cfg ∧ configRest cfg' = configRest cfg.
Proof.
  unfold merge. destruct (mergeCluster _ _ _ _ _ _) as [cfg1 ch1] eqn:H1.
  intros H2.
  apply cc_mergeCluster_frame in H1 as (Hc & Hx & Hu & Hcur & Hr).
  apply cc_mergeUser_frame in H2 as (Hu' & Hx' & Hc' & Hcur' & Hr').
  rewrite Hc', Hx', Hcur', Hr', <- Hu. done.
Qed.

(** the cluster the merge leaves under the target name *)
Lemma cc_mergeCluster_result cfg name pc nc us ch0 :
  ∃ c',
    Clusters (mergeCluster cfg name pc nc us ch0).1 !! name = Some c' ∧
    CertificateAuthorityData c' = CertificateAuthorityData pc ∧
    (us || nc = true → Server c' = Server pc) ∧
    match Clusters cfg !! name with
    | Some c => (us || nc = false → Server c' = Server c) ∧
                clusterRest c' = clusterRest c
    | None => c' = pc
    end.
Proof.
  unfold mergeCluster. destruct (Clusters cfg !! name) as [c|] eqn:Hc; simpl.
  - eexists. rewrite lookup_insert_eq. split; [done|]. simpl.
    destruct (differBytes _ _) eqn:Hca;
      [|apply cc_differBytes_false in Hca].
    all: destruct (us || nc); simpl;
      destruct (differ (Server c) (Server pc)) eqn:Hs;
      try apply cc_differ_false in Hs; split_and!; try done; by intros [=].
  - eexists. rewrite lookup_insert_eq. done.
Qed.

Lemma cc_mergeUser_result cfg name pu ch0 :
  ∃ u',
    AuthInfos (mergeUser cfg name pu ch0).1 !! name = Some u' ∧
    Token u' = Token pu ∧
    ClientCertificateData u' = ClientCertificateData pu ∧
    ClientKeyData u' = ClientKeyData pu ∧
    match AuthInfos cfg !! name with
    | Some u => userRest u' = userRest u
    | None => u' = pu
    end.
Proof.
  unfold mergeUser. destruct (AuthInfos cfg !! name) as [u|] eqn:Hu; simpl.
  - eexists. rewrite lookup_insert_eq. split; [done|]. simpl.
    destruct (differ _ _) eqn:Ht; [|apply cc_differ_false in Ht];
    destruct (differBytes (ClientCertificateData u) _) eqn:Hc;
      [|apply cc_differBytes_false in Hc| |apply cc_differBytes_false in Hc];
    destruct (differBytes (ClientKeyData u) _) eqn:Hk;
      try apply cc_differBytes_false in Hk; done.
  - eexists. rewrite lookup_insert_eq. done.
Qed.





End ClientcmdMerge.

(** ** Selector, resolution and writer (clientcmd variant) *)

Section ClientcmdRun.
Import Clientcmd.
Context {Extra : Type} (zero : Extra).
Variable e : Env (Config Extra).
Variable o : MapOrder.
Implicit Types cfg : Config Extra.

Lemma cc_sameButTarget_refl tn cfg : ccSameButTarget tn cfg cfg.
Proof. by split. Qed.

Lemma cc_sameButTarget_trans tn (a b c : Config Extra) :
  ccSameButTarget tn a b → ccSameButTarget tn b c → ccSameButTarget tn a c.
Proof.
  intros [H1 H2 H3 H4 H5] [K1 K2 K3 K4 K5].
  split; [by rewrite K1|by rewrite K2|by rewrite K3|by rewrite K4|].
  intros j Hj. by rewrite K5, H5.
Qed.

Lemma cc_selectTarget_inv cfg w w' cfg1 tn nc :
  selectTarget zero e o cfg w = (w', inr (cfg1, tn, nc)) →
  ccSameButTarget tn cfg cfg1 ∧ is_Some (Contexts cfg1 !! tn) ∧
  (nc = false → cfg1 = cfg ∧ tn ≠ "new context").
Proof.
  unfold selectTarget. intros H.
  apply bind_inr in H as (sel & w1 & Hsel & H).
  destruct (String.eqb sel "new context") eqn:Hnew.
  - apply bind_inr in H as ([[a b] c] & w2 & _ & H).
    apply ret_inr in H as [[= -> -> ->] _]. simpl.
    split_and!; [|by rewrite lookup_insert_eq|done].
    split; try done. simpl. intros k Hk. by rewrite lookup_insert_ne.
  - destruct (Contexts cfg !! sel) as [x|] eqn:Hf; [|discriminate].
    apply ret_inr in H as [[= -> -> ->] _].
    split_and!; [apply cc_sameButTarget_refl|by eexists|].
    intros _. split; [done|]. by apply String.eqb_neq.
Qed.

Lemma cc_setTargetCluster_spec cfg tn name :
  is_Some (Contexts cfg !! tn) →
  ccSameButTarget tn cfg (setTargetCluster cfg tn name) ∧
  is_Some (Contexts (setTargetCluster cfg tn name) !! tn) ∧
  ctxCluster (target zero (setTargetCluster cfg tn name) tn) = name ∧
  AuthInfo (target zero (setTargetCluster cfg tn name) tn)
    = AuthInfo (target zero cfg tn).
Proof.
  intros [x Hx]. unfold setTargetCluster, target. rewrite Hx. simpl.
  rewrite lookup_insert_eq. simpl.
  split_and!; try done. split; try done. simpl.
  intros j Hj. by rewrite lookup_insert_ne.
Qed.

Lemma cc_resolveCluster_inv cfg1 tn newCfg w w' cfg2 cname pc :
  is_Some (Contexts cfg1 !! tn) →
  resolveCluster zero e o cfg1 tn newCfg w = (w', inr (cfg2, cname, pc)) →
  ccSameButTarget tn cfg1 cfg2 ∧
  is_Some (Contexts cfg2 !! tn) ∧
  ctxCluster (target zero cfg2 tn) = cname ∧
  AuthInfo (target zero cfg2 tn) = AuthInfo (target zero cfg1 tn) ∧
  pc = Clusters newCfg !! cname.
Proof.
  intros Hti. unfold resolveCluster.
  destruct (Clusters newCfg !! _) as [c|] eqn:Hf.
  - intros H. apply ret_inr in H as [[= -> -> ->] _].
    split_and!; [apply cc_sameButTarget_refl|done..].
  - intros H. apply bind_inr in H as (sel & w1 & _ & H).
    apply ret_inr in H as [[= -> -> ->] _].
    destruct (cc_setTargetCluster_spec cfg1 tn sel Hti) as (?&?&?&?).
    done.
Qed.

Lemma cc_load_inv w w' p d cfg0 :
  load e w = (w', inr (p, d, cfg0)) →
  w' = w ∧ files w !! p = Some d ∧ unmarshal e d = Some cfg0.
Proof.
  unfold load. intros H.
  apply bind_inr in H as (p1 & w1 & Hp & H).
  assert (w1 = w) as ->.
  { unfold expandHome in Hp. destruct (String.prefix _ _).
    - apply bind_inr in Hp as (h & w2 & Hh & Hp).
      apply orExit_inr in Hh as [_ ->]. by apply ret_inr in Hp as [_ ->].
    - by apply ret_inr in Hp as [_ ->]. }
  apply bind_inr in H as (d1 & w2 & Hd & H).
  unfold readFile in Hd. destruct (files w !! p1) eqn:Hr; [|discriminate].
  injection Hd as <- <-.
  apply bind_inr in H as (c & w3 & Hc & H).
  apply orExit_inr in Hc as [Hc ->].
  apply ret_inr in H as [[= -> -> ->] ->]. done.
Qed.

Lemma cc_upToCluster_inv w w' s :
  upToCluster zero e o w = (w', inr s) →
  let tn := targetContextName s in
  ∃ cfg0,
    load e w = (w, inr (configPath s, origData s, cfg0)) ∧
    ccSameButTarget tn cfg0 (origCfg s) ∧
    is_Some (Contexts (origCfg s) !! tn) ∧
    ctxCluster (target zero (origCfg s) tn) = targetClusterName s ∧
    pastedCluster s = Clusters (newCfg s) !! targetClusterName s.
Proof.
  unfold upToCluster. intros H.
  apply bind_inr in H as ([[p d] cfg0] & w1 & Hl & H).
  destruct (cc_load_inv _ _ _ _ _ Hl) as (-> & _).
  apply bind_inr in H as ([[cfg1 ti] nc] & w2 & Hsel & H).
  apply bind_inr in H as (us & w3 & _ & H).
  apply bind_inr in H as (newCfg & w4 & _ & H).
  apply bind_inr in H as ([[cfg2 cname] pc] & w5 & Hres & H).
  apply ret_inr in H as [-> ->]. simpl.
  apply cc_selectTarget_inv in Hsel as (Hs1 & Hsome & _).
  apply cc_resolveCluster_inv in Hres as (Hs2 & Hsome2 & Hn & _ & Hpc); [|done].
  exists cfg0. split_and!; try done.
  by eapply cc_sameButTarget_trans.
Qed.

(** *** no pasted context for the cluster *)

Lemma cc_rangeMap_lookup {V} site (m : gmap string V) j k v :
  rangeMap o site m !! j = Some (k, v) → m !! k = Some v.
Proof.
  intros H. apply list_elem_of_lookup_2 in H. unfold rangeMap in H.
  rewrite (shuffle_perm o) in H. by apply elem_of_map_to_list in H.
Qed.

Lemma cc_resolveContext_none newCfg cname w :
  (∀ k x, Contexts newCfg !! k = Some x → ctxCluster x ≠ cname) →
  resolveContext e o newCfg cname w = (w, inl (NoContextForCluster cname)).
Proof.
  intros Hno. unfold resolveContext, firstContextFor.
  assert (Hall : ∀ site, Forall (fun x => ¬ usesCluster cname x)
                   (rangeMap o site (Contexts newCfg))).
  { intros site. apply Forall_lookup. intros j [k x] Hj.
    apply cc_rangeMap_lookup in Hj. by apply Hno in Hj. }
  assert (list_find (usesCluster cname) (rangeMap o 2 (Contexts newCfg)) = None)
    as -> by by apply list_find_None.
  assert (filter (usesCluster cname) (rangeMap o 3 (Contexts newCfg)) = []) as ->.
  { specialize (Hall 3). induction Hall as [|x l Hx _ IH]; [done|].
    rewrite filter_cons_False by done. exact IH. }
  done.
Qed.

Lemma cc_main_no_context w w1 s :
  upToCluster zero e o w = (w1, inr s) →
  (∀ k x, Contexts (newCfg s) !! k = Some x → ctxCluster x ≠ targetClusterName s) →
  main zero e o w = (w1, inl (NoContextForCluster (targetClusterName s))).
Proof.
  intros Hup Hno. unfold main.
  rewrite (bind_step _ _ _ _ _ Hup).
  apply bind_exit. by apply cc_resolveContext_none.
Qed.

Lemma cc_sentinel cfg w :
  let options := (rangeMap o 0 (Contexts cfg)).*1 ++ ["new context"] in
  onSelect (operator e) "Select a context to update" options
    = Some "new context" →
  selectTarget zero e o cfg w =
    let form := Input3 "Enter new context name" "Enter new cluster name"
                  "Enter new user name" in
    let w2 := show form (show (Select "Select a context to update" options) w) in
    match onInput3 (operator e) "Enter new context name"
            "Enter new cluster name" "Enter new user name" with
    | Some (a, b, c) =>
        (w2, inr (withContexts cfg
                    (<[a := {| ctxCluster := b; AuthInfo := c;
                               contextRest := zero |}]> (Contexts cfg)),
                  a, true))
    | None => (w2, inl NewContextDetailsFailed)
    end.
Proof.
  intros options Hsel. unfold selectTarget, select, input3, bind, answer.
  fold options. rewrite Hsel. simpl.
  by destruct (onInput3 _ _ _ _) as [[[a b] c]|].
Qed.

(** *** writer *)

Lemma cc_backupPath_fresh p : p ≠ backupPath e p.
Proof. unfold backupPath. by apply append_longer. Qed.


Lemma cc_write_apply p d cfg w :
  tryFlag e = false →
  let r := write e p d cfg w in
  if denied w (backupPath e p) then r = (w, inl WriteBackupFailed)
  else
    files r.1 !! backupPath e p = Some d ∧
    match marshal e cfg with
    | None => r.2 = inl MarshalFailed ∧
              files r.1 = <[backupPath e p := d]> (files w)
    | Some out =>
        if denied w p then
          r.2 = inl WriteConfigFailed ∧
          files r.1 = <[backupPath e p := d]> (files w)
        else
          r.2 = inr tt ∧
          files r.1 = <[p := out]> (<[backupPath e p := d]> (files w))
    end.
Proof.
  intros Ht r. subst r. unfold write. rewrite Ht.
  unfold bind, writeFile, println. simpl.
  destruct (denied w (backupPath e p)) eqn:Hb; [done|]. simpl.
  destruct (marshal e cfg) as [out|]; simpl.
  - destruct (denied w p) eqn:Hp; simpl.
    + by rewrite lookup_insert_eq.
    + split; [|done]. rewrite lookup_insert_ne by apply cc_backupPath_fresh.
      by rewrite lookup_insert_eq.
  - by rewrite lookup_insert_eq.
Qed.

Lemma cc_keepsFiles_selectTarget cfg : keepsFiles (selectTarget zero e o cfg).
Proof. unfold selectTarget, select, input3. keeps. Qed.

Lemma cc_keepsFiles_resolveContext cfg n : keepsFiles (resolveContext e o cfg n).
Proof. unfold resolveContext, select. keeps. Qed.

Lemma cc_keepsFiles_resolveUser cfg pc : keepsFiles (resolveUser e o cfg pc).
Proof. unfold resolveUser, select. keeps. Qed.

Lemma cc_keepsFiles_upToCluster : keepsFiles (upToCluster zero e o).
Proof.
  unfold upToCluster, load, askUpdateServer, readPasted, resolveCluster,
    confirm, text, select.
  pose proof cc_keepsFiles_selectTarget. keeps.
Qed.

End ClientcmdRun.

(** ** Change summary *)

Lemma bullets_run l w :
  fold_right (fun change k => println ("- " +:+ change);; k) (ret tt) l w =
    ({| files := files w; denied := denied w;
        stdout := stdout w ++ map (fun change => "- " +:+ change) l;
        asked := asked w |}, inr tt).
Proof.
  revert w. induction l as [|x l IH]; intros w; simpl.
  - rewrite app_nil_r. by destruct w.
  - unfold bind, println. rewrite IH. simpl. by rewrite <- app_assoc.
Qed.

Lemma printSummary_run changes w :
  printSummary changes w =
    ({| files := files w; denied := denied w;
        stdout := stdout w ++ summaryLines changes; asked := asked w |},
     inr tt).
Proof.
  unfold printSummary, summaryLines.
  destruct changes as [|c l].
  - unfold bind, println. simpl. by rewrite <- app_assoc.
  - unfold bind at 1. unfold println at 1. rewrite bullets_run. simpl.
    by rewrite <- app_assoc.
Qed.

Lemma summary_nothing changes :
  In "No changes made." (summaryLines changes) ↔ changes = [].
Proof.
  unfold summaryLines. split.
  - destruct changes as [|c l]; [done|]. intros [H|H]; [discriminate|].
    apply in_map_iff in H as (x & Hx & _). discriminate.
  - intros ->. simpl. auto.
Qed.

Section YamlChanges.
Import Yaml.

Lemma yaml_merge_inOrder cfg tc pc pu nc us :
  inOrder true (merge cfg tc pc pu nc us).2 = true.
Proof.
  unfold merge, mergeCluster, mergeUser, noteIf.
  destruct (findCluster _ _) as [[i c]|]; simpl;
    destruct (findUser _ _) as [[j u]|]; simpl;
    repeat match goal with
           | |- context [differ ?a ?b] => destruct (differ a b)
           end;
    destruct nc, us; reflexivity.
Qed.

Lemma yaml_merge_server_entries cfg tc pc pu nc us i c :
  findCluster (ctxCluster tc) (Clusters cfg) = Some (i, c) →
  countWhere (isUpdate FieldServer) (merge cfg tc pc pu nc us).2
  = if (nc || us) && differ (Server (ncCluster c)) (Server (ncCluster pc))
    then 1 else 0.
Proof.
  intros Hf. unfold merge, mergeCluster, mergeUser, noteIf. rewrite Hf. simpl.
  destruct (findUser _ _) as [[j u]|]; simpl;
    destruct (differ (Server _) (Server _));
    repeat match goal with
           | |- context [differ ?a ?b] => destruct (differ a b)
           end;
    destruct nc, us; reflexivity.
Qed.

Lemma yaml_merge_added_cluster cfg tc pc pu nc us :
  findCluster (ctxCluster tc) (Clusters cfg) = None →
  Clusters (merge cfg tc pc pu nc us).1
    = Clusters cfg ++ [{| ncName := ctxCluster tc; ncCluster := ncCluster pc |}] ∧
  List.filter aboutCluster (merge cfg tc pc pu nc us).2
    = [AddedCluster (ctxCluster tc) (shorten (Server (ncCluster pc)))
         (shorten (CertificateAuthorityData (ncCluster pc)))].
Proof.
  intros Hf. unfold merge, mergeCluster, mergeUser, noteIf. rewrite Hf. simpl.
  destruct (findUser _ _) as [[j u]|]; simpl; [|done].
  split; [done|].
  repeat match goal with
         | |- context [differ ?a ?b] => destruct (differ a b)
         end; reflexivity.
Qed.
End YamlChanges.

Section ClientcmdChanges.
Import Clientcmd.
Context {Extra : Type}.
Implicit Types cfg : Config Extra.

Lemma cc_merge_inOrder cfg cname uname pc pu nc us :
  inOrder false (merge cfg cname uname pc pu nc us).2 = true.
Proof.
  unfold merge, mergeCluster, mergeUser, noteIf.
  destruct (Clusters cfg !! cname) as [c|]; simpl;
    destruct (AuthInfos cfg !! uname) as [u|]; simpl;
    repeat match goal with
           | |- context [differ ?a ?b] => destruct (differ a b)
           | |- context [differBytes ?a ?b] => destruct (differBytes a b)
           end;
    destruct nc, us; reflexivity.
Qed.

Lemma cc_merge_server_entries cfg cname uname pc pu nc us c :
  Clusters cfg !! cname = Some c →
  countWhere (isUpdate FieldServer) (merge cfg cname uname pc pu nc us).2
  = if (us || nc) && differ (Server c) (Server pc) then 1 else 0.
Proof.
  intros Hf. unfold merge, mergeCluster, mergeUser, noteIf. rewrite Hf. simpl.
  destruct (AuthInfos cfg !! uname) as [u|]; simpl;
    destruct (differ (Server _) (Server _));
    repeat match goal with
           | |- context [differ ?a ?b] => destruct (differ a b)
           | |- context [differBytes ?a ?b] => destruct (differBytes a b)
           end;
    destruct nc, us; reflexivity.
Qed.

Lemma cc_merge_added_cluster cfg cname uname pc pu nc us :
  Clusters cfg !! cname = None →
  Clusters (merge cfg cname uname pc pu nc us).1 = <[cname := pc]> (Clusters cfg) ∧
  List.filter aboutCluster (merge cfg cname uname pc pu nc us).2
    = [AddedCluster cname (Server pc)
         (shortenBytes (CertificateAuthorityData pc))].
Proof.
  intros Hf. unfold merge, mergeCluster, mergeUser, noteIf. rewrite Hf. simpl.
  destruct (AuthInfos cfg !! uname) as [u|]; simpl; [|done].
  split; [done|].
  repeat match goal with
         | |- context [differ ?a ?b] => destruct (differ a b)
         | |- context [differBytes ?a ?b] => destruct (differBytes a b)
         end; reflexivity.
Qed.
End ClientcmdChanges.

(** ** Worked examples *)

Example shorten_15 : shorten "123456789012345" = "123456789012345".
Proof. reflexivity. Qed.

Example shorten_16 : shorten "1234567890123456" = "12345...23456".
Proof. reflexivity. Qed.

Example base64_hello :
  Go.EncodeToString (Go.bytesOfString "hello") = "aGVsbG8=".
Proof. reflexivity. Qed.

Example base64_foobar :
  Go.EncodeToString (Go.bytesOfString "foobar") = "Zm9vYmFy".
Proof. reflexivity. Qed.

Example shortenBytes_12 :
  shortenBytes (Go.bytesOfString "certificate!") = "Y2Vyd...hdGUh".
Proof. reflexivity. Qed.

Example stamp_v1 :
  Go.formatYYYYMMDD
    {| Go.year := 2026; Go.month := 3; Go.day := 7; Go.hour := 9;
       Go.minute := 5; Go.second := 1; Go.zoneOffset := 3600 |} = "20260307".
Proof. reflexivity. Qed.

Example stamp_v2 :
  Go.formatRFC3339
    {| Go.year := 2026; Go.month := 3; Go.day := 7; Go.hour := 9;
       Go.minute := 5; Go.second := 1; Go.zoneOffset := 3600 |}
  = "2026-03-07T09:05:01+01:00".
Proof. reflexivity. Qed.

(** ** No overwrite without a backup *)

Lemma keepsFiles_run {A} (m : M A) w w1 r :
  keepsFiles m → m w = (w1, r) → files w1 = files w.
Proof. intros K H. specialize (K w). by rewrite H in K. Qed.

Lemma yaml_write_backedUp e p d out w :
  backedUp (files w) (files (Yaml.write e p d out w).1) p (Yaml.backupPath e p) d.
Proof.
  unfold backedUp. destruct (tryFlag e) eqn:Ht.
  - left. by rewrite yaml_write_try.
  - pose proof (yaml_write_apply e p d out w Ht) as H. simpl in H.
    destruct (denied w (Yaml.backupPath e p)); [left; by rewrite H|].
    destruct H as [_ H]. destruct (denied w p); destruct H as [_ ->]; eauto.
Qed.

Lemma yaml_main_backedUp e w :
  files (Yaml.main e w).1 = files w ∨
  ∃ p d cfg0,
    Yaml.load e w = (w, inr (p, d, cfg0)) ∧
    backedUp (files w) (files (Yaml.main e w).1) p (Yaml.backupPath e p) d.
Proof.
  unfold Yaml.main.
  destruct (Yaml.upToCluster e w) as [w1 [f|s]] eqn:Hup.
  { left. rewrite (bind_exit _ _ _ _ _ Hup). simpl.
    eapply keepsFiles_run; [apply yaml_keepsFiles_upToCluster|exact Hup]. }
  pose proof (keepsFiles_run _ _ _ _ (yaml_keepsFiles_upToCluster e) Hup) as K1.
  destruct (yaml_upToCluster_inv e w w1 s Hup) as (cfg0 & Hl & _).
  rewrite (bind_step _ _ _ _ _ Hup).
  destruct (Yaml.resolveContext e (Yaml.newCfg s) (Yaml.pastedCluster s) w1)
    as [w2 [f|x]] eqn:Hx.
  { left. rewrite (bind_exit _ _ _ _ _ Hx). simpl. rewrite <- K1.
    eapply keepsFiles_run; [apply yaml_keepsFiles_resolveContext|exact Hx]. }
  pose proof (keepsFiles_run _ _ _ _ (yaml_keepsFiles_resolveContext e _ _) Hx) as K2.
  rewrite (bind_step _ _ _ _ _ Hx).
  destruct (Yaml.resolveUser e (Yaml.newCfg s) x w2) as [w3 [f|u]] eqn:Hu.
  { left. rewrite (bind_exit _ _ _ _ _ Hu). simpl. rewrite <- K1, <- K2.
    eapply keepsFiles_run; [apply yaml_keepsFiles_resolveUser|exact Hu]. }
  pose proof (keepsFiles_run _ _ _ _ (yaml_keepsFiles_resolveUser e _ _) Hu) as K3.
  rewrite (bind_step _ _ _ _ _ Hu).
  assert (K : files w3 = files w) by congruence.
  unfold Yaml.finish. destruct (Yaml.merged s u) as [cfg changes].
  destruct (marshal e cfg) as [out|]; simpl orExit.
  - rewrite (bind_step (ret out) _ w3 w3 out eq_refl).
    rewrite (bind_step _ _ _ _ _ (printSummary_run _ w3)).
    right. exists (Yaml.configPath s), (Yaml.origData s), cfg0.
    split; [exact Hl|]. rewrite <- K.
    match goal with
    | |- backedUp _ (files (Yaml.write _ _ _ _ ?w').1) _ _ _ =>
        exact (yaml_write_backedUp e _ _ _ w')
    end.
  - left. exact K.
Qed.

Section ClientcmdBackup.
Context {Extra : Type} (zero : Extra).
Variable e : Env (Clientcmd.Config Extra).
Variable o : Clientcmd.MapOrder.

Lemma cc_write_backedUp p d cfg w :
  backedUp (files w) (files (Clientcmd.write e p d cfg w).1) p
    (Clientcmd.backupPath e p) d.
Proof.
  unfold backedUp. destruct (tryFlag e) eqn:Ht.
  - left. unfold Clientcmd.write. rewrite Ht.
    destruct (marshal e cfg) as [out|]; reflexivity.
  - pose proof (cc_write_apply e p d cfg w Ht) as H. simpl in H.
    destruct (denied w (Clientcmd.backupPath e p)); [left; by rewrite H|].
    destruct H as [_ H]. destruct (marshal e cfg) as [out|].
    + destruct (denied w p); destruct H as [_ ->]; eauto.
    + destruct H as [_ ->]; eauto.
Qed.

Lemma cc_main_backedUp w :
  files (Clientcmd.main zero e o w).1 = files w ∨
  ∃ p d cfg0,
    Clientcmd.load e w = (w, inr (p, d, cfg0)) ∧
    backedUp (files w) (files (Clientcmd.main zero e o w).1) p
      (Clientcmd.backupPath e p) d.
Proof.
  unfold Clientcmd.main.
  destruct (Clientcmd.upToCluster zero e o w) as [w1 [f|s]] eqn:Hup.
  { left. rewrite (bind_exit _ _ _ _ _ Hup). simpl.
    eapply keepsFiles_run; [apply (cc_keepsFiles_upToCluster zero e o)|exact Hup]. }
  pose proof (keepsFiles_run _ _ _ _ (cc_keepsFiles_upToCluster zero e o) Hup) as K1.
  destruct (cc_upToCluster_inv zero e o w w1 s Hup) as (cfg0 & Hl & _).
  rewrite (bind_step _ _ _ _ _ Hup).
  destruct (Clientcmd.resolveContext e o (Clientcmd.newCfg s)
              (Clientcmd.targetClusterName s) w1) as [w2 [f|x]] eqn:Hx.
  { left. rewrite (bind_exit _ _ _ _ _ Hx). simpl. rewrite <- K1.
    eapply keepsFiles_run; [apply (cc_keepsFiles_resolveContext e o)|exact Hx]. }
  pose proof (keepsFiles_run _ _ _ _ (cc_keepsFiles_resolveContext e o _ _) Hx) as K2.
  rewrite (bind_step _ _ _ _ _ Hx).
  destruct (Clientcmd.resolveUser e o (Clientcmd.newCfg s) x w2)
    as [w3 [f|u]] eqn:Hu.
  { left. rewrite (bind_exit _ _ _ _ _ Hu). simpl. rewrite <- K1, <- K2.
    eapply keepsFiles_run; [apply (cc_keepsFiles_resolveUser e o)|exact Hu]. }
  pose proof (keepsFiles_run _ _ _ _ (cc_keepsFiles_resolveUser e o _ _) Hu) as K3.
  rewrite (bind_step _ _ _ _ _ Hu).
  assert (K : files w3 = files w) by congruence.
  unfold Clientcmd.finish, Clientcmd.merged.
  destruct (Clientcmd.pastedCluster s) as [c|]; [|left; exact K].
  destruct u as [u|]; [|left; exact K].
  match goal with
  | |- context [ret ?m] => destruct m as [cfg changes] eqn:Hm
  end.
  rewrite (bind_step (ret (cfg, changes)) _ w3 w3 (cfg, changes) eq_refl).
  rewrite (bind_step _ _ _ _ _ (printSummary_run _ w3)).
  right. exists (Clientcmd.configPath s), (Clientcmd.origData s), cfg0.
  split; [exact Hl|]. rewrite <- K.
  match goal with
  | |- backedUp _ (files (Clientcmd.write _ _ _ _ ?w').1) _ _ _ =>
      exact (cc_write_backedUp _ _ _ w')
  end.
Qed.
End ClientcmdBackup.

(** * The properties of the specification *)

Example yaml_session_reached :
  Yaml.upToCluster (Scenario.env Scenario.Y.disk Scenario.Y.pasted false Scenario.rotate)
    Scenario.world
  = (Sessions.Y.prompted, inr (Sessions.Y.session Scenario.Y.pasted)).
Proof. vm_compute. reflexivity. Qed.

Example cc_session_reached :
  Clientcmd.upToCluster tt
    (Scenario.env Scenario.C.disk Scenario.C.pasted false Scenario.rotate)
    Clientcmd.sourceOrder Scenario.world
  = (Sessions.C.prompted, inr (Sessions.C.session Scenario.C.pasted)).
Proof. vm_compute. reflexivity. Qed.

(** C1: the merge leaves every cluster entry whose name differs from the
    target context's cluster name, every user entry whose name differs from
    its user name, every context entry other than the target context and
    the current-context marker as they were.  For each variant: first for
    the merge on any document and target, then from the document parsed
    from the file to the merged one of a run. *)
Theorem frame_of_merge :
  (∀ cfg tc pc pu nc us,
     let cfg' := (Yaml.merge cfg tc pc pu nc us).1 in
     (∀ j c, Yaml.ncName c ≠ Yaml.ctxCluster tc →
        Yaml.Clusters cfg' !! j = Some c ↔ Yaml.Clusters cfg !! j = Some c) ∧
     (∀ j u, Yaml.nuName u ≠ Yaml.ctxUser tc →
        Yaml.Users cfg' !! j = Some u ↔ Yaml.Users cfg !! j = Some u) ∧
     Yaml.Contexts cfg' = Yaml.Contexts cfg ∧
     Yaml.CurrentContext cfg' = Yaml.CurrentContext cfg)
  ∧
  (∀ e w w' s pu,
     Yaml.upToCluster e w = (w', inr s) →
     ∃ cfg0,
       Yaml.load e w = (w, inr (Yaml.configPath s, Yaml.origData s, cfg0)) ∧
       let ti := Yaml.targetContext s in
       let tc := Yaml.target (Yaml.origCfg s) ti in
       let cfg' := (Yaml.merged s pu).1 in
       (∀ j c, Yaml.ncName c ≠ Yaml.ctxCluster tc →
          Yaml.Clusters cfg' !! j = Some c ↔ Yaml.Clusters cfg0 !! j = Some c) ∧
       (∀ j u, Yaml.nuName u ≠ Yaml.ctxUser tc →
          Yaml.Users cfg' !! j = Some u ↔ Yaml.Users cfg0 !! j = Some u) ∧
       (∀ j, j ≠ ti → Yaml.Contexts cfg' !! j = Yaml.Contexts cfg0 !! j) ∧
       Yaml.CurrentContext cfg' = Yaml.CurrentContext cfg0)
  ∧
  (∀ Extra (cfg : Clientcmd.Config Extra) cname uname pc pu nc us,
     let cfg' := (Clientcmd.merge cfg cname uname pc pu nc us).1 in
     (∀ k, k ≠ cname → Clientcmd.Clusters cfg' !! k = Clientcmd.Clusters cfg !! k) ∧
     (∀ k, k ≠ uname → Clientcmd.AuthInfos cfg' !! k = Clientcmd.AuthInfos cfg !! k) ∧
     Clientcmd.Contexts cfg' = Clientcmd.Contexts cfg ∧
     Clientcmd.CurrentContext cfg' = Clientcmd.CurrentContext cfg)
  ∧
  (∀ Extra (zero : Extra) e o w w' s pu w1 w2 cfg' changes,
     Clientcmd.upToCluster zero e o w = (w', inr s) →
     Clientcmd.merged zero s pu w1 = (w2, inr (cfg', changes)) →
     ∃ cfg0,
       Clientcmd.load e w
         = (w, inr (Clientcmd.configPath s, Clientcmd.origData s, cfg0)) ∧
       let tn := Clientcmd.targetContextName s in
       let tc := Clientcmd.target zero (Clientcmd.origCfg s) tn in
       (∀ k, k ≠ Clientcmd.ctxCluster tc →
          Clientcmd.Clusters cfg' !! k = Clientcmd.Clusters cfg0 !! k) ∧
       (∀ k, k ≠ Clientcmd.AuthInfo tc →
          Clientcmd.AuthInfos cfg' !! k = Clientcmd.AuthInfos cfg0 !! k) ∧
       (∀ k, k ≠ tn →
          Clientcmd.Contexts cfg' !! k = Clientcmd.Contexts cfg0 !! k) ∧
       Clientcmd.CurrentContext cfg' = Clientcmd.CurrentContext cfg0).
Proof.
  split_and!.
  - intros cfg tc pc pu nc us cfg'.
    apply (yaml_merge_frame cfg tc pc pu nc us cfg'
             (Yaml.merge cfg tc pc pu nc us).2).
    subst cfg'. by destruct (Yaml.merge _ _ _ _ _ _).
  - intros e w w' s pu Hup.
    destruct (yaml_upToCluster_inv e w w' s Hup) as (cfg0 & Hl & Hsame & _).
    exists cfg0. split; [done|]. intros ti tc cfg'.
    destruct Hsame as [Hc Hu Hcur Hx].
    destruct (yaml_merge_frame (Yaml.origCfg s) tc (Yaml.pastedCluster s) pu
                (Yaml.newContext s) (Yaml.updateServer s) cfg'
                (Yaml.merged s pu).2) as (Fc & Fu & Fx & Fcur).
    { subst cfg'. unfold Yaml.merged. by destruct (Yaml.merge _ _ _ _ _ _). }
    split_and!.
    + intros j c Hn. rewrite <- Hc. by apply Fc.
    + intros j u Hn. rewrite <- Hu. by apply Fu.
    + intros j Hj. rewrite Fx. by apply Hx.
    + by rewrite Fcur.
  - intros Extra cfg cname uname pc pu nc us cfg'.
    destruct (cc_merge_frame cfg cname uname pc pu nc us cfg'
                (Clientcmd.merge cfg cname uname pc pu nc us).2)
      as (Fc & Fu & Fx & Fcur & _); [|done].
    subst cfg'. by destruct (Clientcmd.merge _ _ _ _ _ _ _).
  - intros Extra zero e o w w' s pu w1 w2 cfg' changes Hup Hm.
    destruct (cc_upToCluster_inv zero e o w w' s Hup)
      as (cfg0 & Hl & Hsame & _ & Hname & _).
    exists cfg0. split; [done|]. intros tn tc.
    destruct Hsame as [Hc Hu Hcur _ Hx].
    unfold Clientcmd.merged in Hm.
    destruct (Clientcmd.pastedCluster s) as [c|]; [|discriminate].
    destruct pu as [u|]; [|discriminate].
    apply ret_inr in Hm as [Hm _]. symmetry in Hm.
    apply cc_merge_frame in Hm as (Fc & Fu & Fx & Fcur & _).
    fold tn tc in Fu, Hname. rewrite <- Hname in Fc.
    split_and!.
    + intros k Hk. rewrite <- Hc. by apply Fc.
    + intros k Hk. rewrite <- Hu. by apply Fu.
    + intros k Hk. rewrite Fx. by apply Hx.
    + by rewrite Fcur.
Qed.

Lemma frame_of_merge_witness :
  (let e := Scenario.env Scenario.Y.disk Scenario.Y.pasted false Scenario.rotate in
   Yaml.upToCluster e Scenario.world
     = (Sessions.Y.prompted, inr (Sessions.Y.session Scenario.Y.pasted)) ∧
   ∃ cfg0,
     Yaml.load e Scenario.world
       = (Scenario.world, inr ("/home/op/.kube/config", Scenario.diskData, cfg0)) ∧
     ∀ j, j ≠ 1 →
       Yaml.Contexts (Yaml.merged (Sessions.Y.session Scenario.Y.pasted)
                        Scenario.Y.pastedUser2).1 !! j
       = Yaml.Contexts cfg0 !! j)
  ∧
  (let e := Scenario.env Scenario.C.disk Scenario.C.pasted false Scenario.rotate in
   let s := Sessions.C.session Scenario.C.pasted in
   let r := Clientcmd.merge Scenario.C.disk "prod-cluster" "prod-user"
              Scenario.C.pastedProd Scenario.C.pastedUser2 false true in
   Clientcmd.upToCluster tt e Clientcmd.sourceOrder Scenario.world
     = (Sessions.C.prompted, inr s) ∧
   Clientcmd.merged tt s (Some Scenario.C.pastedUser2) Sessions.C.prompted
     = (Sessions.C.prompted, inr r) ∧
   ∃ cfg0,
     Clientcmd.load e Scenario.world
       = (Scenario.world, inr ("/home/op/.kube/config", Scenario.diskData, cfg0)) ∧
     ∀ k, k ≠ "prod-cluster" →
       Clientcmd.Clusters r.1 !! k = Clientcmd.Clusters cfg0 !! k).
Proof.
  destruct frame_of_merge as (_ & HY & _ & HC). split.
  - intros e.
    assert (Hup : Yaml.upToCluster e Scenario.world
                  = (Sessions.Y.prompted,
                     inr (Sessions.Y.session Scenario.Y.pasted)))
      by (vm_compute; reflexivity).
    split; [exact Hup|].
    destruct (HY e _ _ _ Scenario.Y.pastedUser2 Hup) as (cfg0 & Hl & _ & _ & Hx & _).
    exists cfg0. split; [exact Hl|exact Hx].
  - intros e s r.
    assert (Hup : Clientcmd.upToCluster tt e Clientcmd.sourceOrder Scenario.world
                  = (Sessions.C.prompted, inr s))
      by (vm_compute; reflexivity).
    assert (Hm : Clientcmd.merged tt s (Some Scenario.C.pastedUser2)
                   Sessions.C.prompted = (Sessions.C.prompted, inr r))
      by reflexivity.
    split; [exact Hup|]. split; [exact Hm|].
    destruct r as [cfg' changes] eqn:Hr.
    destruct (HC unit tt e _ _ _ _ _ _ _ _ _ Hup Hm) as (cfg0 & Hl & Hc & _).
    exists cfg0. split; [exact Hl|exact Hc].
Defined.

(** C2: the merge overwrites the server URL of the target cluster exactly
    when the context is new or [updateServer] is true.  For a target
    cluster that is on disk: the server afterwards is the pasted one under
    that condition and the old one otherwise, and the summary has one
    server entry when the condition holds and the URLs differ, none
    otherwise.  On the new-context path the confirmation is not asked and
    the merge is the one of a confirmed update. *)
Theorem server_url_gate :
  (∀ cfg tc pc pu nc us i c,
     Yaml.findCluster (Yaml.ctxCluster tc) (Yaml.Clusters cfg) = Some (i, c) →
     let r := Yaml.merge cfg tc pc pu nc us in
     let old := Yaml.Server (Yaml.ncCluster c) in
     let new := Yaml.Server (Yaml.ncCluster pc) in
     (∃ c', Yaml.findCluster (Yaml.ctxCluster tc) (Yaml.Clusters r.1) = Some (i, c') ∧
            Yaml.Server (Yaml.ncCluster c') = if nc || us then new else old) ∧
     countWhere (isUpdate FieldServer) r.2
       = if (nc || us) && Yaml.differ old new then 1 else 0)
  ∧
  (∀ e tc w cfg pc pu us,
     Yaml.askUpdateServer e true tc w = (w, inr false) ∧
     Yaml.merge cfg tc pc pu true us = Yaml.merge cfg tc pc pu false true)
  ∧
  (∀ Extra (cfg : Clientcmd.Config Extra) cname uname pc pu nc us c,
     Clientcmd.Clusters cfg !! cname = Some c →
     let r := Clientcmd.merge cfg cname uname pc pu nc us in
     let old := Clientcmd.Server c in
     let new := Clientcmd.Server pc in
     (∃ c', Clientcmd.Clusters r.1 !! cname = Some c' ∧
            Clientcmd.Server c' = if us || nc then new else old) ∧
     countWhere (isUpdate FieldServer) r.2
       = if (us || nc) && Clientcmd.differ old new then 1 else 0)
  ∧
  (∀ Extra (e : Env (Clientcmd.Config Extra)) tc w
     (cfg : Clientcmd.Config Extra) cname uname pc pu us,
     Clientcmd.askUpdateServer e true tc w = (w, inr false) ∧
     Clientcmd.merge cfg cname uname pc pu true us
       = Clientcmd.merge cfg cname uname pc pu false true).
Proof.
  split_and!.
  - intros cfg tc pc pu nc us i c Hf r old new. split.
    + destruct (yaml_mergeCluster_result cfg tc pc nc us [])
        as (i' & c' & Hf' & _ & Hyes & Hcase).
      rewrite Hf in Hcase. destruct Hcase as [-> Hno].
      exists c'. split.
      * subst r. unfold Yaml.merge.
        destruct (Yaml.mergeCluster cfg tc pc nc us []) as [cfg1 ch1] eqn:H1.
        rewrite yaml_mergeUser_clusters. exact Hf'.
      * subst old new. destruct (nc || us); auto.
    + exact (yaml_merge_server_entries cfg tc pc pu nc us i c Hf).
  - intros e tc w cfg pc pu us. split; [done|].
    unfold Yaml.merge, Yaml.mergeCluster. simpl.
    by destruct (Yaml.findCluster _ _) as [[??]|].
  - intros Extra cfg cname uname pc pu nc us c Hf r old new. split.
    + destruct (cc_mergeCluster_result cfg cname pc nc us [])
        as (c' & Hf' & _ & Hyes & Hcase).
      rewrite Hf in Hcase. destruct Hcase as [Hno _].
      exists c'. split.
      * subst r. unfold Clientcmd.merge.
        destruct (Clientcmd.mergeCluster cfg cname pc nc us []) as [cfg1 ch1] eqn:H1.
        destruct (Clientcmd.mergeUser cfg1 uname pu ch1) as [cfg2 ch2] eqn:H2.
        apply cc_mergeUser_frame in H2 as (_ & _ & Hc2 & _).
        simpl. rewrite Hc2. exact Hf'.
      * subst old new. destruct (us || nc); auto.
    + exact (cc_merge_server_entries cfg cname uname pc pu nc us c Hf).
  - intros Extra e tc w cfg cname uname pc pu us. split; [done|].
    unfold Clientcmd.merge, Clientcmd.mergeCluster. rewrite orb_true_r. simpl.
    by destruct (Clientcmd.Clusters cfg !! cname).
Qed.

Lemma server_url_gate_witness :
  (let r := Yaml.merge Scenario.Y.disk Scenario.Y.prodContext
              Scenario.Y.pastedProd Scenario.Y.pastedUser2 false false in
   Yaml.findCluster "prod-cluster" (Yaml.Clusters Scenario.Y.disk)
     = Some (1, {| Yaml.ncName := "prod-cluster";
                   Yaml.ncCluster :=
                     {| Yaml.Server := "https://old.example:6443";
                        Yaml.CertificateAuthorityData := EmptyString |} |}) ∧
   (∃ c', Yaml.findCluster "prod-cluster" (Yaml.Clusters r.1) = Some (1, c') ∧
          Yaml.Server (Yaml.ncCluster c') = "https://old.example:6443") ∧
   countWhere (isUpdate FieldServer) r.2 = 0)
  ∧
  (let r := Clientcmd.merge Scenario.C.disk "prod-cluster" "prod-user"
              Scenario.C.pastedProd Scenario.C.pastedUser2 false true in
   Clientcmd.Clusters Scenario.C.disk !! "prod-cluster"
     = Some {| Clientcmd.Server := "https://old.example:6443";
               Clientcmd.CertificateAuthorityData := [];
               Clientcmd.clusterRest := tt |} ∧
   (∃ c', Clientcmd.Clusters r.1 !! "prod-cluster" = Some c' ∧
          Clientcmd.Server c' = "https://new.example:6443") ∧
   countWhere (isUpdate FieldServer) r.2 = 1).
Proof.
  destruct server_url_gate as (HY & _ & HC & _). split.
  - intros r.
    assert (Hf : Yaml.findCluster (Yaml.ctxCluster Scenario.Y.prodContext)
                   (Yaml.Clusters Scenario.Y.disk)
                 = Some (1, {| Yaml.ncName := "prod-cluster";
                               Yaml.ncCluster :=
                                 {| Yaml.Server := "https://old.example:6443";
                                    Yaml.CertificateAuthorityData := EmptyString |} |}))
      by reflexivity.
    split; [exact Hf|].
    exact (HY _ _ Scenario.Y.pastedProd Scenario.Y.pastedUser2 false false _ _ Hf).
  - intros r.
    assert (Hf : Clientcmd.Clusters Scenario.C.disk !! "prod-cluster"
                 = Some {| Clientcmd.Server := "https://old.example:6443";
                           Clientcmd.CertificateAuthorityData := [];
                           Clientcmd.clusterRest := tt |})
      by (vm_compute; reflexivity).
    split; [exact Hf|].
    exact (HC unit _ _ "prod-user" Scenario.C.pastedProd Scenario.C.pastedUser2
             false true _ Hf).
Defined.

(** C3, on the clientcmd variant: an apply-mode run of the scenario saves
    the original bytes under [<path>.backup.<RFC 3339 timestamp>]; no file
    [<path>.backup.<YYYYMMDD>] appears. *)
Theorem backup_name_clientcmd :
  let e := Scenario.env Scenario.C.disk Scenario.C.pasted false Scenario.rotate in
  let r := Clientcmd.main tt e Clientcmd.sourceOrder Scenario.world in
  r.2 = inr tt ∧
  files r.1 !! "/home/op/.kube/config.backup.2026-11-03T08:30:00Z"
    = Some Scenario.diskData ∧
  files r.1 !! "/home/op/.kube/config.backup.20261103" = None ∧
  files r.1 !! "/home/op/.kube/config" = Some Scenario.mergedData.
Proof. vm_compute. done. Qed.

(** The YAML variant on the same input. *)
Example backup_name_yaml :
  let e := Scenario.env Scenario.Y.disk Scenario.Y.pasted false Scenario.rotate in
  let r := Yaml.main e Scenario.world in
  r.2 = inr tt ∧
  files r.1 !! "/home/op/.kube/config.backup.20261103"
    = Some Scenario.diskData ∧
  files r.1 !! "/home/op/.kube/config" = Some Scenario.mergedData.
Proof. vm_compute. done. Qed.

(** With the backup path write-protected the run stops there and the
    file system is as before, in both variants. *)
Example backup_denied_yaml :
  let e := Scenario.env Scenario.Y.disk Scenario.Y.pasted false Scenario.rotate in
  let w := Scenario.lockedWorld "/home/op/.kube/config.backup.20261103" in
  let r := Yaml.main e w in
  r.2 = inl WriteBackupFailed ∧ kind WriteBackupFailed = WriteError ∧
  exitCode r.2 = 1 ∧ files r.1 = files w.
Proof. vm_compute. done. Qed.

Example backup_denied_clientcmd :
  let e := Scenario.env Scenario.C.disk Scenario.C.pasted false Scenario.rotate in
  let w := Scenario.lockedWorld
             "/home/op/.kube/config.backup.2026-11-03T08:30:00Z" in
  let r := Clientcmd.main tt e Clientcmd.sourceOrder w in
  r.2 = inl WriteBackupFailed ∧ kind WriteBackupFailed = WriteError ∧
  exitCode r.2 = 1 ∧ files r.1 = files w.
Proof. vm_compute. done. Qed.




(** C6: when the target's cluster name is not on disk, the merge adds one
    entry under that name, with the pasted server and CA data, and the
    summary has one cluster entry, the "added cluster" one, which shows
    both fields. *)
Theorem added_cluster :
  (∀ cfg tc pc pu nc us,
     Yaml.findCluster (Yaml.ctxCluster tc) (Yaml.Clusters cfg) = None →
     let r := Yaml.merge cfg tc pc pu nc us in
     Yaml.Clusters r.1
       = Yaml.Clusters cfg
           ++ [{| Yaml.ncName := Yaml.ctxCluster tc;
                  Yaml.ncCluster := Yaml.ncCluster pc |}] ∧
     List.filter aboutCluster r.2
       = [AddedCluster (Yaml.ctxCluster tc)
            (shorten (Yaml.Server (Yaml.ncCluster pc)))
            (shorten (Yaml.CertificateAuthorityData (Yaml.ncCluster pc)))])
  ∧
  (∀ Extra (cfg : Clientcmd.Config Extra) cname uname pc pu nc us,
     Clientcmd.Clusters cfg !! cname = None →
     let r := Clientcmd.merge cfg cname uname pc pu nc us in
     Clientcmd.Clusters r.1 = <[cname := pc]> (Clientcmd.Clusters cfg) ∧
     size (Clientcmd.Clusters r.1) = S (size (Clientcmd.Clusters cfg)) ∧
     List.filter aboutCluster r.2
       = [AddedCluster cname (Clientcmd.Server pc)
            (shortenBytes (Clientcmd.CertificateAuthorityData pc))]).
Proof.
  split.
  - intros cfg tc pc pu nc us Hf r. by apply yaml_merge_added_cluster.
  - intros Extra cfg cname uname pc pu nc us Hf r.
    destruct (cc_merge_added_cluster cfg cname uname pc pu nc us Hf) as [H1 H2].
    split_and!; [done| |done].
    subst r. rewrite H1. by apply map_size_insert_None.
Qed.

Lemma added_cluster_witness :
  (let tc := {| Yaml.ctxCluster := "staging-cluster";
                Yaml.ctxUser := "staging-user" |} in
   let r := Yaml.merge Scenario.Y.disk tc Scenario.Y.pastedProd
              Scenario.Y.pastedUser2 true false in
   Yaml.findCluster "staging-cluster" (Yaml.Clusters Scenario.Y.disk) = None ∧
   Yaml.Clusters r.1
     = Yaml.Clusters Scenario.Y.disk
         ++ [{| Yaml.ncName := "staging-cluster";
                Yaml.ncCluster := Yaml.ncCluster Scenario.Y.pastedProd |}] ∧
   List.filter aboutCluster r.2
     = [AddedCluster "staging-cluster" "https...:6443" "LS0tL...tLS0t"])
  ∧
  (let r := Clientcmd.merge Scenario.C.disk "staging-cluster" "staging-user"
              Scenario.C.pastedProd Scenario.C.pastedUser2 true false in
   Clientcmd.Clusters Scenario.C.disk !! "staging-cluster" = None ∧
   size (Clientcmd.Clusters r.1) = 3 ∧
   List.filter aboutCluster r.2
     = [AddedCluster "staging-cluster" "https://new.example:6443"
          "LS0tL...tLS0t"]).
Proof.
  destruct added_cluster as [HY HC]. split.
  - intros tc r.
    assert (Hf : Yaml.findCluster (Yaml.ctxCluster tc)
                   (Yaml.Clusters Scenario.Y.disk) = None) by reflexivity.
    split; [exact Hf|].
    exact (HY _ tc Scenario.Y.pastedProd Scenario.Y.pastedUser2 true false Hf).
  - intros r.
    assert (Hf : Clientcmd.Clusters Scenario.C.disk !! "staging-cluster" = None)
      by (vm_compute; reflexivity).
    split; [exact Hf|].
    destruct (HC unit _ _ "staging-user" Scenario.C.pastedProd
                Scenario.C.pastedUser2 true false Hf) as (_ & Hs & Hl).
    split; [exact Hs|exact Hl].
Defined.

Lemma yaml_merge_stored cfg tc pc pu nc us :
  let cfg' := (Yaml.merge cfg tc pc pu nc us).1 in
  ∃ i c' j u',
    Yaml.findCluster (Yaml.ctxCluster tc) (Yaml.Clusters cfg') = Some (i, c') ∧
    Yaml.CertificateAuthorityData (Yaml.ncCluster c')
      = Yaml.CertificateAuthorityData (Yaml.ncCluster pc) ∧
    (nc || us = true →
       Yaml.Server (Yaml.ncCluster c') = Yaml.Server (Yaml.ncCluster pc)) ∧
    Yaml.findUser (Yaml.ctxUser tc) (Yaml.Users cfg') = Some (j, u') ∧
    Yaml.nuUser u' = Yaml.nuUser pu.
Proof.
  intros cfg'. subst cfg'. unfold Yaml.merge.
  destruct (yaml_mergeCluster_result cfg tc pc nc us [])
    as (i & c' & Hc & Hca & Hsrv & _).
  destruct (Yaml.mergeCluster cfg tc pc nc us []) as [cfg1 ch1].
  destruct (yaml_mergeUser_result cfg1 tc pu ch1) as (j & u' & Hu & Hval & _).
  exists i, c', j, u'. rewrite yaml_mergeUser_clusters. done.
Qed.

Lemma cc_merge_stored {Extra} (cfg : Clientcmd.Config Extra)
    cname uname pc pu nc us :
  let cfg' := (Clientcmd.merge cfg cname uname pc pu nc us).1 in
  ∃ c' u',
    Clientcmd.Clusters cfg' !! cname = Some c' ∧
    Clientcmd.CertificateAuthorityData c' = Clientcmd.CertificateAuthorityData pc ∧
    (us || nc = true → Clientcmd.Server c' = Clientcmd.Server pc) ∧
    Clientcmd.AuthInfos cfg' !! uname = Some u' ∧
    Clientcmd.Token u' = Clientcmd.Token pu ∧
    Clientcmd.ClientCertificateData u' = Clientcmd.ClientCertificateData pu ∧
    Clientcmd.ClientKeyData u' = Clientcmd.ClientKeyData pu.
Proof.
  intros cfg'. subst cfg'. unfold Clientcmd.merge.
  destruct (cc_mergeCluster_result cfg cname pc nc us [])
    as (c' & Hc & Hca & Hsrv & _).
  destruct (Clientcmd.mergeCluster cfg cname pc nc us []) as [cfg1 ch1].
  destruct (cc_mergeUser_result cfg1 uname pu ch1)
    as (u' & Hu & Ht & Hcert & Hkey & _).
  destruct (Clientcmd.mergeUser cfg1 uname pu ch1) as [cfg2 ch2] eqn:H2.
  apply cc_mergeUser_frame in H2 as (_ & _ & Hc2 & _).
  exists c', u'. simpl in *. rewrite Hc2. done.
Qed.

(** C7: in a summary a string of at most 15 bytes is shown as it is, a
    longer one as its first five bytes, three dots and its last five
    bytes; a byte field is shown as its base64 text cut the same way, an
    empty one as ["<empty>"]; what the merge stores under the target names
    are the pasted values themselves. *)
Theorem truncation :
  (∀ s, String.length s ≤ 15 → shorten s = s)
  ∧
  (∀ s, 15 < String.length s →
     ∃ first mid last,
       s = first +:+ mid +:+ last ∧
       String.length first = 5 ∧ String.length last = 5 ∧
       shorten s = first +:+ "..." +:+ last)
  ∧
  shortenBytes [] = "<empty>"
  ∧
  (∀ data, data ≠ [] → shortenBytes data = shorten (Go.EncodeToString data))
  ∧
  (∀ cfg tc pc pu nc us,
     let cfg' := (Yaml.merge cfg tc pc pu nc us).1 in
     ∃ i c' j u',
       Yaml.findCluster (Yaml.ctxCluster tc) (Yaml.Clusters cfg') = Some (i, c') ∧
       Yaml.CertificateAuthorityData (Yaml.ncCluster c')
         = Yaml.CertificateAuthorityData (Yaml.ncCluster pc) ∧
       (nc || us = true →
          Yaml.Server (Yaml.ncCluster c') = Yaml.Server (Yaml.ncCluster pc)) ∧
       Yaml.findUser (Yaml.ctxUser tc) (Yaml.Users cfg') = Some (j, u') ∧
       Yaml.nuUser u' = Yaml.nuUser pu)
  ∧
  (∀ Extra (cfg : Clientcmd.Config Extra) cname uname pc pu nc us,
     let cfg' := (Clientcmd.merge cfg cname uname pc pu nc us).1 in
     ∃ c' u',
       Clientcmd.Clusters cfg' !! cname = Some c' ∧
       Clientcmd.CertificateAuthorityData c'
         = Clientcmd.CertificateAuthorityData pc ∧
       (us || nc = true → Clientcmd.Server c' = Clientcmd.Server pc) ∧
       Clientcmd.AuthInfos cfg' !! uname = Some u' ∧
       Clientcmd.Token u' = Clientcmd.Token pu ∧
       Clientcmd.ClientCertificateData u' = Clientcmd.ClientCertificateData pu ∧
       Clientcmd.ClientKeyData u' = Clientcmd.ClientKeyData pu).
Proof.
  split_and!.
  - apply shorten_short.
  - intros s H. destruct (ends_of_string s) as (mid & Hs & H1 & H2); [lia|].
    eexists _, mid, _. split_and!; [exact Hs|done|done|by apply shorten_long].
  - reflexivity.
  - apply shortenBytes_nonempty.
  - apply yaml_merge_stored.
  - intros Extra. apply cc_merge_stored.
Qed.

Lemma truncation_witness :
  (String.length "123456789012345" ≤ 15 ∧
   shorten "123456789012345" = "123456789012345")
  ∧
  (15 < String.length "1234567890123456" ∧
   ∃ first mid last,
     "1234567890123456" = first +:+ mid +:+ last ∧
     String.length first = 5 ∧ String.length last = 5 ∧
     shorten "1234567890123456" = first +:+ "..." +:+ last)
  ∧
  (Go.bytesOfString "certificate!" ≠ [] ∧
   shortenBytes (Go.bytesOfString "certificate!")
     = shorten (Go.EncodeToString (Go.bytesOfString "certificate!"))).
Proof.
  destruct truncation as (Hshort & Hlong & _ & Hbytes & _). split_and!.
  - simpl. lia.
  - apply Hshort. simpl. lia.
  - simpl. lia.
  - apply Hlong. simpl. lia.
  - discriminate.
  - apply Hbytes. discriminate.
Defined.

Example shorten_16_ends :
  shorten "tok-0123456789ab" = "tok-0...789ab".
Proof. reflexivity. Qed.

Example shortenBytes_9 :
  shortenBytes (Go.bytesOfString "ninebytes") = "bmluZWJ5dGVz".
Proof. reflexivity. Qed.

(** C8, as the code has it: the reporter prints the header, then
    ["No changes made."] exactly when there is no change, else one
    ["- "] line per change in the order of the merge: cluster entries
    before user entries, token, certificate, key among the user entries;
    among the cluster entries the YAML variant puts CA data before the
    server, the clientcmd variant the server before CA data. *)
Theorem summary_order :
  (∀ changes w,
     printSummary changes w
     = ({| files := files w; denied := denied w;
           stdout := stdout w ++ summaryLines changes; asked := asked w |},
        inr tt))
  ∧
  (∀ changes, In "No changes made." (summaryLines changes) ↔ changes = [])
  ∧
  (∀ changes, changes ≠ [] →
     summaryLines changes
     = "Summary of changes:" :: map (fun c => "- " +:+ c) changes)
  ∧
  (∀ cfg tc pc pu nc us,
     inOrder true (Yaml.merge cfg tc pc pu nc us).2 = true)
  ∧
  (∀ Extra (cfg : Clientcmd.Config Extra) cname uname pc pu nc us,
     inOrder false (Clientcmd.merge cfg cname uname pc pu nc us).2 = true).
Proof.
  split_and!.
  - apply printSummary_run.
  - apply summary_nothing.
  - intros [|c l] H; done.
  - apply yaml_merge_inOrder.
  - intros Extra. apply cc_merge_inOrder.
Qed.

Lemma summary_order_witness :
  ["Updated user"] ≠ [] ∧
  summaryLines ["Updated user"] = ["Summary of changes:"; "- Updated user"].
Proof.
  destruct summary_order as (_ & _ & H & _).
  split; [discriminate|]. apply H. discriminate.
Defined.

(** C8 as stated fails on the clientcmd variant: with a new server and new
    CA data for [prod-cluster], the server entry comes first. *)
Lemma summary_order_server_first :
  let changes :=
    (Clientcmd.merge Scenario.C.disk "prod-cluster" "prod-user"
       Scenario.C.pastedProd Scenario.C.pastedUser2 false true).2 in
  changes
  = [Updated FieldServer "prod-cluster" "https://old.example:6443"
       "https://new.example:6443";
     Updated FieldCA "prod-cluster" "<empty>" "LS0tL...tLS0t";
     Updated FieldToken "prod-user" "tok-old-aaaa" "tok-new-bbbb"]
  ∧ inOrder true changes = false
  ∧
  let e := Scenario.env Scenario.C.disk Scenario.C.pasted true Scenario.rotate in
  let out := stdout (Clientcmd.main tt e Clientcmd.sourceOrder Scenario.world).1 in
  out !! 1
    = Some ("- Updated cluster " +:+ Scenario.quotePlain "prod-cluster"
              +:+ " server from https://old.example:6443"
              +:+ " to https://new.example:6443") ∧
  out !! 2
    = Some ("- Updated cluster " +:+ Scenario.quotePlain "prod-cluster"
              +:+ " CA data from <empty> to LS0tL...tLS0t").
Proof. vm_compute. done. Qed.

Lemma filter_nothing {A} (P : A → Prop) `{!∀ x, Decision (P x)} (l : list A) :
  Forall (fun x => ¬ P x) l → filter P l = [].
Proof.
  induction 1 as [|x l Hx _ IH]; [done|].
  rewrite filter_cons_False by done. exact IH.
Qed.

(** C9: when no pasted context refers to the resolved pasted cluster, the
    run ends with the "no context" diagnostic, a resolution error, in the
    very state in which the cluster was resolved: the list of the fallback
    selection is empty and that selection is never shown. *)
Theorem no_context_for_cluster :
  (∀ e newCfg pc w,
     (∀ j x, Yaml.Contexts newCfg !! j = Some x →
             Yaml.ctxCluster (Yaml.nxContext x) ≠ Yaml.ncName pc) →
     filter (Yaml.usesCluster (Yaml.ncName pc)) (Yaml.Contexts newCfg) = [] ∧
     Yaml.resolveContext e newCfg pc w
       = (w, inl (NoContextForCluster (Yaml.ncName pc))))
  ∧
  (∀ e w w1 s,
     Yaml.upToCluster e w = (w1, inr s) →
     (∀ j x, Yaml.Contexts (Yaml.newCfg s) !! j = Some x →
             Yaml.ctxCluster (Yaml.nxContext x)
               ≠ Yaml.ncName (Yaml.pastedCluster s)) →
     let failure := NoContextForCluster (Yaml.ncName (Yaml.pastedCluster s)) in
     Yaml.main e w = (w1, inl failure) ∧
     kind failure = ResolutionError ∧ exitCode (Yaml.main e w).2 = 1)
  ∧
  (∀ Extra (e : Env (Clientcmd.Config Extra)) o newCfg cname w,
     (∀ k x, Clientcmd.Contexts newCfg !! k = Some x →
             Clientcmd.ctxCluster x ≠ cname) →
     filter (Clientcmd.usesCluster cname)
       (Clientcmd.rangeMap o 3 (Clientcmd.Contexts newCfg)) = [] ∧
     Clientcmd.resolveContext e o newCfg cname w
       = (w, inl (NoContextForCluster cname)))
  ∧
  (∀ Extra (zero : Extra) e o w w1 s,
     Clientcmd.upToCluster zero e o w = (w1, inr s) →
     (∀ k x, Clientcmd.Contexts (Clientcmd.newCfg s) !! k = Some x →
             Clientcmd.ctxCluster x ≠ Clientcmd.targetClusterName s) →
     let failure := NoContextForCluster (Clientcmd.targetClusterName s) in
     Clientcmd.main zero e o w = (w1, inl failure) ∧
     kind failure = ResolutionError ∧
     exitCode (Clientcmd.main zero e o w).2 = 1).
Proof.
  split_and!.
  - intros e newCfg pc w Hno. split; [|by apply yaml_resolveContext_none].
    apply filter_nothing, Forall_lookup. intros j x Hj. by apply Hno in Hj.
  - intros e w w1 s Hup Hno failure.
    rewrite (yaml_main_no_context e w w1 s Hup Hno). done.
  - intros Extra e o newCfg cname w Hno.
    split; [|by apply cc_resolveContext_none].
    apply filter_nothing, Forall_lookup. intros j [k x] Hj.
    apply cc_rangeMap_lookup in Hj. by apply Hno in Hj.
  - intros Extra zero e o w w1 s Hup Hno failure.
    rewrite (cc_main_no_context zero e o w w1 s Hup Hno). done.
Qed.

Lemma no_context_for_cluster_witness :
  (let e := Scenario.env Scenario.Y.disk Scenario.Y.orphan false Scenario.rotate in
   let s := Sessions.Y.session Scenario.Y.orphan in
   Yaml.upToCluster e Scenario.world = (Sessions.Y.prompted, inr s) ∧
   (∀ j x, Yaml.Contexts Scenario.Y.orphan !! j = Some x →
           Yaml.ctxCluster (Yaml.nxContext x) ≠ "prod-cluster") ∧
   Yaml.main e Scenario.world
     = (Sessions.Y.prompted, inl (NoContextForCluster "prod-cluster")))
  ∧
  (let e := Scenario.env Scenario.C.disk Scenario.C.orphan false Scenario.rotate in
   let s := Sessions.C.session Scenario.C.orphan in
   Clientcmd.upToCluster tt e Clientcmd.sourceOrder Scenario.world
     = (Sessions.C.prompted, inr s) ∧
   (∀ k x, Clientcmd.Contexts Scenario.C.orphan !! k = Some x →
           Clientcmd.ctxCluster x ≠ "prod-cluster") ∧
   Clientcmd.main tt e Clientcmd.sourceOrder Scenario.world
     = (Sessions.C.prompted, inl (NoContextForCluster "prod-cluster")))
  ∧
  (let e := Scenario.env Scenario.Y.disk Scenario.Y.orphan false Scenario.rotate in
   (∀ j x, Yaml.Contexts Scenario.Y.orphan !! j = Some x →
           Yaml.ctxCluster (Yaml.nxContext x)
             ≠ Yaml.ncName Scenario.Y.pastedProd) ∧
   Yaml.resolveContext e Scenario.Y.orphan Scenario.Y.pastedProd Scenario.world
     = (Scenario.world, inl (NoContextForCluster "prod-cluster")))
  ∧
  (let e := Scenario.env Scenario.C.disk Scenario.C.orphan false Scenario.rotate in
   (∀ k x, Clientcmd.Contexts Scenario.C.orphan !! k = Some x →
           Clientcmd.ctxCluster x ≠ "prod-cluster") ∧
   Clientcmd.resolveContext e Clientcmd.sourceOrder Scenario.C.orphan
     "prod-cluster" Scenario.world
     = (Scenario.world, inl (NoContextForCluster "prod-cluster"))).
Proof.
  destruct no_context_for_cluster as (HYr & HY & HCr & HC). split_and!.
  - intros e s.
    assert (Hup : Yaml.upToCluster e Scenario.world = (Sessions.Y.prompted, inr s))
      by (vm_compute; reflexivity).
    assert (Hno : ∀ j x, Yaml.Contexts (Yaml.newCfg s) !! j = Some x →
                    Yaml.ctxCluster (Yaml.nxContext x)
                      ≠ Yaml.ncName (Yaml.pastedCluster s)).
    { intros [|[|j]] x; simpl; [|discriminate..]. intros [= <-]. discriminate. }
    split; [exact Hup|]. split; [exact Hno|].
    exact (proj1 (HY e _ _ s Hup Hno)).
  - intros e s.
    assert (Hup : Clientcmd.upToCluster tt e Clientcmd.sourceOrder Scenario.world
                  = (Sessions.C.prompted, inr s))
      by (vm_compute; reflexivity).
    assert (Hno : ∀ k x, Clientcmd.Contexts (Clientcmd.newCfg s) !! k = Some x →
                    Clientcmd.ctxCluster x ≠ Clientcmd.targetClusterName s).
    { intros k x. simpl. intros Hk.
      apply lookup_singleton_Some in Hk as [_ <-]. discriminate. }
    split; [exact Hup|]. split; [exact Hno|].
    exact (proj1 (HC unit tt e _ _ _ s Hup Hno)).
  - intros e.
    assert (Hno : ∀ j x, Yaml.Contexts Scenario.Y.orphan !! j = Some x →
                    Yaml.ctxCluster (Yaml.nxContext x)
                      ≠ Yaml.ncName Scenario.Y.pastedProd).
    { intros [|[|j]] x; simpl; [|discriminate..]. intros [= <-]. discriminate. }
    split; [exact Hno|].
    exact (proj2 (HYr e _ _ Scenario.world Hno)).
  - intros e.
    assert (Hno : ∀ k x, Clientcmd.Contexts Scenario.C.orphan !! k = Some x →
                    Clientcmd.ctxCluster x ≠ "prod-cluster").
    { intros k x. simpl. intros Hk.
      apply lookup_singleton_Some in Hk as [_ <-]. discriminate. }
    split; [exact Hno|].
    exact (proj2 (HCr unit e Clientcmd.sourceOrder _ _ Scenario.world Hno)).
Defined.

(** C10: a context on disk that is itself called ["new context"] cannot be
    the target of an update: answering the first selection with that name
    opens the three inputs of the creation path and the target is the
    context created from them; and whenever the target is an existing
    context, its name is not ["new context"]. *)
Theorem sentinel_shadows_context :
  (∀ e cfg w,
     let options := map Yaml.nxName (Yaml.Contexts cfg) ++ ["new context"] in
     onSelect (operator e) "Select a context to update" options
       = Some "new context" →
     Yaml.selectTarget e cfg w =
       let form := Input3 "Enter new context name" "Enter new cluster name"
                     "Enter new user name" in
       let w2 := show form
                   (show (Select "Select a context to update" options) w) in
       match onInput3 (operator e) "Enter new context name"
               "Enter new cluster name" "Enter new user name" with
       | Some (a, b, c) =>
           (w2, inr (Yaml.withContexts cfg
                       (Yaml.Contexts cfg
                          ++ [{| Yaml.nxName := a;
                                 Yaml.nxContext :=
                                   {| Yaml.ctxCluster := b;
                                      Yaml.ctxUser := c |} |}]),
                     length (Yaml.Contexts cfg), true))
       | None => (w2, inl NewContextDetailsFailed)
       end)
  ∧
  (∀ e cfg w w' cfg1 ti,
     Yaml.selectTarget e cfg w = (w', inr (cfg1, ti, false)) →
     ∃ x, Yaml.Contexts cfg !! ti = Some x ∧ Yaml.nxName x ≠ "new context")
  ∧
  (∀ Extra (zero : Extra) e o cfg w,
     let options :=
       (Clientcmd.rangeMap o 0 (Clientcmd.Contexts cfg)).*1 ++ ["new context"] in
     onSelect (operator e) "Select a context to update" options
       = Some "new context" →
     Clientcmd.selectTarget zero e o cfg w =
       let form := Input3 "Enter new context name" "Enter new cluster name"
                     "Enter new user name" in
       let w2 := show form
                   (show (Select "Select a context to update" options) w) in
       match onInput3 (operator e) "Enter new context name"
               "Enter new cluster name" "Enter new user name" with
       | Some (a, b, c) =>
           (w2, inr (Clientcmd.withContexts cfg
                       (<[a := {| Clientcmd.ctxCluster := b;
                                  Clientcmd.AuthInfo := c;
                                  Clientcmd.contextRest := zero |}]>
                          (Clientcmd.Contexts cfg)),
                     a, true))
       | None => (w2, inl NewContextDetailsFailed)
       end)
  ∧
  (∀ Extra (zero : Extra) e o cfg w w' cfg1 tn,
     Clientcmd.selectTarget zero e o cfg w = (w', inr (cfg1, tn, false)) →
     cfg1 = cfg ∧ tn ≠ "new context").
Proof.
  split_and!.
  - intros e cfg w. apply yaml_sentinel.
  - intros e cfg w w' cfg1 ti H.
    by apply yaml_selectTarget_inv in H as (_ & _ & H).
  - intros Extra zero e o cfg w. apply cc_sentinel.
  - intros Extra zero e o cfg w w' cfg1 tn H.
    apply cc_selectTarget_inv in H as (_ & _ & H). by apply H.
Qed.

Lemma sentinel_shadows_context_witness :
  (let e := Scenario.env Sessions.Y.shadowed Scenario.Y.pasted false Scenario.create in
   onSelect (operator e) "Select a context to update"
     (map Yaml.nxName (Yaml.Contexts Sessions.Y.shadowed) ++ ["new context"])
     = Some "new context" ∧
   (Yaml.selectTarget e Sessions.Y.shadowed Scenario.world).2
     = inr (Yaml.withContexts Sessions.Y.shadowed
              (Yaml.Contexts Sessions.Y.shadowed
                 ++ [{| Yaml.nxName := "staging";
                        Yaml.nxContext :=
                          {| Yaml.ctxCluster := "staging-cluster";
                             Yaml.ctxUser := "staging-user" |} |}]),
            1, true))
  ∧
  (let e := Scenario.env Sessions.C.shadowed Scenario.C.pasted false Scenario.create in
   let options :=
     (Clientcmd.rangeMap Clientcmd.sourceOrder 0
        (Clientcmd.Contexts Sessions.C.shadowed)).*1 ++ ["new context"] in
   onSelect (operator e) "Select a context to update" options
     = Some "new context" ∧
   (Clientcmd.selectTarget tt e Clientcmd.sourceOrder Sessions.C.shadowed
      Scenario.world).2
     = inr (Clientcmd.withContexts Sessions.C.shadowed
              (<["staging" := {| Clientcmd.ctxCluster := "staging-cluster";
                                 Clientcmd.AuthInfo := "staging-user";
                                 Clientcmd.contextRest := tt |}]>
                 (Clientcmd.Contexts Sessions.C.shadowed)),
            "staging", true))
  ∧
  (let e := Scenario.env Scenario.Y.disk Scenario.Y.pasted false Scenario.rotate in
   let w1 := show (Select "Select a context to update"
                     ["dev"; "prod"; "new context"]) Scenario.world in
   Yaml.selectTarget e Scenario.Y.disk Scenario.world
     = (w1, inr (Scenario.Y.disk, 1, false)) ∧
   ∃ x, Yaml.Contexts Scenario.Y.disk !! 1 = Some x ∧
        Yaml.nxName x ≠ "new context")
  ∧
  (let e := Scenario.env Scenario.C.disk Scenario.C.pasted false Scenario.rotate in
   let w1 := show (Select "Select a context to update"
                     ["dev"; "prod"; "new context"]) Scenario.world in
   Clientcmd.selectTarget tt e Clientcmd.sourceOrder Scenario.C.disk
     Scenario.world
     = (w1, inr (Scenario.C.disk, "prod", false)) ∧
   "prod" ≠ "new context").
Proof.
  destruct sentinel_shadows_context as (HY & HY' & HC & HC'). split_and!.
  - intros e.
    assert (Hsel : onSelect (operator e) "Select a context to update"
                     (map Yaml.nxName (Yaml.Contexts Sessions.Y.shadowed)
                        ++ ["new context"]) = Some "new context")
      by reflexivity.
    split; [exact Hsel|].
    rewrite (HY e Sessions.Y.shadowed Scenario.world Hsel). reflexivity.
  - intros e options.
    assert (Hsel : onSelect (operator e) "Select a context to update" options
                   = Some "new context") by reflexivity.
    split; [exact Hsel|].
    rewrite (HC unit tt e Clientcmd.sourceOrder Sessions.C.shadowed
               Scenario.world Hsel).
    reflexivity.
  - intros e w1.
    assert (Hrun : Yaml.selectTarget e Scenario.Y.disk Scenario.world
                   = (w1, inr (Scenario.Y.disk, 1, false)))
      by (vm_compute; reflexivity).
    split; [exact Hrun|].
    exact (HY' e _ _ _ _ _ Hrun).
  - intros e w1.
    assert (Hrun : Clientcmd.selectTarget tt e Clientcmd.sourceOrder
                     Scenario.C.disk Scenario.world
                   = (w1, inr (Scenario.C.disk, "prod", false)))
      by (vm_compute; reflexivity).
    split; [exact Hrun|].
    exact (proj2 (HC' unit tt e _ _ _ _ _ _ Hrun)).
Defined.

(** * Facts about the rest of the program *)

(** ** The summary tells all (both variants) *)

Lemma yaml_with_same cfg :
  Yaml.withUsers (Yaml.withClusters cfg (Yaml.Clusters cfg)) (Yaml.Users cfg) = cfg.
Proof. by destruct cfg. Qed.

Lemma yaml_cluster_eta (c : Yaml.NamedCluster) :
  {| Yaml.ncName := Yaml.ncName c;
     Yaml.ncCluster :=
       {| Yaml.Server := Yaml.Server (Yaml.ncCluster c);
          Yaml.CertificateAuthorityData :=
            Yaml.CertificateAuthorityData (Yaml.ncCluster c) |} |} = c.
Proof. by destruct c as [n []]. Qed.

Lemma insert_same_iff {A} (l : list A) i x y :
  l !! i = Some x → <[i := y]> l = l ↔ y = x.
Proof.
  intros Hi. split.
  - intros H. apply (f_equal (fun l => l !! i)) in H.
    rewrite list_lookup_insert_eq in H by (by eapply lookup_lt_Some). congruence.
  - intros ->. by apply list_insert_id.
Qed.

Lemma snoc_not_same {A} (l : list A) x : l ++ [x] ≠ l.
Proof.
  intros H. apply (f_equal length) in H. rewrite length_app in H. simpl in H. lia.
Qed.

(** What a merge step adds to the summary is empty exactly when it leaves
    its slice as it was. *)
Lemma yaml_mergeCluster_delta cfg tc pc nc us ch0 :
  ∃ delta,
    (Yaml.mergeCluster cfg tc pc nc us ch0).2 = ch0 ++ delta ∧
    (delta = [] ↔
     Yaml.Clusters (Yaml.mergeCluster cfg tc pc nc us ch0).1 = Yaml.Clusters cfg).
Proof.
  unfold Yaml.mergeCluster, Yaml.noteIf.
  destruct (Yaml.findCluster _ _) as [[i c]|] eqn:Hf; simpl.
  - apply find_at in Hf as [Hi _].
    destruct c as [n [srv ca]]. simpl.
    destruct (Yaml.differ ca _) eqn:Hca;
      [apply yaml_differ_true in Hca|apply yaml_differ_false in Hca];
      destruct (nc || us);
      try (destruct (Yaml.differ srv _) eqn:Hs;
           [apply yaml_differ_true in Hs|apply yaml_differ_false in Hs]);
      eexists; (split; [try rewrite <- app_assoc; try (symmetry; apply app_nil_r);
                        reflexivity|]);
      rewrite (insert_same_iff _ _ _ _ Hi);
      (split; [try discriminate; intros _; congruence
              |intros H; by simplify_eq]).
  - eexists. split; [reflexivity|]. split; [discriminate|].
    intros H. by apply snoc_not_same in H.
Qed.

Lemma yaml_mergeUser_delta cfg tc pu ch0 :
  ∃ delta,
    (Yaml.mergeUser cfg tc pu ch0).2 = ch0 ++ delta ∧
    (delta = [] ↔
     Yaml.Users (Yaml.mergeUser cfg tc pu ch0).1 = Yaml.Users cfg).
Proof.
  unfold Yaml.mergeUser, Yaml.noteIf.
  destruct (Yaml.findUser _ _) as [[i u]|] eqn:Hf; simpl.
  - apply find_at in Hf as [Hi _].
    destruct u as [n [tok cert key]], pu as [n' [tok' cert' key']]. simpl.
    destruct (Yaml.differ tok tok') eqn:Ht;
      [apply yaml_differ_true in Ht|apply yaml_differ_false in Ht];
      (destruct (Yaml.differ cert cert') eqn:Hc;
       [apply yaml_differ_true in Hc|apply yaml_differ_false in Hc]);
      (destruct (Yaml.differ key key') eqn:Hk;
       [apply yaml_differ_true in Hk|apply yaml_differ_false in Hk]);
      eexists;
      (split; [repeat rewrite <- app_assoc; try (symmetry; apply app_nil_r);
               reflexivity|]);
      rewrite (insert_same_iff _ _ _ _ Hi);
      (split; [try discriminate; intros _; congruence
              |intros H; by simplify_eq]).
  - eexists. split; [reflexivity|]. split; [discriminate|].
    intros H. by apply snoc_not_same in H.
Qed.

Lemma yaml_config_ext (a b : Yaml.KubeConfig) :
  Yaml.APIVersion a = Yaml.APIVersion b → Yaml.Kind a = Yaml.Kind b →
  Yaml.Clusters a = Yaml.Clusters b → Yaml.Contexts a = Yaml.Contexts b →
  Yaml.Users a = Yaml.Users b → Yaml.CurrentContext a = Yaml.CurrentContext b →
  a = b.
Proof. destruct a, b. simpl. by intros -> -> -> -> -> ->. Qed.

Lemma yaml_merge_changes_iff cfg tc pc pu nc us :
  (Yaml.merge cfg tc pc pu nc us).2 = [] ↔ (Yaml.merge cfg tc pc pu nc us).1 = cfg.
Proof.
  unfold Yaml.merge.
  destruct (yaml_mergeCluster_delta cfg tc pc nc us []) as (dc & Hdc & Hc).
  destruct (Yaml.mergeCluster cfg tc pc nc us []) as [cfg1 ch1] eqn:H1.
  simpl in Hdc, Hc. subst ch1.
  destruct (yaml_mergeUser_delta cfg1 tc pu dc) as (du & Hdu & Hu).
  destruct (Yaml.mergeUser cfg1 tc pu dc) as [cfg2 ch2] eqn:H2.
  simpl in Hdu, Hu |- *. subst ch2.
  pose proof (yaml_mergeCluster_frame _ _ _ _ _ _ _ _ H1) as (_ & Hx1 & Hu1 & Hcur1).
  pose proof (yaml_mergeUser_frame _ _ _ _ _ _ H2) as (_ & Hx2 & Hc2 & Hcur2).
  assert (Hav : Yaml.APIVersion cfg2 = Yaml.APIVersion cfg
                ∧ Yaml.Kind cfg2 = Yaml.Kind cfg).
  { revert H1 H2. unfold Yaml.mergeCluster, Yaml.mergeUser.
    destruct (Yaml.findCluster _ _) as [[??]|]; intros [= <- _];
      destruct (Yaml.findUser _ _) as [[??]|]; intros [= <- _]; done. }
  split.
  - intros H. apply app_eq_nil in H as [-> ->].
    apply yaml_config_ext; try tauto; try congruence.
    + rewrite Hc2. by apply Hc.
    + rewrite <- Hu1. by apply Hu.
  - intros <-. rewrite Hc2 in Hc. rewrite <- Hu1 in Hu.
    destruct Hc as [_ ->]; [|done]. by destruct Hu as [_ ->].
Qed.

Section ClientcmdDelta.
Context {Extra : Type}.
Implicit Types cfg : Clientcmd.Config Extra.

Lemma cc_differ_true a b : Clientcmd.differ a b = true ↔ a ≠ b.
Proof. unfold Clientcmd.differ. rewrite negb_true_iff. apply String.eqb_neq. Qed.

Lemma cc_differBytes_true a b : Clientcmd.differBytes a b = true ↔ a ≠ b.
Proof.
  unfold Clientcmd.differBytes, Go.bytesEqual. rewrite negb_true_iff.
  apply bool_decide_eq_false.
Qed.

Lemma map_insert_same_iff {V} (m : gmap string V) k x y :
  m !! k = Some x → <[k := y]> m = m ↔ y = x.
Proof.
  intros Hk. split.
  - intros H. apply (f_equal (fun m => m !! k)) in H.
    rewrite lookup_insert_eq in H. congruence.
  - intros ->. by apply insert_id.
Qed.

Lemma map_insert_fresh_ne {V} (m : gmap string V) k y :
  m !! k = None → <[k := y]> m ≠ m.
Proof.
  intros Hk H. apply (f_equal (fun m => m !! k)) in H.
  rewrite lookup_insert_eq in H. congruence.
Qed.

Lemma cc_mergeCluster_delta cfg name pc nc us ch0 :
  ∃ delta,
    (Clientcmd.mergeCluster cfg name pc nc us ch0).2 = ch0 ++ delta ∧
    (delta = [] ↔
     Clientcmd.Clusters (Clientcmd.mergeCluster cfg name pc nc us ch0).1
       = Clientcmd.Clusters cfg).
Proof.
  unfold Clientcmd.mergeCluster, Clientcmd.noteIf.
  destruct (Clientcmd.Clusters cfg !! name) as [c|] eqn:Hc; simpl.
  - destruct c as [srv ca rest]. simpl.
    destruct (Clientcmd.differBytes ca _) eqn:Hca;
      [apply cc_differBytes_true in Hca|apply cc_differBytes_false in Hca];
      destruct (us || nc); simpl;
      try (destruct (Clientcmd.differ srv _) eqn:Hs;
           [apply cc_differ_true in Hs|apply cc_differ_false in Hs]);
      eexists; (split; [try rewrite <- app_assoc; try (symmetry; apply app_nil_r);
                        reflexivity|]);
      rewrite (map_insert_same_iff _ _ _ _ Hc);
      (split; [try discriminate; intros _; congruence
              |intros H; by simplify_eq]).
  - eexists. split; [reflexivity|]. split; [discriminate|].
    intros H. by apply map_insert_fresh_ne in H.
Qed.

Lemma cc_mergeUser_delta cfg name pu ch0 :
  ∃ delta,
    (Clientcmd.mergeUser cfg name pu ch0).2 = ch0 ++ delta ∧
    (delta = [] ↔
     Clientcmd.AuthInfos (Clientcmd.mergeUser cfg name pu ch0).1
       = Clientcmd.AuthInfos cfg).
Proof.
  unfold Clientcmd.mergeUser, Clientcmd.noteIf.
  destruct (Clientcmd.AuthInfos cfg !! name) as [u|] eqn:Hu; simpl.
  - destruct u as [tok cert key rest]. simpl.
    destruct (Clientcmd.differ tok _) eqn:Ht;
      [apply cc_differ_true in Ht|apply cc_differ_false in Ht];
      (destruct (Clientcmd.differBytes cert _) eqn:Hc;
       [apply cc_differBytes_true in Hc|apply cc_differBytes_false in Hc]);
      (destruct (Clientcmd.differBytes key _) eqn:Hk;
       [apply cc_differBytes_true in Hk|apply cc_differBytes_false in Hk]);
      eexists;
      (split; [repeat rewrite <- app_assoc; try (symmetry; apply app_nil_r);
               reflexivity|]);
      rewrite (map_insert_same_iff _ _ _ _ Hu);
      (split; [try discriminate; intros _; congruence
              |intros H; by simplify_eq]).
  - eexists. split; [reflexivity|]. split; [discriminate|].
    intros H. by apply map_insert_fresh_ne in H.
Qed.

Lemma cc_config_ext (a b : Clientcmd.Config Extra) :
  Clientcmd.Clusters a = Clientcmd.Clusters b →
  Clientcmd.AuthInfos a = Clientcmd.AuthInfos b →
  Clientcmd.Contexts a = Clientcmd.Contexts b →
  Clientcmd.CurrentContext a = Clientcmd.CurrentContext b →
  Clientcmd.configRest a = Clientcmd.configRest b → a = b.
Proof. destruct a, b. simpl. by intros -> -> -> -> ->. Qed.

Lemma cc_merge_changes_iff cfg cname uname pc pu nc us :
  (Clientcmd.merge cfg cname uname pc pu nc us).2 = [] ↔
  (Clientcmd.merge cfg cname uname pc pu nc us).1 = cfg.
Proof.
  unfold Clientcmd.merge.
  destruct (cc_mergeCluster_delta cfg cname pc nc us []) as (dc & Hdc & Hc).
  destruct (Clientcmd.mergeCluster cfg cname pc nc us []) as [cfg1 ch1] eqn:H1.
  simpl in Hdc, Hc. subst ch1.
  destruct (cc_mergeUser_delta cfg1 uname pu dc) as (du & Hdu & Hu).
  destruct (Clientcmd.mergeUser cfg1 uname pu dc) as [cfg2 ch2] eqn:H2.
  simpl in Hdu, Hu |- *. subst ch2.
  pose proof (cc_mergeCluster_frame _ _ _ _ _ _ _ _ H1)
    as (_ & Hx1 & Hu1 & Hcur1 & Hr1).
  pose proof (cc_mergeUser_frame _ _ _ _ _ _ H2) as (_ & Hx2 & Hc2 & Hcur2 & Hr2).
  split.
  - intros H. apply app_eq_nil in H as [-> ->].
    apply cc_config_ext; try congruence.
    + rewrite Hc2. by apply Hc.
    + rewrite <- Hu1. by apply Hu.
  - intros <-. rewrite Hc2 in Hc. rewrite <- Hu1 in Hu.
    destruct Hc as [_ ->]; [|done]. by destruct Hu as [_ ->].
Qed.
End ClientcmdDelta.

(** ** Entries of the merge, field by field *)

Section YamlEntries.
Import Yaml.

Lemma yaml_merge_added_user cfg tc pc pu nc us :
  findUser (ctxUser tc) (Users cfg) = None →
  Users (merge cfg tc pc pu nc us).1
    = Users cfg ++ [{| nuName := ctxUser tc; nuUser := nuUser pu |}] ∧
  List.filter aboutUser (merge cfg tc pc pu nc us).2
    = [AddedUser (ctxUser tc) (shorten (Token (nuUser pu)))
         (shorten (ClientCertificateData (nuUser pu)))
         (shorten (ClientKeyData (nuUser pu)))].
Proof.
  intros Hf. unfold merge, mergeCluster, mergeUser, noteIf.
  destruct (findCluster _ _) as [[i c]|]; simpl; rewrite Hf; simpl.
  - split; [done|].
    repeat match goal with
           | |- context [differ ?a ?b] => destruct (differ a b)
           end; destruct nc, us; reflexivity.
  - done.
Qed.

Lemma yaml_merge_ca_entries cfg tc pc pu nc us i c :
  findCluster (ctxCluster tc) (Clusters cfg) = Some (i, c) →
  countWhere (isUpdate FieldCA) (merge cfg tc pc pu nc us).2
  = if differ (CertificateAuthorityData (ncCluster c))
         (CertificateAuthorityData (ncCluster pc))
    then 1 else 0.
Proof.
  intros Hf. unfold merge, mergeCluster, mergeUser, noteIf. rewrite Hf. simpl.
  destruct (findUser _ _) as [[j u]|]; simpl;
    destruct (differ (CertificateAuthorityData _) (CertificateAuthorityData _));
    repeat match goal with
           | |- context [differ ?a ?b] => destruct (differ a b)
           end;
    destruct nc, us; reflexivity.
Qed.

Lemma yaml_merge_user_entries cfg tc pc pu nc us j u :
  findUser (ctxUser tc) (Users cfg) = Some (j, u) →
  let changes := (merge cfg tc pc pu nc us).2 in
  let one (b : bool) := if b then 1 else 0 in
  countWhere (isUpdate FieldToken) changes
    = one (differ (Token (nuUser u)) (Token (nuUser pu))) ∧
  countWhere (isUpdate FieldCert) changes
    = one (differ (ClientCertificateData (nuUser u))
             (ClientCertificateData (nuUser pu))) ∧
  countWhere (isUpdate FieldKey) changes
    = one (differ (ClientKeyData (nuUser u)) (ClientKeyData (nuUser pu))) ∧
  countWhere aboutUser changes
    = one (differ (Token (nuUser u)) (Token (nuUser pu)))
      + one (differ (ClientCertificateData (nuUser u))
               (ClientCertificateData (nuUser pu)))
      + one (differ (ClientKeyData (nuUser u)) (ClientKeyData (nuUser pu))).
Proof.
  intros Hf changes one. subst changes one.
  unfold merge, mergeCluster, mergeUser, noteIf.
  destruct (findCluster _ _) as [[i c]|]; simpl; rewrite Hf; simpl;
    destruct (differ (Token _) (Token _));
    destruct (differ (ClientCertificateData _) (ClientCertificateData _));
    destruct (differ (ClientKeyData _) (ClientKeyData _));
    repeat match goal with
           | |- context [differ ?a ?b] => destruct (differ a b)
           end;
    destruct nc, us; done.
Qed.

(** names are kept, in order; a missing target name comes last *)
Lemma yaml_merge_names cfg tc pc pu nc us :
  let cfg' := (merge cfg tc pc pu nc us).1 in
  map ncName (Clusters cfg')
    = map ncName (Clusters cfg)
        ++ match findCluster (ctxCluster tc) (Clusters cfg) with
           | Some _ => []
           | None => [ctxCluster tc]
           end ∧
  map nuName (Users cfg')
    = map nuName (Users cfg)
        ++ match findUser (ctxUser tc) (Users cfg) with
           | Some _ => []
           | None => [ctxUser tc]
           end.
Proof.
  intros cfg'. subst cfg'. unfold merge, mergeCluster, mergeUser.
  destruct (findCluster _ _) as [[i c]|] eqn:Hc; simpl;
    destruct (findUser _ _) as [[j u]|] eqn:Hu; simpl;
    rewrite ?map_app, ?app_nil_r; simpl;
    try (apply find_at in Hc as [Hc _]); try (apply find_at in Hu as [Hu _]).
  all: split; try done.
  all: rewrite list_fmap_insert; simpl; apply list_insert_id;
    rewrite list_lookup_fmap; by (rewrite Hc || rewrite Hu).
Qed.

(** with the target names on disk, one slot of each slice changes *)
Lemma yaml_merge_one_slot cfg tc pc pu nc us i c j u :
  findCluster (ctxCluster tc) (Clusters cfg) = Some (i, c) →
  findUser (ctxUser tc) (Users cfg) = Some (j, u) →
  let cfg' := (merge cfg tc pc pu nc us).1 in
  length (Clusters cfg') = length (Clusters cfg) ∧
  length (Users cfg') = length (Users cfg) ∧
  (∀ k, k ≠ i → Clusters cfg' !! k = Clusters cfg !! k) ∧
  (∀ k, k ≠ j → Users cfg' !! k = Users cfg !! k).
Proof.
  intros Hc Hu cfg'. subst cfg'. unfold merge, mergeCluster, mergeUser.
  rewrite Hc. simpl. rewrite Hu. simpl.
  rewrite !length_insert. split_and!; try done.
  - intros k Hk. by rewrite list_lookup_insert_ne.
  - intros k Hk. by rewrite list_lookup_insert_ne.
Qed.
End YamlEntries.

Section ClientcmdEntries.
Import Clientcmd.
Context {Extra : Type}.
Implicit Types cfg : Config Extra.

Lemma cc_merge_added_user cfg cname uname pc pu nc us :
  AuthInfos cfg !! uname = None →
  AuthInfos (merge cfg cname uname pc pu nc us).1
    = <[uname := pu]> (AuthInfos cfg) ∧
  List.filter aboutUser (merge cfg cname uname pc pu nc us).2
    = [AddedUser uname (shorten (Token pu))
         (shortenBytes (ClientCertificateData pu))
         (shortenBytes (ClientKeyData pu))].
Proof.
  intros Hf. unfold merge, mergeCluster, mergeUser, noteIf.
  destruct (Clusters cfg !! cname) as [c|]; simpl; rewrite Hf; simpl.
  - split; [done|].
    repeat match goal with
           | |- context [differ ?a ?b] => destruct (differ a b)
           | |- context [differBytes ?a ?b] => destruct (differBytes a b)
           end; destruct nc, us; reflexivity.
  - done.
Qed.

Lemma cc_merge_ca_entries cfg cname uname pc pu nc us c :
  Clusters cfg !! cname = Some c →
  countWhere (isUpdate FieldCA) (merge cfg cname uname pc pu nc us).2
  = if differBytes (CertificateAuthorityData c) (CertificateAuthorityData pc)
    then 1 else 0.
Proof.
  intros Hf. unfold merge, mergeCluster, mergeUser, noteIf. rewrite Hf. simpl.
  destruct (AuthInfos cfg !! uname) as [u|]; simpl;
    destruct (differBytes (CertificateAuthorityData _) (CertificateAuthorityData _));
    repeat match goal with
           | |- context [differ ?a ?b] => destruct (differ a b)
           | |- context [differBytes ?a ?b] => destruct (differBytes a b)
           end;
    destruct nc, us; reflexivity.
Qed.

Lemma cc_merge_user_entries cfg cname uname pc pu nc us u :
  AuthInfos cfg !! uname = Some u →
  let changes := (merge cfg cname uname pc pu nc us).2 in
  let one (b : bool) := if b then 1 else 0 in
  countWhere (isUpdate FieldToken) changes = one (differ (Token u) (Token pu)) ∧
  countWhere (isUpdate FieldCert) changes
    = one (differBytes (ClientCertificateData u) (ClientCertificateData pu)) ∧
  countWhere (isUpdate FieldKey) changes
    = one (differBytes (ClientKeyData u) (ClientKeyData pu)) ∧
  countWhere aboutUser changes
    = one (differ (Token u) (Token pu))
      + one (differBytes (ClientCertificateData u) (ClientCertificateData pu))
      + one (differBytes (ClientKeyData u) (ClientKeyData pu)).
Proof.
  intros Hf changes one. subst changes one.
  unfold merge, mergeCluster, mergeUser, noteIf.
  destruct (Clusters cfg !! cname) as [c|]; simpl; rewrite Hf; simpl;
    destruct (differ (Token _) (Token _));
    destruct (differBytes (ClientCertificateData _) (ClientCertificateData _));
    destruct (differBytes (ClientKeyData _) (ClientKeyData _));
    repeat match goal with
           | |- context [differ ?a ?b] => destruct (differ a b)
           | |- context [differBytes ?a ?b] => destruct (differBytes a b)
           end;
    destruct nc, us; done.
Qed.

Lemma cc_merge_names cfg cname uname pc pu nc us :
  let cfg' := (merge cfg cname uname pc pu nc us).1 in
  dom (Clusters cfg') = {[cname]} ∪ dom (Clusters cfg) ∧
  dom (AuthInfos cfg') = {[uname]} ∪ dom (AuthInfos cfg).
Proof.
  intros cfg'. subst cfg'. unfold merge, mergeCluster, mergeUser.
  destruct (Clusters cfg !! cname) as [c|]; simpl;
    destruct (AuthInfos cfg !! uname) as [u|]; simpl;
    by rewrite !dom_insert_L.
Qed.

(** the fields the program does not name *)
Lemma cc_merge_rest cfg cname uname pc pu nc us :
  let cfg' := (merge cfg cname uname pc pu nc us).1 in
  ∃ c' u',
    Clusters cfg' !! cname = Some c' ∧ AuthInfos cfg' !! uname = Some u' ∧
    clusterRest c'
      = match Clusters cfg !! cname with
        | Some c => clusterRest c
        | None => clusterRest pc
        end ∧
    userRest u'
      = match AuthInfos cfg !! uname with
        | Some u => userRest u
        | None => userRest pu
        end.
Proof.
  intros cfg'. subst cfg'. unfold merge, mergeCluster, mergeUser.
  destruct (Clusters cfg !! cname) as [c|]; simpl;
    destruct (AuthInfos cfg !! uname) as [u|]; simpl;
    eexists _, _; rewrite !lookup_insert_eq; done.
Qed.
End ClientcmdEntries.

(** ** Quiet steps, failures, prompts shown *)

Section Observations.
Context {A B : Type}.

Lemma quiet_bind (m : M A) (k : A → M B) :
  quiet m → (∀ a, quiet (k a)) → quiet (bind m k).
Proof.
  intros Hm Hk w. unfold bind. specialize (Hm w).
  destruct (m w) as [w1 [f|a]]; simpl in *; [done|].
  destruct (Hk a w1) as [-> ->]. done.
Qed.

Lemma failsOnly_bind P (m : M A) (k : A → M B) :
  failsOnly P m → (∀ a, failsOnly P (k a)) → failsOnly P (bind m k).
Proof.
  intros Hm Hk w w' f. unfold bind.
  destruct (m w) as [w1 [g|a]] eqn:H.
  - intros [= <- <-]. exact (Hm _ _ _ H).
  - intros H2. exact (Hk _ _ _ _ H2).
Qed.

Lemma asksBetween_bind lo1 hi1 lo2 hi2 (m : M A) (k : A → M B) :
  asksBetween lo1 hi1 m → (∀ a, asksBetween lo2 hi2 (k a)) →
  asksBetween (lo1 + lo2) (hi1 + hi2) (bind m k).
Proof.
  intros Hm Hk w w' b H. apply bind_inr in H as (a & w1 & H1 & H2).
  destruct (Hm _ _ _ H1) as (l1 & E1 & ?).
  destruct (Hk _ _ _ _ H2) as (l2 & E2 & ?).
  exists (l1 ++ l2). rewrite E2, E1, app_assoc, length_app. split; [done|lia].
Qed.

Lemma asksBetween_weaken lo hi lo' hi' (m : M A) :
  lo' ≤ lo → hi ≤ hi' → asksBetween lo hi m → asksBetween lo' hi' m.
Proof.
  intros ?? Hm w w' a H. destruct (Hm _ _ _ H) as (l & ? & ?).
  exists l. split; [done|lia].
Qed.
End Observations.

Lemma quiet_ret {A} (a : A) : quiet (ret a).
Proof. done. Qed.

Lemma quiet_exit {A} f : quiet (@exit A f).
Proof. done. Qed.

Lemma quiet_answer {A} p (a : option A) f : quiet (answer p a f).
Proof. intros w. unfold answer. by destruct a. Qed.

Lemma quiet_readFile p f : quiet (readFile p f).
Proof. intros w. unfold readFile. by destruct (files w !! p). Qed.

Lemma quiet_orExit {A} (a : option A) f : quiet (orExit a f).
Proof. by destruct a. Qed.

Lemma quiet_expandHome {C} (e : Env C) : quiet (expandHome e).
Proof.
  unfold expandHome. destruct (String.prefix _ _); [|apply quiet_ret].
  apply quiet_bind; [apply quiet_orExit|]. intros; apply quiet_ret.
Qed.

Lemma quiet_run {A} (m : M A) w w1 r :
  quiet m → m w = (w1, r) → files w1 = files w ∧ stdout w1 = stdout w.
Proof. intros K H. specialize (K w). by rewrite H in K. Qed.

Create HintDb quietDb.
#[export] Hint Resolve quiet_ret quiet_exit quiet_answer quiet_readFile
  quiet_orExit quiet_expandHome : quietDb.

Ltac stepQuiet :=
  repeat first
    [ solve [auto with quietDb]
    | apply quiet_bind; [|intro]
    | match goal with
      | |- quiet (match ?x with _ => _ end) => destruct x
      | |- quiet (let '(_, _) := ?x in _) => destruct x
      end ].

Lemma failsOnly_ret {A} P (a : A) : failsOnly P (ret a).
Proof. intros w w' f [=]. Qed.

Lemma failsOnly_exit {A} (P : Failure → Prop) f : P f → failsOnly P (@exit A f).
Proof. intros H w w' g [= _ <-]. done. Qed.

Lemma failsOnly_answer {A} (P : Failure → Prop) p (a : option A) f :
  P f → failsOnly P (answer p a f).
Proof. intros H w w' g. unfold answer. destruct a; intros [= _ <-]. done. Qed.

Lemma failsOnly_readFile (P : Failure → Prop) p f :
  P f → failsOnly P (readFile p f).
Proof.
  intros H w w' g. unfold readFile. destruct (files w !! p); intros [= _ <-]. done.
Qed.

Lemma failsOnly_orExit {A} (P : Failure → Prop) (a : option A) f :
  P f → failsOnly P (orExit a f).
Proof. intros H. destruct a; [apply failsOnly_ret|by apply failsOnly_exit]. Qed.

Lemma failsOnly_println (P : Failure → Prop) s : failsOnly P (println s).
Proof. intros w w' g [=]. Qed.

Lemma failsOnly_writeFile (P : Failure → Prop) p d f :
  P f → failsOnly P (writeFile p d f).
Proof.
  intros H w w' g. unfold writeFile. destruct (denied w p); intros [= _ <-]. done.
Qed.

Lemma failsOnly_printSummary (P : Failure → Prop) l : failsOnly P (printSummary l).
Proof. intros w w' g. by rewrite printSummary_run. Qed.

Lemma failsOnly_expandHome {C} (P : Failure → Prop) (e : Env C) :
  P HomeDirFailed → failsOnly P (expandHome e).
Proof.
  intros H. unfold expandHome. destruct (String.prefix _ _); [|apply failsOnly_ret].
  apply failsOnly_bind; [by apply failsOnly_orExit|]. intros; apply failsOnly_ret.
Qed.

Ltac stepFails :=
  repeat first
    [ apply failsOnly_ret
    | apply failsOnly_println
    | apply failsOnly_printSummary
    | apply failsOnly_exit; done
    | apply failsOnly_answer; done
    | apply failsOnly_readFile; done
    | apply failsOnly_orExit; done
    | apply failsOnly_writeFile; done
    | apply failsOnly_expandHome; done
    | apply failsOnly_bind; [|intro]
    | match goal with
      | |- failsOnly _ (match ?x with _ => _ end) => destruct x
      | |- failsOnly _ (if ?x then _ else _) => destruct x
      | |- failsOnly _ (let '(_, _) := ?x in _) => destruct x
      end ].

Lemma asksBetween_ret {A} (a : A) : asksBetween 0 0 (ret a).
Proof.
  intros w w' b [= <- _]. exists []. by rewrite app_nil_r.
Qed.

Lemma asksBetween_exit {A} lo hi f : asksBetween lo hi (@exit A f).
Proof. intros w w' b [=]. Qed.

Lemma asksBetween_orExit {A} (a : option A) f : asksBetween 0 0 (orExit a f).
Proof. destruct a; [apply asksBetween_ret|apply asksBetween_exit]. Qed.

Lemma asksBetween_answer {A} p (a : option A) f : asksBetween 1 1 (answer p a f).
Proof.
  intros w w' b. unfold answer. destruct a; intros [= <- _].
  exists [p]. done.
Qed.

Lemma asksBetween_readFile p f : asksBetween 0 0 (readFile p f).
Proof.
  intros w w' b. unfold readFile. destruct (files w !! p); intros [= <- _].
  exists []. by rewrite app_nil_r.
Qed.

Lemma asksBetween_expandHome {C} (e : Env C) : asksBetween 0 0 (expandHome e).
Proof.
  unfold expandHome. destruct (String.prefix _ _); [|apply asksBetween_ret].
  apply (asksBetween_bind 0 0 0 0); [apply asksBetween_orExit|].
  intros; apply asksBetween_ret.
Qed.

Lemma asksBetween_same {A} (m : M A) :
  (∀ w, asked (m w).1 = asked w) → asksBetween 0 0 m.
Proof.
  intros H w w' a E. exists []. rewrite app_nil_r.
  specialize (H w). by rewrite E in H.
Qed.

(** ** Runs of the YAML variant *)

Section YamlRuns.
Import Yaml.
Variable e : Env KubeConfig.

(** The selection among pasted contexts cannot be reached: a list searched
    without success has no element to offer. *)
Lemma yaml_resolveContext_cases newCfg pc w :
  resolveContext e newCfg pc w =
    match list_find (usesCluster (ncName pc)) (Contexts newCfg) with
    | Some (_, x) => (w, inr x)
    | None => (w, inl (NoContextForCluster (ncName pc)))
    end.
Proof.
  unfold resolveContext.
  destruct (list_find _ _) as [[i x]|] eqn:Hf; [done|].
  apply list_find_None in Hf. by rewrite (filter_nothing _ _ Hf).
Qed.

Lemma yaml_quiet_selectTarget cfg : quiet (selectTarget e cfg).
Proof. unfold selectTarget, select, input3. stepQuiet. Qed.

Lemma yaml_quiet_resolveContext cfg pc : quiet (resolveContext e cfg pc).
Proof. unfold resolveContext, select. stepQuiet. Qed.

Lemma yaml_quiet_resolveUser cfg x : quiet (resolveUser e cfg x).
Proof. unfold resolveUser, select. stepQuiet. Qed.

Lemma yaml_quiet_upToCluster : quiet (upToCluster e).
Proof.
  unfold upToCluster, load, askUpdateServer, readPasted, resolveCluster,
    confirm, text, select.
  pose proof yaml_quiet_selectTarget. stepQuiet.
Qed.


(** the prefix of [main] up to [finish], or the failure that cut it *)
Lemma yaml_main_cases w :
  (∃ w3 s pu,
     (files w3 = files w ∧ stdout w3 = stdout w) ∧
     (∃ w1, upToCluster e w = (w1, inr s)) ∧
     main e w = finish e s pu w3) ∨
  (∃ w3 f,
     (files w3 = files w ∧ stdout w3 = stdout w) ∧ f ≠ WriteConfigFailed ∧
     f ≠ WriteBackupFailed ∧ f ≠ MarshalFailed ∧ f ≠ NilDereference ∧
     main e w = (w3, inl f)).
Proof.
  assert (Hpre : failsOnly (fun f => f ≠ WriteConfigFailed ∧ f ≠ WriteBackupFailed
                                      ∧ f ≠ MarshalFailed ∧ f ≠ NilDereference)
                   (upToCluster e)).
  { unfold upToCluster, load, selectTarget, askUpdateServer, readPasted,
      resolveCluster, confirm, text, select, input3. stepFails. }
  unfold main.
  destruct (upToCluster e w) as [w1 [f|s]] eqn:Hup.
  { right. exists w1, f. rewrite (bind_exit _ _ _ _ _ Hup).
    pose proof (Hpre _ _ _ Hup) as (?&?&?&?).
    split_and!; try done; by eapply quiet_run; [apply yaml_quiet_upToCluster|]. }
  pose proof (quiet_run _ _ _ _ yaml_quiet_upToCluster Hup) as [F1 O1].
  rewrite (bind_step _ _ _ _ _ Hup).
  pose proof (yaml_resolveContext_cases (newCfg s) (pastedCluster s) w1) as Hx.
  destruct (list_find _ _) as [[i x]|].
  2:{ right. exists w1, (NoContextForCluster (ncName (pastedCluster s))).
      rewrite (bind_exit _ _ _ _ _ Hx). done. }
  rewrite (bind_step _ _ _ _ _ Hx).
  destruct (resolveUser e (newCfg s) x w1) as [w3 [f|u]] eqn:Hu.
  { right. exists w3, f. rewrite (bind_exit _ _ _ _ _ Hu).
    pose proof (quiet_run _ _ _ _ (yaml_quiet_resolveUser _ _) Hu) as [F3 O3].
    assert (Hf : failsOnly (fun f => f ≠ WriteConfigFailed ∧ f ≠ WriteBackupFailed
                                      ∧ f ≠ MarshalFailed ∧ f ≠ NilDereference)
                   (resolveUser e (newCfg s) x)).
    { unfold resolveUser, select. stepFails. }
    pose proof (Hf _ _ _ Hu) as (?&?&?&?).
    split_and!; try done; congruence. }
  pose proof (quiet_run _ _ _ _ (yaml_quiet_resolveUser _ _) Hu) as [F3 O3].
  rewrite (bind_step _ _ _ _ _ Hu).
  left. exists w3, s, u. split_and!; [congruence|congruence|by eexists|done].
Qed.


Lemma yaml_load_failure w w1 f :
  load e w = (w1, inl f) → main e w = (w, inl f) ∧ w1 = w.
Proof.
  intros Hl.
  assert (w1 = w) as ->.
  { revert Hl. unfold load, bind.
    destruct (expandHome e w) as [w2 [g|p]] eqn:Hp.
    - intros [= <- <-]. unfold expandHome in Hp.
      destruct (String.prefix _ _); [|discriminate].
      unfold bind, orExit in Hp. destruct (userHomeDir e); by injection Hp.
    - assert (w2 = w) as ->.
      { unfold expandHome in Hp. destruct (String.prefix _ _).
        - unfold bind, orExit in Hp. destruct (userHomeDir e); by injection Hp.
        - by injection Hp. }
      unfold readFile. destruct (files w !! p); [|by intros [= <- <-]].
      destruct (unmarshal e l); simpl; by intros [= <- <-]. }
  split; [|done]. unfold main, upToCluster.
  apply bind_exit. by apply bind_exit.
Qed.

(** a run that succeeds in apply mode *)
Lemma yaml_main_applied w w' :
  tryFlag e = false → main e w = (w', inr tt) →
  ∃ w1 s pu out,
    upToCluster e w = (w1, inr s) ∧
    marshal e (merged s pu).1 = Some out ∧
    files w !! configPath s = Some (origData s) ∧
    files w' = <[configPath s := out]>
                 (<[backupPath e (configPath s) := origData s]> (files w)).
Proof.
  intros Ht.
  destruct (yaml_main_cases w) as [(w3 & s & pu & [F O] & [w1 Hup] & ->)
                                  |(w3 & g & _ & _ & _ & _ & _ & ->)];
    [|discriminate].
  unfold finish. destruct (merged s pu) as [cfg changes] eqn:Hm.
  destruct (marshal e cfg) as [out|] eqn:Hout; simpl orExit; [|discriminate].
  rewrite (bind_step (ret out) _ w3 w3 out eq_refl).
  rewrite (bind_step _ _ _ _ _ (printSummary_run _ w3)).
  match goal with
  | |- write _ ?p ?d _ ?w4 = _ → _ =>
      pose proof (yaml_write_apply e p d out w4 Ht) as H; simpl in H
  end.
  intros E. rewrite E in H. simpl in H.
  destruct (denied w3 _); [discriminate|]. destruct H as [_ H].
  destruct (denied w3 _); destruct H as [H1 H2]; [discriminate|].
  exists w1, s, pu, out. rewrite Hm. simpl. split_and!; try done.
  - destruct (yaml_upToCluster_inv e w w1 s Hup) as (cfg0 & Hl & _).
    by apply yaml_load_inv in Hl as (_ & ? & _).
  - by rewrite H2, F.
Qed.

(** the forms a step shows *)
Lemma yaml_asks_selectTarget_update cfg w w' cfg1 ti nc :
  selectTarget e cfg w = (w', inr (cfg1, ti, nc)) →
  ∀ w2 us, askUpdateServer e nc (target cfg1 ti) w' = (w2, inr us) →
  ∃ first second, asked w2 = asked w ++ [first; second].
Proof.
  unfold selectTarget, askUpdateServer. intros H w2 us H2.
  apply bind_inr in H as (sel & w1 & Hsel & H).
  apply answer_inr in Hsel as [_ ->].
  destruct (String.eqb sel "new context").
  - apply bind_inr in H as ([[a b] c] & w3 & Hn & H).
    apply answer_inr in Hn as [_ ->]. apply ret_inr in H as [[= -> -> ->] ->].
    simpl in H2. apply ret_inr in H2 as [_ ->]. simpl.
    eexists _, _. by rewrite <- app_assoc.
  - destruct (findContext sel (Contexts cfg)) as [[i x]|]; [|discriminate].
    apply ret_inr in H as [[= -> -> ->] ->]. simpl in H2.
    apply answer_inr in H2 as [_ ->]. simpl.
    eexists _, _. by rewrite <- app_assoc.
Qed.

Lemma yaml_asks_resolveCluster cfg ti newCfg :
  asksBetween 0 1 (resolveCluster e cfg ti newCfg).
Proof.
  unfold resolveCluster. destruct (findCluster _ _) as [[i c]|].
  - eapply asksBetween_weaken; [| |apply asksBetween_ret]; lia.
  - apply (asksBetween_bind 0 1 0 0).
    + eapply asksBetween_weaken; [| |apply asksBetween_answer]; lia.
    + intros sel. destruct (findCluster sel _) as [[i c]|];
        [apply asksBetween_ret|apply asksBetween_exit].
Qed.

Lemma yaml_asks_resolveUser newCfg x :
  asksBetween 0 1 (resolveUser e newCfg x).
Proof.
  unfold resolveUser. destruct (findUser _ _) as [[i c]|].
  - eapply asksBetween_weaken; [| |apply asksBetween_ret]; lia.
  - apply (asksBetween_bind 0 1 0 0).
    + eapply asksBetween_weaken; [| |apply asksBetween_answer]; lia.
    + intros sel. destruct (findUser sel _) as [[i c]|];
        [apply asksBetween_ret|apply asksBetween_exit].
Qed.

Lemma yaml_asks_finish s pu w : asked (finish e s pu w).1 = asked w.
Proof.
  unfold finish. destruct (merged s pu) as [cfg changes].
  destruct (marshal e cfg) as [out|]; simpl orExit; [|done].
  rewrite (bind_step (ret out) _ w w out eq_refl).
  rewrite (bind_step _ _ _ _ _ (printSummary_run _ w)).
  unfold write, bind, println, writeFile. simpl.
  destruct (tryFlag e); simpl; [done|].
  destruct (denied w _); simpl; [done|]. by destruct (denied w _).
Qed.

Lemma yaml_main_asks w w' :
  main e w = (w', inr tt) →
  ∃ shown, asked w' = asked w ++ shown ∧ 3 ≤ length shown ≤ 5.
Proof.
  unfold main. intros H.
  apply bind_inr in H as (s & w5 & Hup & H).
  apply bind_inr in H as (x & w6 & Hx & H).
  apply bind_inr in H as (u & w7 & Hu & H).
  pose proof (yaml_asks_finish s u w7) as Hfin. rewrite H in Hfin. simpl in Hfin.
  rewrite yaml_resolveContext_cases in Hx.
  assert (w6 = w5) as ->.
  { destruct (list_find _ _) as [[??]|]; by injection Hx. }
  destruct (yaml_asks_resolveUser _ _ _ _ _ Hu) as (l3 & E3 & ?).
  unfold upToCluster in Hup.
  apply bind_inr in Hup as ([[p d] cfg0] & w1 & Hl & Hup).
  apply yaml_load_inv in Hl as (-> & _).
  apply bind_inr in Hup as ([[cfg1 ti] nc] & w2 & Hsel & Hup).
  apply bind_inr in Hup as (us & w3 & Hus & Hup).
  apply bind_inr in Hup as (newCfg & w4 & Hp & Hup).
  apply bind_inr in Hup as ([cfg2 pc] & w5' & Hres & Hup).
  apply ret_inr in Hup as [_ ->].
  destruct (yaml_asks_selectTarget_update _ _ _ _ _ _ Hsel _ _ Hus)
    as (p1 & p2 & E1).
  unfold readPasted in Hp. apply bind_inr in Hp as (txt & w3' & Ht & Hp).
  apply answer_inr in Ht as [_ ->]. apply orExit_inr in Hp as [_ ->].
  destruct (yaml_asks_resolveCluster _ _ _ _ _ _ Hres) as (l2 & E2 & ?).
  exists ([p1; p2] ++ [Text "Paste kubeconfig file (press ctrl+d when done)"]
            ++ l2 ++ l3).
  split.
  - rewrite Hfin, E3, E2. simpl. rewrite E1. by rewrite <- !app_assoc.
  - rewrite !length_app. simpl. lia.
Qed.

(** the pasted cluster, and what its resolution does to the document *)
Lemma yaml_resolveCluster_hit cfg ti newCfg w i c :
  findCluster (ctxCluster (target cfg ti)) (Clusters newCfg) = Some (i, c) →
  resolveCluster e cfg ti newCfg w = (w, inr (cfg, c)).
Proof. unfold resolveCluster. by intros ->. Qed.

Lemma yaml_resolveCluster_miss cfg ti newCfg w w' cfg2 pc x :
  Contexts cfg !! ti = Some x →
  findCluster (ctxCluster (target cfg ti)) (Clusters newCfg) = None →
  resolveCluster e cfg ti newCfg w = (w', inr (cfg2, pc)) →
  (∃ title, asked w' = asked w ++ [Select title (map ncName (Clusters newCfg))]) ∧
  ncName pc ≠ ctxCluster x.(nxContext) ∧
  Contexts cfg2 !! ti
    = Some {| nxName := nxName x;
              nxContext := {| ctxCluster := ncName pc;
                              ctxUser := ctxUser (nxContext x) |} |} ∧
  yamlSameButTarget ti cfg cfg2.
Proof.
  intros Hx Hmiss. unfold resolveCluster. rewrite Hmiss. intros H.
  apply bind_inr in H as (sel & w1 & Hsel & H).
  apply answer_inr in Hsel as [_ ->].
  destruct (findCluster sel _) as [[i c]|] eqn:Hs; [|discriminate].
  apply ret_inr in H as [[= -> ->] ->].
  apply find_at in Hs as [Hi Hn]. simpl in Hn. subst sel.
  split_and!.
  - by eexists.
  - intros Heq. unfold target in Hmiss. rewrite Hx in Hmiss.
    apply list_find_None in Hmiss. rewrite Forall_lookup in Hmiss.
    by apply (Hmiss _ _ Hi).
  - unfold setTargetCluster. rewrite Hx. simpl.
    apply list_lookup_insert_eq. by eapply lookup_lt_Some.
  - apply yaml_setTargetCluster_spec. by eexists.
Qed.
End YamlRuns.

(** two apply runs whose backups get the same name *)
Lemma expandHome_same {C} (e1 e2 : Env C) w1 w2 :
  configFlag e1 = configFlag e2 → userHomeDir e1 = userHomeDir e2 →
  filepathJoin e1 = filepathJoin e2 →
  (expandHome e1 w1).2 = (expandHome e2 w2).2.
Proof.
  intros Hf Hh Hj. unfold expandHome. rewrite Hf, Hh, Hj.
  destruct (String.prefix _ _); [|done].
  unfold bind, orExit. by destruct (userHomeDir e2).
Qed.

Lemma yaml_session_path e1 e2 w1 w1' s1 w2 w2' s2 :
  configFlag e1 = configFlag e2 → userHomeDir e1 = userHomeDir e2 →
  filepathJoin e1 = filepathJoin e2 →
  Yaml.upToCluster e1 w1 = (w1', inr s1) →
  Yaml.upToCluster e2 w2 = (w2', inr s2) →
  Yaml.configPath s1 = Yaml.configPath s2.
Proof.
  intros Hf Hh Hj H1 H2.
  apply yaml_upToCluster_inv in H1 as (c1 & L1 & _).
  apply yaml_upToCluster_inv in H2 as (c2 & L2 & _).
  pose proof (expandHome_same e1 e2 w1 w2 Hf Hh Hj) as E.
  unfold Yaml.load in L1, L2.
  apply bind_inr in L1 as (p1 & v1 & P1 & L1).
  apply bind_inr in L2 as (p2 & v2 & P2 & L2).
  rewrite P1, P2 in E. simpl in E. injection E as ->.
  apply bind_inr in L1 as (d1 & ? & _ & L1).
  apply bind_inr in L1 as (? & ? & _ & L1). apply ret_inr in L1 as [[= <- _ _] _].
  apply bind_inr in L2 as (d2 & ? & _ & L2).
  apply bind_inr in L2 as (? & ? & _ & L2). apply ret_inr in L2 as [[= <- _ _] _].
  done.
Qed.

Lemma yaml_same_day_backup e1 e2 w w1 w2 :
  tryFlag e1 = false → tryFlag e2 = false →
  configFlag e1 = configFlag e2 → userHomeDir e1 = userHomeDir e2 →
  filepathJoin e1 = filepathJoin e2 →
  Go.formatYYYYMMDD (now e1) = Go.formatYYYYMMDD (now e2) →
  Yaml.main e1 w = (w1, inr tt) →
  Yaml.main e2 w1 = (w2, inr tt) →
  ∃ p original merged1,
    files w !! p = Some original ∧
    files w1 !! p = Some merged1 ∧
    files w1 !! Yaml.backupPath e1 p = Some original ∧
    Yaml.backupPath e2 p = Yaml.backupPath e1 p ∧
    files w2 !! Yaml.backupPath e1 p = Some merged1.
Proof.
  intros T1 T2 Hf Hh Hj Hday R1 R2.
  apply (yaml_main_applied e1 _ _ T1) in R1
    as (v1 & s1 & pu1 & out1 & U1 & _ & D1 & F1).
  apply (yaml_main_applied e2 _ _ T2) in R2
    as (v2 & s2 & pu2 & out2 & U2 & _ & D2 & F2).
  pose proof (yaml_session_path _ _ _ _ _ _ _ _ Hf Hh Hj U1 U2) as Hp.
  assert (Hb : Yaml.backupPath e2 (Yaml.configPath s1)
               = Yaml.backupPath e1 (Yaml.configPath s1)).
  { unfold Yaml.backupPath. by rewrite Hday. }
  exists (Yaml.configPath s1), (Yaml.origData s1), out1.
  assert (H1 : files w1 !! Yaml.configPath s1 = Some out1)
    by (rewrite F1; apply lookup_insert_eq).
  split_and!; try done.
  - rewrite F1, lookup_insert_ne by apply yaml_backupPath_fresh.
    apply lookup_insert_eq.
  - rewrite F2, <- Hp, Hb.
    rewrite lookup_insert_ne by apply yaml_backupPath_fresh.
    rewrite lookup_insert_eq. rewrite Hp in H1. congruence.
Qed.

(** ** Runs of the clientcmd variant *)

Section ClientcmdRuns.
Import Clientcmd.
Context {Extra : Type} (zero : Extra).
Variable e : Env (Config Extra).
Variable o : MapOrder.
Implicit Types cfg newCfg : Config Extra.

Lemma cc_firstContextFor_spec newCfg cname :
  match list_find (usesCluster cname) (rangeMap o 2 (Contexts newCfg)) with
  | Some (_, (k, x)) =>
      firstContextFor o newCfg cname = k ∧
      Contexts newCfg !! k = Some x ∧ ctxCluster x = cname
  | None =>
      firstContextFor o newCfg cname = EmptyString ∧
      ∀ k x, Contexts newCfg !! k = Some x → ctxCluster x ≠ cname
  end.
Proof.
  unfold firstContextFor.
  destruct (list_find _ _) as [[i [k x]]|] eqn:Hf.
  - apply find_at in Hf as [Hi Hu]. split; [done|]. split; [|done].
    by apply cc_rangeMap_lookup in Hi.
  - split; [done|]. intros k x Hk Hc.
    apply list_find_None in Hf. rewrite Forall_forall in Hf.
    apply (Hf (k, x)); [|done].
    unfold rangeMap. rewrite (shuffle_perm o). by apply elem_of_map_to_list.
Qed.

(** Without a pasted context of the empty name the selection among pasted
    contexts is never shown. *)
Lemma cc_resolveContext_named newCfg cname w :
  Contexts newCfg !! EmptyString = None →
  (∃ x, resolveContext e o newCfg cname w = (w, inr (Some x)) ∧
        ctxCluster x = cname ∧ ∃ k, Contexts newCfg !! k = Some x) ∨
  (resolveContext e o newCfg cname w = (w, inl (NoContextForCluster cname)) ∧
   ∀ k x, Contexts newCfg !! k = Some x → ctxCluster x ≠ cname).
Proof.
  intros Hempty.
  pose proof (cc_firstContextFor_spec newCfg cname) as Hfirst.
  destruct (list_find _ _) as [[i [k x]]|].
  - destruct Hfirst as (Hk & Hx & Hc). left. exists x. split_and!; [|done|by eexists].
    unfold resolveContext. rewrite Hk.
    destruct (String.eqb_spec k EmptyString) as [->|Hne]; [congruence|].
    unfold bind, ret. by rewrite Hx.
  - destruct Hfirst as [_ Hno]. right. split; [|done].
    by apply cc_resolveContext_none.
Qed.

(** The selection is shown only for a pasted context of the empty name
    that uses the cluster. *)
Lemma cc_resolveContext_asks newCfg cname w :
  (resolveContext e o newCfg cname w).1 ≠ w →
  ∃ x, Contexts newCfg !! EmptyString = Some x ∧ ctxCluster x = cname.
Proof.
  intros Hw.
  pose proof (cc_firstContextFor_spec newCfg cname) as Hfirst.
  destruct (list_find _ _) as [[i [k x]]|].
  - destruct Hfirst as (Hk & Hx & Hc).
    destruct (String.eqb_spec k EmptyString) as [->|Hne]; [by exists x|].
    exfalso. apply Hw. unfold resolveContext. rewrite Hk.
    destruct (String.eqb_spec k EmptyString); [done|]. reflexivity.
  - destruct Hfirst as [_ Hno]. exfalso. apply Hw.
    by rewrite cc_resolveContext_none.
Qed.

Lemma cc_quiet_selectTarget cfg : quiet (selectTarget zero e o cfg).
Proof. unfold selectTarget, select, input3. stepQuiet. Qed.

Lemma cc_quiet_resolveContext cfg n : quiet (resolveContext e o cfg n).
Proof. unfold resolveContext, select. stepQuiet. Qed.

Lemma cc_quiet_resolveUser cfg x : quiet (resolveUser e o cfg x).
Proof. unfold resolveUser, select. stepQuiet. Qed.

Lemma cc_quiet_upToCluster : quiet (upToCluster zero e o).
Proof.
  unfold upToCluster, load, askUpdateServer, readPasted, resolveCluster,
    confirm, text, select.
  pose proof cc_quiet_selectTarget. stepQuiet.
Qed.


Lemma cc_main_cases w :
  (∃ w3 s pu,
     (files w3 = files w ∧ stdout w3 = stdout w) ∧
     (∃ w1, upToCluster zero e o w = (w1, inr s)) ∧
     main zero e o w = finish zero e s pu w3) ∨
  (∃ w3 f,
     (files w3 = files w ∧ stdout w3 = stdout w) ∧ f ≠ WriteConfigFailed ∧
     f ≠ WriteBackupFailed ∧ f ≠ MarshalFailed ∧
     main zero e o w = (w3, inl f)).
Proof.
  set (P := fun f => f ≠ WriteConfigFailed ∧ f ≠ WriteBackupFailed
                    ∧ f ≠ MarshalFailed).
  assert (Hpre : failsOnly P (upToCluster zero e o)).
  { unfold P, upToCluster, load, selectTarget, askUpdateServer, readPasted,
      resolveCluster, confirm, text, select, input3. stepFails. }
  unfold main.
  destruct (upToCluster zero e o w) as [w1 [f|s]] eqn:Hup.
  { right. exists w1, f. rewrite (bind_exit _ _ _ _ _ Hup).
    pose proof (Hpre _ _ _ Hup) as (?&?&?).
    split_and!; try done; by eapply quiet_run; [apply cc_quiet_upToCluster|]. }
  pose proof (quiet_run _ _ _ _ cc_quiet_upToCluster Hup) as [F1 O1].
  rewrite (bind_step _ _ _ _ _ Hup).
  destruct (resolveContext e o (newCfg s) (targetClusterName s) w1)
    as [w2 [f|x]] eqn:Hx.
  { right. exists w2, f. rewrite (bind_exit _ _ _ _ _ Hx).
    pose proof (quiet_run _ _ _ _ (cc_quiet_resolveContext _ _) Hx) as [F2 O2].
    assert (Hf : failsOnly P (resolveContext e o (newCfg s) (targetClusterName s))).
    { unfold P, resolveContext, select. stepFails. }
    pose proof (Hf _ _ _ Hx) as (?&?&?).
    split_and!; try done; congruence. }
  pose proof (quiet_run _ _ _ _ (cc_quiet_resolveContext _ _) Hx) as [F2 O2].
  rewrite (bind_step _ _ _ _ _ Hx).
  destruct (resolveUser e o (newCfg s) x w2) as [w3 [f|u]] eqn:Hu.
  { right. exists w3, f. rewrite (bind_exit _ _ _ _ _ Hu).
    pose proof (quiet_run _ _ _ _ (cc_quiet_resolveUser _ _) Hu) as [F3 O3].
    assert (Hf : failsOnly P (resolveUser e o (newCfg s) x)).
    { unfold P, resolveUser, select. stepFails. }
    pose proof (Hf _ _ _ Hu) as (?&?&?).
    split_and!; try done; congruence. }
  pose proof (quiet_run _ _ _ _ (cc_quiet_resolveUser _ _) Hu) as [F3 O3].
  rewrite (bind_step _ _ _ _ _ Hu).
  left. exists w3, s, u. split_and!; [congruence|congruence|by eexists|done].
Qed.


(** a cluster selection that names no pasted cluster *)
Lemma cc_main_without_cluster w w1 s :
  upToCluster zero e o w = (w1, inr s) →
  pastedCluster s = None →
  ∃ w' f, main zero e o w = (w', inl f) ∧
          files w' = files w ∧ stdout w' = stdout w.
Proof.
  intros Hup Hnil.
  destruct (cc_main_cases w) as [(w3 & s' & pu & [F O] & [w1' Hup'] & Hm)
                                |(w3 & g & [F O] & ? & ? & ? & Hm)].
  - rewrite Hup in Hup'. injection Hup' as <- <-.
    rewrite Hm. unfold finish, merged. rewrite Hnil.
    exists w3, NilDereference. done.
  - exists w3, g. done.
Qed.

Lemma cc_load_failure w w1 f :
  load e w = (w1, inl f) → main zero e o w = (w, inl f) ∧ w1 = w.
Proof.
  intros Hl.
  assert (w1 = w) as ->.
  { revert Hl. unfold load, bind.
    destruct (expandHome e w) as [w2 [g|p]] eqn:Hp.
    - intros [= <- <-]. unfold expandHome in Hp.
      destruct (String.prefix _ _); [|discriminate].
      unfold bind, orExit in Hp. destruct (userHomeDir e); by injection Hp.
    - assert (w2 = w) as ->.
      { unfold expandHome in Hp. destruct (String.prefix _ _).
        - unfold bind, orExit in Hp. destruct (userHomeDir e); by injection Hp.
        - by injection Hp. }
      unfold readFile. destruct (files w !! p); [|by intros [= <- <-]].
      destruct (unmarshal e l); simpl; by intros [= <- <-]. }
  split; [|done]. unfold main, upToCluster.
  apply bind_exit. by apply bind_exit.
Qed.


Lemma cc_asks_selectTarget_update cfg w w' cfg1 tn nc :
  selectTarget zero e o cfg w = (w', inr (cfg1, tn, nc)) →
  ∀ w2 us, askUpdateServer e nc (target zero cfg1 tn) w' = (w2, inr us) →
  ∃ first second, asked w2 = asked w ++ [first; second].
Proof.
  unfold selectTarget, askUpdateServer. intros H w2 us H2.
  apply bind_inr in H as (sel & w1 & Hsel & H).
  apply answer_inr in Hsel as [_ ->].
  destruct (String.eqb sel "new context").
  - apply bind_inr in H as ([[a b] c] & w3 & Hn & H).
    apply answer_inr in Hn as [_ ->]. apply ret_inr in H as [[= -> -> ->] ->].
    simpl in H2. apply ret_inr in H2 as [_ ->]. simpl.
    eexists _, _. by rewrite <- app_assoc.
  - destruct (Contexts cfg !! sel) as [x|]; [|discriminate].
    apply ret_inr in H as [[= -> -> ->] ->]. simpl in H2.
    apply answer_inr in H2 as [_ ->]. simpl.
    eexists _, _. by rewrite <- app_assoc.
Qed.

Lemma cc_asks_resolveCluster cfg tn newCfg :
  asksBetween 0 1 (resolveCluster zero e o cfg tn newCfg).
Proof.
  unfold resolveCluster. destruct (Clusters newCfg !! _) as [c|].
  - eapply asksBetween_weaken; [| |apply asksBetween_ret]; lia.
  - apply (asksBetween_bind 0 1 0 0).
    + eapply asksBetween_weaken; [| |apply asksBetween_answer]; lia.
    + intros sel. apply asksBetween_ret.
Qed.

Lemma cc_asks_resolveContext newCfg cname :
  asksBetween 0 1 (resolveContext e o newCfg cname).
Proof.
  unfold resolveContext. apply (asksBetween_bind 0 1 0 0).
  - destruct (String.eqb _ _).
    + destruct (length _ =? 0); [apply asksBetween_exit|].
      eapply asksBetween_weaken; [| |apply asksBetween_answer]; lia.
    + eapply asksBetween_weaken; [| |apply asksBetween_ret]; lia.
  - intros n. apply asksBetween_ret.
Qed.

Lemma cc_asks_resolveUser newCfg x :
  asksBetween 0 1 (resolveUser e o newCfg x).
Proof.
  unfold resolveUser. destruct x as [x|]; [|apply asksBetween_exit].
  destruct (AuthInfos newCfg !! _) as [u|].
  - eapply asksBetween_weaken; [| |apply asksBetween_ret]; lia.
  - apply (asksBetween_bind 0 1 0 0).
    + eapply asksBetween_weaken; [| |apply asksBetween_answer]; lia.
    + intros sel. apply asksBetween_ret.
Qed.

Lemma cc_asks_finish s pu w : asked (finish zero e s pu w).1 = asked w.
Proof.
  unfold finish, merged.
  destruct (pastedCluster s) as [c|]; [|done].
  destruct pu as [u|]; [|done].
  match goal with
  | |- context [ret ?m] => destruct m as [cfg changes] eqn:Hm
  end.
  rewrite (bind_step (ret (cfg, changes)) _ w w (cfg, changes) eq_refl).
  rewrite (bind_step _ _ _ _ _ (printSummary_run _ w)).
  unfold write, bind, println, writeFile, orExit. simpl.
  destruct (tryFlag e); simpl.
  - by destruct (marshal e cfg).
  - destruct (denied w _); simpl; [done|].
    destruct (marshal e cfg); simpl; [|done]. by destruct (denied w _).
Qed.

Lemma cc_main_asks w w' :
  main zero e o w = (w', inr tt) →
  ∃ shown, asked w' = asked w ++ shown ∧ 3 ≤ length shown ≤ 6.
Proof.
  unfold main. intros H.
  apply bind_inr in H as (s & w5 & Hup & H).
  apply bind_inr in H as (x & w6 & Hx & H).
  apply bind_inr in H as (u & w7 & Hu & H).
  pose proof (cc_asks_finish s u w7) as Hfin. rewrite H in Hfin. simpl in Hfin.
  destruct (cc_asks_resolveContext _ _ _ _ _ Hx) as (l4 & E4 & ?).
  destruct (cc_asks_resolveUser _ _ _ _ _ Hu) as (l3 & E3 & ?).
  unfold upToCluster in Hup.
  apply bind_inr in Hup as ([[p d] cfg0] & w1 & Hl & Hup).
  apply cc_load_inv in Hl as (-> & _).
  apply bind_inr in Hup as ([[cfg1 ti] nc] & w2 & Hsel & Hup).
  apply bind_inr in Hup as (us & w3 & Hus & Hup).
  apply bind_inr in Hup as (newCfg & w4 & Hp & Hup).
  apply bind_inr in Hup as ([[cfg2 cname] pc] & w5' & Hres & Hup).
  apply ret_inr in Hup as [_ ->].
  destruct (cc_asks_selectTarget_update _ _ _ _ _ _ Hsel _ _ Hus)
    as (p1 & p2 & E1).
  unfold readPasted in Hp. apply bind_inr in Hp as (txt & w3' & Ht & Hp).
  apply answer_inr in Ht as [_ ->]. apply orExit_inr in Hp as [_ ->].
  destruct (cc_asks_resolveCluster _ _ _ _ _ _ Hres) as (l2 & E2 & ?).
  exists ([p1; p2] ++ [Text "Paste kubeconfig (ctrl+d when done)"]
            ++ l2 ++ l4 ++ l3).
  split.
  - rewrite Hfin, E3, E4, E2. simpl. rewrite E1. by rewrite <- !app_assoc.
  - rewrite !length_app. simpl. lia.
Qed.

Lemma cc_resolveCluster_hit cfg tn newCfg w c :
  Clusters newCfg !! ctxCluster (target zero cfg tn) = Some c →
  resolveCluster zero e o cfg tn newCfg w
  = (w, inr (cfg, ctxCluster (target zero cfg tn), Some c)).
Proof. unfold resolveCluster. by intros ->. Qed.

Lemma cc_resolveCluster_miss cfg tn newCfg w w' cfg2 cname pc x :
  Contexts cfg !! tn = Some x →
  Clusters newCfg !! ctxCluster x = None →
  resolveCluster zero e o cfg tn newCfg w = (w', inr (cfg2, cname, pc)) →
  asked w' = asked w ++ [Select "Select cluster from pasted config"
                           (rangeMap o 1 (Clusters newCfg)).*1] ∧
  pc = Clusters newCfg !! cname ∧
  Contexts cfg2 !! tn
    = Some {| ctxCluster := cname; AuthInfo := AuthInfo x;
              contextRest := contextRest x |} ∧
  ccSameButTarget tn cfg cfg2.
Proof.
  intros Hx Hmiss. unfold resolveCluster, target. rewrite Hx, Hmiss. intros H.
  apply bind_inr in H as (sel & w1 & Hsel & H).
  apply answer_inr in Hsel as [_ ->].
  apply ret_inr in H as [[= -> -> ->] ->].
  split_and!; try done.
  - unfold setTargetCluster. rewrite Hx. simpl. apply lookup_insert_eq.
  - apply (cc_setTargetCluster_spec zero). by eexists.
Qed.
End ClientcmdRuns.




(** ** How much of a secret a summary shows *)

Lemma shorten_length s :
  String.length (shorten s) = if String.length s <=? 15 then String.length s else 13.
Proof.
  unfold shorten. destruct (Nat.leb_spec (String.length s) 15); [done|].
  rewrite !length_append.
  rewrite (length_substring 0 5 s), (length_substring (String.length s - 5) 5 s)
    by lia.
  done.
Qed.

Lemma shorten_again s : shorten (shorten s) = shorten s.
Proof.
  apply shorten_short. rewrite shorten_length.
  destruct (Nat.leb_spec (String.length s) 15); lia.
Qed.

Lemma shortenBytes_length data : String.length (shortenBytes data) ≤ 15.
Proof.
  destruct data as [|b data]; [simpl; lia|].
  rewrite shortenBytes_nonempty by done. rewrite shorten_length.
  destruct (Nat.leb_spec (String.length (Go.EncodeToString (b :: data))) 15); lia.
Qed.

Lemma shortenBytes_threshold data :
  (1 ≤ length data ≤ 9 → shortenBytes data = Go.EncodeToString data) ∧
  (10 ≤ length data →
     shortenBytes data
     = substring 0 5 (Go.EncodeToString data) +:+ "..."
         +:+ substring (String.length (Go.EncodeToString data) - 5) 5
               (Go.EncodeToString data) ∧
     String.length (shortenBytes data) = 13).
Proof.
  assert (Hdiv : ∀ n, n ≤ 9 → (n + 2) / 3 ≤ 3).
  { intros n Hn. cut ((n + 2) / 3 < 4); [lia|].
    apply Nat.Div0.div_lt_upper_bound. lia. }
  assert (Hdiv' : ∀ n, 10 ≤ n → 4 ≤ (n + 2) / 3).
  { intros n Hn. apply Nat.div_le_lower_bound; lia. }
  split.
  - intros [H1 H9]. rewrite shortenBytes_nonempty by (intros ->; simpl in *; lia).
    apply shorten_short. rewrite length_EncodeToString.
    specialize (Hdiv _ H9). lia.
  - intros H10.
    assert (Hlen : 15 < String.length (Go.EncodeToString data)).
    { rewrite length_EncodeToString. specialize (Hdiv' _ H10). lia. }
    rewrite shortenBytes_nonempty by (intros ->; simpl in *; lia).
    split; [by apply shorten_long|].
    rewrite shorten_length. by destruct (Nat.leb_spec (String.length (Go.EncodeToString data)) 15); [lia|].
Qed.

(** * Further properties of the program *)

(** X1: the summary is empty exactly when the merge leaves the document as
    it was: every change it makes has an entry, and every entry stands for
    a change.  Both variants. *)
Theorem summary_empty_iff_unchanged :
  (∀ cfg tc pc pu nc us,
     (Yaml.merge cfg tc pc pu nc us).2 = [] ↔
     (Yaml.merge cfg tc pc pu nc us).1 = cfg)
  ∧
  (∀ Extra (cfg : Clientcmd.Config Extra) cname uname pc pu nc us,
     (Clientcmd.merge cfg cname uname pc pu nc us).2 = [] ↔
     (Clientcmd.merge cfg cname uname pc pu nc us).1 = cfg).
Proof.
  split.
  - apply yaml_merge_changes_iff.
  - intros Extra. apply cc_merge_changes_iff.
Qed.

(** X2: when the target's user name is not on disk, the merge adds one
    entry under that name holding the pasted user's token, certificate and
    key, and the summary has one user entry, the "added user" one. *)
Theorem user_added_when_missing :
  (∀ cfg tc pc pu nc us,
     Yaml.findUser (Yaml.ctxUser tc) (Yaml.Users cfg) = None →
     let r := Yaml.merge cfg tc pc pu nc us in
     Yaml.Users r.1
       = Yaml.Users cfg
           ++ [{| Yaml.nuName := Yaml.ctxUser tc;
                  Yaml.nuUser := Yaml.nuUser pu |}] ∧
     List.filter aboutUser r.2
       = [AddedUser (Yaml.ctxUser tc) (shorten (Yaml.Token (Yaml.nuUser pu)))
            (shorten (Yaml.ClientCertificateData (Yaml.nuUser pu)))
            (shorten (Yaml.ClientKeyData (Yaml.nuUser pu)))])
  ∧
  (∀ Extra (cfg : Clientcmd.Config Extra) cname uname pc pu nc us,
     Clientcmd.AuthInfos cfg !! uname = None →
     let r := Clientcmd.merge cfg cname uname pc pu nc us in
     Clientcmd.AuthInfos r.1 = <[uname := pu]> (Clientcmd.AuthInfos cfg) ∧
     size (Clientcmd.AuthInfos r.1) = S (size (Clientcmd.AuthInfos cfg)) ∧
     List.filter aboutUser r.2
       = [AddedUser uname (shorten (Clientcmd.Token pu))
            (shortenBytes (Clientcmd.ClientCertificateData pu))
            (shortenBytes (Clientcmd.ClientKeyData pu))]).
Proof.
  split.
  - intros cfg tc pc pu nc us Hf r. by apply yaml_merge_added_user.
  - intros Extra cfg cname uname pc pu nc us Hf r.
    destruct (cc_merge_added_user cfg cname uname pc pu nc us Hf) as [H1 H2].
    split_and!; [done| |done].
    subst r. rewrite H1. by apply map_size_insert_None.
Qed.

Lemma user_added_when_missing_witness :
  (let tc := {| Yaml.ctxCluster := "staging-cluster";
                Yaml.ctxUser := "staging-user" |} in
   let r := Yaml.merge Scenario.Y.disk tc Scenario.Y.pastedProd
              Scenario.Y.pastedUser2 true false in
   Yaml.findUser "staging-user" (Yaml.Users Scenario.Y.disk) = None ∧
   List.filter aboutUser r.2
     = [AddedUser "staging-user" "tok-new-bbbb" EmptyString EmptyString])
  ∧
  (let r := Clientcmd.merge Scenario.C.disk "staging-cluster" "staging-user"
              Scenario.C.pastedProd Scenario.C.pastedUser2 true false in
   Clientcmd.AuthInfos Scenario.C.disk !! "staging-user" = None ∧
   size (Clientcmd.AuthInfos r.1) = 3 ∧
   List.filter aboutUser r.2
     = [AddedUser "staging-user" "tok-new-bbbb" "<empty>" "<empty>"]).
Proof.
  destruct user_added_when_missing as [HY HC]. split.
  - intros tc r.
    assert (Hf : Yaml.findUser (Yaml.ctxUser tc) (Yaml.Users Scenario.Y.disk)
                 = None) by reflexivity.
    split; [exact Hf|].
    exact (proj2 (HY _ tc Scenario.Y.pastedProd Scenario.Y.pastedUser2
                    true false Hf)).
  - intros r.
    assert (Hf : Clientcmd.AuthInfos Scenario.C.disk !! "staging-user" = None)
      by (vm_compute; reflexivity).
    split; [exact Hf|].
    destruct (HC unit _ "staging-cluster" _ Scenario.C.pastedProd
                Scenario.C.pastedUser2 true false Hf) as (_ & Hs & Hl).
    split; [exact Hs|exact Hl].
Defined.

(** X3: the CA data of a target cluster that is on disk is always replaced
    by the pasted one, whatever the answer about the server URL, and the
    summary has one CA entry when the two differ and none when they are
    equal. *)
Theorem ca_data_always_taken :
  (∀ cfg tc pc pu nc us i c,
     Yaml.findCluster (Yaml.ctxCluster tc) (Yaml.Clusters cfg) = Some (i, c) →
     let r := Yaml.merge cfg tc pc pu nc us in
     (∃ c', Yaml.Clusters r.1 !! i = Some c' ∧
            Yaml.CertificateAuthorityData (Yaml.ncCluster c')
              = Yaml.CertificateAuthorityData (Yaml.ncCluster pc)) ∧
     countWhere (isUpdate FieldCA) r.2
       = if Yaml.differ (Yaml.CertificateAuthorityData (Yaml.ncCluster c))
              (Yaml.CertificateAuthorityData (Yaml.ncCluster pc))
         then 1 else 0)
  ∧
  (∀ Extra (cfg : Clientcmd.Config Extra) cname uname pc pu nc us c,
     Clientcmd.Clusters cfg !! cname = Some c →
     let r := Clientcmd.merge cfg cname uname pc pu nc us in
     (∃ c', Clientcmd.Clusters r.1 !! cname = Some c' ∧
            Clientcmd.CertificateAuthorityData c'
              = Clientcmd.CertificateAuthorityData pc) ∧
     countWhere (isUpdate FieldCA) r.2
       = if Clientcmd.differBytes (Clientcmd.CertificateAuthorityData c)
              (Clientcmd.CertificateAuthorityData pc)
         then 1 else 0).
Proof.
  split.
  - intros cfg tc pc pu nc us i c Hf r. split.
    + destruct (yaml_merge_stored cfg tc pc pu nc us)
        as (i' & c' & _ & _ & Hc & Hca & _).
      destruct (yaml_mergeCluster_result cfg tc pc nc us [])
        as (i2 & c2 & Hf2 & _ & _ & Hcase).
      rewrite Hf in Hcase. destruct Hcase as [-> _].
      assert (Hcl : Yaml.Clusters r.1
                    = Yaml.Clusters (Yaml.mergeCluster cfg tc pc nc us []).1).
      { subst r. unfold Yaml.merge.
        destruct (Yaml.mergeCluster cfg tc pc nc us []) as [cfg1 ch1].
        apply yaml_mergeUser_clusters. }
      rewrite <- Hcl in Hf2. fold r in Hc. rewrite Hf2 in Hc.
      injection Hc as <- <-. exists c2. split; [|done].
      by apply find_at in Hf2 as [? _].
    + exact (yaml_merge_ca_entries cfg tc pc pu nc us i c Hf).
  - intros Extra cfg cname uname pc pu nc us c Hf r. split.
    + destruct (cc_merge_stored cfg cname uname pc pu nc us)
        as (c' & u' & Hc & Hca & _).
      by exists c'.
    + exact (cc_merge_ca_entries cfg cname uname pc pu nc us c Hf).
Qed.

Lemma ca_data_always_taken_witness :
  (let r := Yaml.merge Scenario.Y.disk Scenario.Y.prodContext
              Scenario.Y.pastedProd Scenario.Y.pastedUser2 false false in
   (∃ i c, Yaml.findCluster "prod-cluster" (Yaml.Clusters Scenario.Y.disk)
           = Some (i, c)) ∧
   countWhere (isUpdate FieldCA) r.2 = 1)
  ∧
  (let r := Clientcmd.merge Scenario.C.disk "prod-cluster" "prod-user"
              Scenario.C.pastedProd Scenario.C.pastedUser2 false false in
   is_Some (Clientcmd.Clusters Scenario.C.disk !! "prod-cluster") ∧
   countWhere (isUpdate FieldCA) r.2 = 1).
Proof.
  destruct ca_data_always_taken as [HY HC]. split.
  - intros r.
    assert (Hf : Yaml.findCluster (Yaml.ctxCluster Scenario.Y.prodContext)
                   (Yaml.Clusters Scenario.Y.disk)
                 = Some (1, {| Yaml.ncName := "prod-cluster";
                               Yaml.ncCluster :=
                                 {| Yaml.Server := "https://old.example:6443";
                                    Yaml.CertificateAuthorityData := EmptyString |} |}))
      by reflexivity.
    split; [eexists _, _; exact Hf|].
    exact (proj2 (HY _ _ Scenario.Y.pastedProd Scenario.Y.pastedUser2
                    false false _ _ Hf)).
  - intros r.
    assert (Hf : Clientcmd.Clusters Scenario.C.disk !! "prod-cluster"
                 = Some {| Clientcmd.Server := "https://old.example:6443";
                           Clientcmd.CertificateAuthorityData := [];
                           Clientcmd.clusterRest := tt |})
      by (vm_compute; reflexivity).
    split; [by eexists|].
    exact (proj2 (HC unit _ _ "prod-user" Scenario.C.pastedProd
                    Scenario.C.pastedUser2 false false _ Hf)).
Defined.

(** X4: for a target user that is on disk, token, client certificate and
    client key are compared one by one: each has one entry in the summary
    when it differs from the pasted one and none when it is equal, so the
    user part of the summary has as many entries as fields differ, at most
    three. *)
Theorem user_field_entries :
  (∀ cfg tc pc pu nc us j u,
     Yaml.findUser (Yaml.ctxUser tc) (Yaml.Users cfg) = Some (j, u) →
     let changes := (Yaml.merge cfg tc pc pu nc us).2 in
     let one (b : bool) := if b then 1 else 0 in
     let old := Yaml.nuUser u in
     let new := Yaml.nuUser pu in
     countWhere (isUpdate FieldToken) changes
       = one (Yaml.differ (Yaml.Token old) (Yaml.Token new)) ∧
     countWhere (isUpdate FieldCert) changes
       = one (Yaml.differ (Yaml.ClientCertificateData old)
                (Yaml.ClientCertificateData new)) ∧
     countWhere (isUpdate FieldKey) changes
       = one (Yaml.differ (Yaml.ClientKeyData old) (Yaml.ClientKeyData new)) ∧
     countWhere aboutUser changes
       = one (Yaml.differ (Yaml.Token old) (Yaml.Token new))
         + one (Yaml.differ (Yaml.ClientCertificateData old)
                  (Yaml.ClientCertificateData new))
         + one (Yaml.differ (Yaml.ClientKeyData old) (Yaml.ClientKeyData new)) ∧
     countWhere aboutUser changes ≤ 3)
  ∧
  (∀ Extra (cfg : Clientcmd.Config Extra) cname uname pc pu nc us u,
     Clientcmd.AuthInfos cfg !! uname = Some u →
     let changes := (Clientcmd.merge cfg cname uname pc pu nc us).2 in
     let one (b : bool) := if b then 1 else 0 in
     countWhere (isUpdate FieldToken) changes
       = one (Clientcmd.differ (Clientcmd.Token u) (Clientcmd.Token pu)) ∧
     countWhere (isUpdate FieldCert) changes
       = one (Clientcmd.differBytes (Clientcmd.ClientCertificateData u)
                (Clientcmd.ClientCertificateData pu)) ∧
     countWhere (isUpdate FieldKey) changes
       = one (Clientcmd.differBytes (Clientcmd.ClientKeyData u)
                (Clientcmd.ClientKeyData pu)) ∧
     countWhere aboutUser changes
       = one (Clientcmd.differ (Clientcmd.Token u) (Clientcmd.Token pu))
         + one (Clientcmd.differBytes (Clientcmd.ClientCertificateData u)
                  (Clientcmd.ClientCertificateData pu))
         + one (Clientcmd.differBytes (Clientcmd.ClientKeyData u)
                  (Clientcmd.ClientKeyData pu)) ∧
     countWhere aboutUser changes ≤ 3).
Proof.
  split.
  - intros cfg tc pc pu nc us j u Hf changes one old new.
    destruct (yaml_merge_user_entries cfg tc pc pu nc us j u Hf)
      as (H1 & H2 & H3 & H4).
    split_and!; try done. fold changes in H4. rewrite H4.
    repeat match goal with
           | |- context [Yaml.differ ?a ?b] => destruct (Yaml.differ a b)
           end; simpl; lia.
  - intros Extra cfg cname uname pc pu nc us u Hf changes one.
    destruct (cc_merge_user_entries cfg cname uname pc pu nc us u Hf)
      as (H1 & H2 & H3 & H4).
    split_and!; try done. fold changes in H4. rewrite H4.
    repeat match goal with
           | |- context [Clientcmd.differ ?a ?b] => destruct (Clientcmd.differ a b)
           | |- context [Clientcmd.differBytes ?a ?b] =>
               destruct (Clientcmd.differBytes a b)
           end; simpl; lia.
Qed.

Lemma user_field_entries_witness :
  (let changes := (Yaml.merge Scenario.Y.disk Scenario.Y.prodContext
                     Scenario.Y.pastedProd Scenario.Y.pastedUser2 false true).2 in
   (∃ j u, Yaml.findUser "prod-user" (Yaml.Users Scenario.Y.disk) = Some (j, u)) ∧
   countWhere aboutUser changes ≤ 3)
  ∧
  (let changes := (Clientcmd.merge Scenario.C.disk "prod-cluster" "prod-user"
                     Scenario.C.pastedProd Scenario.C.pastedUser2 false true).2 in
   is_Some (Clientcmd.AuthInfos Scenario.C.disk !! "prod-user") ∧
   countWhere aboutUser changes ≤ 3).
Proof.
  destruct user_field_entries as [HY HC]. split.
  - intros changes.
    assert (Hf : Yaml.findUser (Yaml.ctxUser Scenario.Y.prodContext)
                   (Yaml.Users Scenario.Y.disk)
                 = Some (1, {| Yaml.nuName := "prod-user";
                               Yaml.nuUser :=
                                 {| Yaml.Token := "tok-old-aaaa";
                                    Yaml.ClientCertificateData := EmptyString;
                                    Yaml.ClientKeyData := EmptyString |} |}))
      by reflexivity.
    split; [eexists _, _; exact Hf|].
    destruct (HY _ _ Scenario.Y.pastedProd Scenario.Y.pastedUser2 false true
                _ _ Hf) as (_ & _ & _ & _ & H).
    exact H.
  - intros changes.
    assert (Hf : Clientcmd.AuthInfos Scenario.C.disk !! "prod-user"
                 = Some {| Clientcmd.Token := "tok-old-aaaa";
                           Clientcmd.ClientCertificateData := [];
                           Clientcmd.ClientKeyData := [];
                           Clientcmd.userRest := tt |})
      by (vm_compute; reflexivity).
    split; [by eexists|].
    destruct (HC unit _ "prod-cluster" _ Scenario.C.pastedProd
                Scenario.C.pastedUser2 false true _ Hf) as (_ & _ & _ & _ & H).
    exact H.
Defined.

(** X5: the merge removes and renames nothing.  In the YAML variant the
    names of clusters and users stay as they are and in their order, with
    the target name put last when it was missing; in the clientcmd variant
    the keys of each map are the old keys and the target name. *)
Theorem merge_keeps_names :
  (∀ cfg tc pc pu nc us,
     let cfg' := (Yaml.merge cfg tc pc pu nc us).1 in
     map Yaml.ncName (Yaml.Clusters cfg')
       = map Yaml.ncName (Yaml.Clusters cfg)
           ++ match Yaml.findCluster (Yaml.ctxCluster tc) (Yaml.Clusters cfg) with
              | Some _ => []
              | None => [Yaml.ctxCluster tc]
              end ∧
     map Yaml.nuName (Yaml.Users cfg')
       = map Yaml.nuName (Yaml.Users cfg)
           ++ match Yaml.findUser (Yaml.ctxUser tc) (Yaml.Users cfg) with
              | Some _ => []
              | None => [Yaml.ctxUser tc]
              end)
  ∧
  (∀ Extra (cfg : Clientcmd.Config Extra) cname uname pc pu nc us,
     let cfg' := (Clientcmd.merge cfg cname uname pc pu nc us).1 in
     dom (Clientcmd.Clusters cfg') = {[cname]} ∪ dom (Clientcmd.Clusters cfg) ∧
     dom (Clientcmd.AuthInfos cfg')
       = {[uname]} ∪ dom (Clientcmd.AuthInfos cfg)).
Proof.
  split.
  - apply yaml_merge_names.
  - intros Extra. apply cc_merge_names.
Qed.

(** X6 (YAML variant): with the target names on disk the merge writes one
    slot of the cluster slice and one of the user slice, those of the
    first entries with these names; every other slot is as before, also a
    later entry of the same name, and the lengths are the same. *)
Theorem one_slot_written :
  ∀ cfg tc pc pu nc us i c j u,
    Yaml.findCluster (Yaml.ctxCluster tc) (Yaml.Clusters cfg) = Some (i, c) →
    Yaml.findUser (Yaml.ctxUser tc) (Yaml.Users cfg) = Some (j, u) →
    let cfg' := (Yaml.merge cfg tc pc pu nc us).1 in
    length (Yaml.Clusters cfg') = length (Yaml.Clusters cfg) ∧
    length (Yaml.Users cfg') = length (Yaml.Users cfg) ∧
    (∀ k, k ≠ i → Yaml.Clusters cfg' !! k = Yaml.Clusters cfg !! k) ∧
    (∀ k, k ≠ j → Yaml.Users cfg' !! k = Yaml.Users cfg !! k) ∧
    (∀ k x, k < i → Yaml.Clusters cfg !! k = Some x →
            Yaml.ncName x ≠ Yaml.ctxCluster tc) ∧
    (∀ k x, k < j → Yaml.Users cfg !! k = Some x →
            Yaml.nuName x ≠ Yaml.ctxUser tc).
Proof.
  intros cfg tc pc pu nc us i c j u Hc Hu cfg'.
  destruct (yaml_merge_one_slot cfg tc pc pu nc us i c j u Hc Hu)
    as (H1 & H2 & H3 & H4).
  split_and!; try done.
  - intros k x Hk Hx. apply list_find_Some in Hc as (_ & _ & Hlt). eauto.
  - intros k x Hk Hx. apply list_find_Some in Hu as (_ & _ & Hlt). eauto.
Qed.

Lemma one_slot_written_witness :
  let cfg' := (Yaml.merge twins Scenario.Y.prodContext Scenario.Y.pastedProd
                 Scenario.Y.pastedUser2 false true).1 in
  (∃ c, Yaml.findCluster "prod-cluster" (Yaml.Clusters twins) = Some (0, c)) ∧
  (∃ u, Yaml.findUser "prod-user" (Yaml.Users twins) = Some (0, u)) ∧
  Yaml.Clusters cfg' !! 1 = Yaml.Clusters twins !! 1 ∧
  Yaml.Users cfg' !! 1 = Yaml.Users twins !! 1.
Proof.
  intros cfg'.
  assert (Hc : ∃ c, Yaml.findCluster (Yaml.ctxCluster Scenario.Y.prodContext)
                      (Yaml.Clusters twins) = Some (0, c))
    by (eexists; reflexivity).
  assert (Hu : ∃ u, Yaml.findUser (Yaml.ctxUser Scenario.Y.prodContext)
                      (Yaml.Users twins) = Some (0, u))
    by (eexists; reflexivity).
  split; [exact Hc|]. split; [exact Hu|].
  destruct Hc as [c Hc], Hu as [u Hu].
  destruct (one_slot_written twins _ Scenario.Y.pastedProd Scenario.Y.pastedUser2
              false true _ _ _ _ Hc Hu) as (_ & _ & H3 & H4 & _).
  split; [apply H3|apply H4]; lia.
Defined.

(** X7 (clientcmd variant): an update of a cluster or user that is on disk
    keeps every field of it that the program does not name; an added
    cluster or user is the pasted object, with all its fields. *)
Theorem update_keeps_other_fields :
  ∀ Extra (cfg : Clientcmd.Config Extra) cname uname pc pu nc us,
    let cfg' := (Clientcmd.merge cfg cname uname pc pu nc us).1 in
    ∃ c' u',
      Clientcmd.Clusters cfg' !! cname = Some c' ∧
      Clientcmd.AuthInfos cfg' !! uname = Some u' ∧
      Clientcmd.clusterRest c'
        = match Clientcmd.Clusters cfg !! cname with
          | Some c => Clientcmd.clusterRest c
          | None => Clientcmd.clusterRest pc
          end ∧
      Clientcmd.userRest u'
        = match Clientcmd.AuthInfos cfg !! uname with
          | Some u => Clientcmd.userRest u
          | None => Clientcmd.userRest pu
          end.
Proof. intros Extra. apply cc_merge_rest. Qed.

(** X8: the pasted cluster is looked up under the target context's cluster
    name.  On a hit nothing is asked and the document is as before.  On a
    miss one selection over the pasted cluster names is shown and the
    answer becomes the target context's cluster reference; its name and
    user reference and everything else in the document stay. *)
Theorem cluster_rename_on_miss :
  (∀ e cfg ti newCfg w i c,
     Yaml.findCluster (Yaml.ctxCluster (Yaml.target cfg ti)) (Yaml.Clusters newCfg)
       = Some (i, c) →
     Yaml.resolveCluster e cfg ti newCfg w = (w, inr (cfg, c)))
  ∧
  (∀ e cfg ti newCfg w w' cfg2 pc x,
     Yaml.Contexts cfg !! ti = Some x →
     Yaml.findCluster (Yaml.ctxCluster (Yaml.target cfg ti)) (Yaml.Clusters newCfg)
       = None →
     Yaml.resolveCluster e cfg ti newCfg w = (w', inr (cfg2, pc)) →
     (∃ title, asked w' = asked w
                 ++ [Select title (map Yaml.ncName (Yaml.Clusters newCfg))]) ∧
     Yaml.ncName pc ≠ Yaml.ctxCluster (Yaml.nxContext x) ∧
     Yaml.Contexts cfg2 !! ti
       = Some {| Yaml.nxName := Yaml.nxName x;
                 Yaml.nxContext :=
                   {| Yaml.ctxCluster := Yaml.ncName pc;
                      Yaml.ctxUser := Yaml.ctxUser (Yaml.nxContext x) |} |} ∧
     yamlSameButTarget ti cfg cfg2)
  ∧
  (∀ Extra (zero : Extra) e o cfg tn newCfg w c,
     Clientcmd.Clusters newCfg
       !! Clientcmd.ctxCluster (Clientcmd.target zero cfg tn) = Some c →
     Clientcmd.resolveCluster zero e o cfg tn newCfg w
     = (w, inr (cfg, Clientcmd.ctxCluster (Clientcmd.target zero cfg tn), Some c)))
  ∧
  (∀ Extra (zero : Extra) e o cfg tn newCfg w w' cfg2 cname pc x,
     Clientcmd.Contexts cfg !! tn = Some x →
     Clientcmd.Clusters newCfg !! Clientcmd.ctxCluster x = None →
     Clientcmd.resolveCluster zero e o cfg tn newCfg w
       = (w', inr (cfg2, cname, pc)) →
     asked w' = asked w
       ++ [Select "Select cluster from pasted config"
             (Clientcmd.rangeMap o 1 (Clientcmd.Clusters newCfg)).*1] ∧
     pc = Clientcmd.Clusters newCfg !! cname ∧
     Clientcmd.Contexts cfg2 !! tn
       = Some {| Clientcmd.ctxCluster := cname;
                 Clientcmd.AuthInfo := Clientcmd.AuthInfo x;
                 Clientcmd.contextRest := Clientcmd.contextRest x |} ∧
     ccSameButTarget tn cfg cfg2).
Proof.
  split_and!.
  - apply yaml_resolveCluster_hit.
  - apply yaml_resolveCluster_miss.
  - intros Extra. apply cc_resolveCluster_hit.
  - intros Extra. apply cc_resolveCluster_miss.
Qed.

Lemma cluster_rename_on_miss_witness :
  (let e := Scenario.env Scenario.Y.disk Scenario.Y.pasted false
              (Reruns.pickDev "prod-cluster") in
   let r := Yaml.resolveCluster e Scenario.Y.disk 0 Scenario.Y.pasted
              Scenario.world in
   Yaml.findCluster "dev-cluster" (Yaml.Clusters Scenario.Y.pasted) = None ∧
   r.2 = inr (Yaml.setTargetCluster Scenario.Y.disk 0 "prod-cluster",
              Scenario.Y.pastedProd) ∧
   Yaml.Contexts (Yaml.setTargetCluster Scenario.Y.disk 0 "prod-cluster") !! 0
     = Some {| Yaml.nxName := "dev";
               Yaml.nxContext := {| Yaml.ctxCluster := "prod-cluster";
                                    Yaml.ctxUser := "dev-user" |} |})
  ∧
  (let e := Scenario.env Scenario.C.disk Scenario.C.pasted false
              (Reruns.pickDev "prod-cluster") in
   let r := Clientcmd.resolveCluster tt e Clientcmd.sourceOrder Scenario.C.disk
              "dev" Scenario.C.pasted Scenario.world in
   Clientcmd.Clusters Scenario.C.pasted !! "dev-cluster" = None ∧
   r.2 = inr (Clientcmd.setTargetCluster Scenario.C.disk "dev" "prod-cluster",
              "prod-cluster", Some Scenario.C.pastedProd) ∧
   Clientcmd.Contexts
     (Clientcmd.setTargetCluster Scenario.C.disk "dev" "prod-cluster") !! "dev"
     = Some {| Clientcmd.ctxCluster := "prod-cluster";
               Clientcmd.AuthInfo := "dev-user";
               Clientcmd.contextRest := tt |})
  ∧
  (let e := Scenario.env Scenario.Y.disk Scenario.Y.pasted false Scenario.rotate in
   Yaml.findCluster "prod-cluster" (Yaml.Clusters Scenario.Y.pasted)
     = Some (0, Scenario.Y.pastedProd) ∧
   Yaml.resolveCluster e Scenario.Y.disk 1 Scenario.Y.pasted Scenario.world
     = (Scenario.world, inr (Scenario.Y.disk, Scenario.Y.pastedProd)))
  ∧
  (let e := Scenario.env Scenario.C.disk Scenario.C.pasted false Scenario.rotate in
   Clientcmd.Clusters Scenario.C.pasted !! "prod-cluster"
     = Some Scenario.C.pastedProd ∧
   Clientcmd.resolveCluster tt e Clientcmd.sourceOrder Scenario.C.disk "prod"
     Scenario.C.pasted Scenario.world
     = (Scenario.world,
        inr (Scenario.C.disk, "prod-cluster", Some Scenario.C.pastedProd))).
Proof.
  destruct cluster_rename_on_miss as (HYh & HY & HCh & HC). split_and!.
  - intros e r.
    assert (Hx : Yaml.Contexts Scenario.Y.disk !! 0
                 = Some {| Yaml.nxName := "dev";
                           Yaml.nxContext :=
                             {| Yaml.ctxCluster := "dev-cluster";
                                Yaml.ctxUser := "dev-user" |} |})
      by reflexivity.
    assert (Hmiss : Yaml.findCluster
                      (Yaml.ctxCluster (Yaml.target Scenario.Y.disk 0))
                      (Yaml.Clusters Scenario.Y.pasted) = None)
      by reflexivity.
    assert (Hr : r = (r.1, inr (Yaml.setTargetCluster Scenario.Y.disk 0
                                  "prod-cluster", Scenario.Y.pastedProd)))
      by (vm_compute; reflexivity).
    split; [exact Hmiss|]. split; [by rewrite Hr|].
    destruct (HY e _ _ _ _ _ _ _ _ Hx Hmiss Hr) as (_ & _ & H & _).
    exact H.
  - intros e r.
    assert (Hx : Clientcmd.Contexts Scenario.C.disk !! "dev"
                 = Some {| Clientcmd.ctxCluster := "dev-cluster";
                           Clientcmd.AuthInfo := "dev-user";
                           Clientcmd.contextRest := tt |})
      by (vm_compute; reflexivity).
    assert (Hmiss : Clientcmd.Clusters Scenario.C.pasted !! "dev-cluster" = None)
      by (vm_compute; reflexivity).
    assert (Hr : r = (r.1, inr (Clientcmd.setTargetCluster Scenario.C.disk "dev"
                                  "prod-cluster", "prod-cluster",
                                Some Scenario.C.pastedProd)))
      by (vm_compute; reflexivity).
    split; [exact Hmiss|]. split; [by rewrite Hr|].
    destruct (HC unit tt e _ _ _ _ _ _ _ _ _ _ Hx Hmiss Hr) as (_ & _ & H & _).
    exact H.
  - intros e.
    assert (Hhit : Yaml.findCluster
                     (Yaml.ctxCluster (Yaml.target Scenario.Y.disk 1))
                     (Yaml.Clusters Scenario.Y.pasted)
                   = Some (0, Scenario.Y.pastedProd))
      by reflexivity.
    split; [exact Hhit|].
    exact (HYh e _ _ _ Scenario.world _ _ Hhit).
  - intros e.
    assert (Hhit : Clientcmd.Clusters Scenario.C.pasted
                     !! Clientcmd.ctxCluster
                          (Clientcmd.target tt Scenario.C.disk "prod")
                   = Some Scenario.C.pastedProd)
      by (vm_compute; reflexivity).
    split; [exact Hhit|].
    exact (HCh unit tt e Clientcmd.sourceOrder _ _ _ Scenario.world _ Hhit).
Defined.

(** X9 (YAML variant): the selection among pasted contexts is never shown.
    The step asks nothing and leaves the world as it is; it yields the
    first pasted context, in the order of the file, that uses the pasted
    cluster, and fails only with the "no context" diagnostic. *)
Theorem yaml_context_never_selected :
  ∀ e newCfg pc w,
    let r := Yaml.resolveContext e newCfg pc w in
    r.1 = w ∧
    (∀ x, r.2 = inr x →
       ∃ i, Yaml.Contexts newCfg !! i = Some x ∧
            Yaml.ctxCluster (Yaml.nxContext x) = Yaml.ncName pc ∧
            ∀ j y, Yaml.Contexts newCfg !! j = Some y → j < i →
                   Yaml.ctxCluster (Yaml.nxContext y) ≠ Yaml.ncName pc) ∧
    (∀ f, r.2 = inl f →
       f = NoContextForCluster (Yaml.ncName pc) ∧
       ∀ j y, Yaml.Contexts newCfg !! j = Some y →
              Yaml.ctxCluster (Yaml.nxContext y) ≠ Yaml.ncName pc).
Proof.
  intros e newCfg pc w r. subst r. rewrite yaml_resolveContext_cases.
  destruct (list_find _ _) as [[i x]|] eqn:Hf; simpl.
  - split; [done|]. split; [|discriminate].
    intros y [= <-]. exists i. by apply list_find_Some in Hf.
  - split; [done|]. split; [discriminate|].
    intros f [= <-]. split; [done|].
    intros j y Hj. apply list_find_None in Hf. rewrite Forall_lookup in Hf.
    by apply (Hf _ _ Hj).
Qed.

Lemma yaml_context_never_selected_witness :
  (let e := Scenario.env Scenario.Y.disk Scenario.Y.pasted false Scenario.rotate in
   let x := {| Yaml.nxName := "prod-paste";
               Yaml.nxContext := {| Yaml.ctxCluster := "prod-cluster";
                                    Yaml.ctxUser := "prod-user2" |} |} in
   (Yaml.resolveContext e Scenario.Y.pasted Scenario.Y.pastedProd
      Scenario.world).2 = inr x ∧
   ∃ i, Yaml.Contexts Scenario.Y.pasted !! i = Some x)
  ∧
  (let e := Scenario.env Scenario.Y.disk Scenario.Y.orphan false Scenario.rotate in
   (Yaml.resolveContext e Scenario.Y.orphan Scenario.Y.pastedProd
      Scenario.world).2 = inl (NoContextForCluster "prod-cluster") ∧
   ∀ j y, Yaml.Contexts Scenario.Y.orphan !! j = Some y →
          Yaml.ctxCluster (Yaml.nxContext y) ≠ "prod-cluster").
Proof.
  split.
  - intros e x.
    assert (Hr : (Yaml.resolveContext e Scenario.Y.pasted Scenario.Y.pastedProd
                    Scenario.world).2 = inr x)
      by (vm_compute; reflexivity).
    split; [exact Hr|].
    destruct (yaml_context_never_selected e Scenario.Y.pasted
                Scenario.Y.pastedProd Scenario.world) as (_ & Hok & _).
    destruct (Hok x Hr) as (i & Hi & _). by exists i.
  - intros e.
    assert (Hr : (Yaml.resolveContext e Scenario.Y.orphan Scenario.Y.pastedProd
                    Scenario.world).2 = inl (NoContextForCluster "prod-cluster"))
      by (vm_compute; reflexivity).
    split; [exact Hr|].
    destruct (yaml_context_never_selected e Scenario.Y.orphan
                Scenario.Y.pastedProd Scenario.world) as (_ & _ & Hno).
    exact (proj2 (Hno _ Hr)).
Defined.

(** X10 (clientcmd variant): the name of the first pasted context met is
    compared with the empty string to tell whether one was met.  So when
    no pasted context has the empty name, nothing is asked: the step
    yields a pasted context that uses the cluster or fails with the
    "no context" diagnostic; and whenever the selection is shown, the
    pasted document has a context of the empty name that uses the
    cluster. *)
Theorem clientcmd_selection_needs_empty_name :
  (∀ Extra (e : Env (Clientcmd.Config Extra)) o newCfg cname w,
     Clientcmd.Contexts newCfg !! EmptyString = None →
     (∃ x, Clientcmd.resolveContext e o newCfg cname w = (w, inr (Some x)) ∧
           Clientcmd.ctxCluster x = cname ∧
           ∃ k, Clientcmd.Contexts newCfg !! k = Some x) ∨
     (Clientcmd.resolveContext e o newCfg cname w
        = (w, inl (NoContextForCluster cname)) ∧
      ∀ k x, Clientcmd.Contexts newCfg !! k = Some x →
             Clientcmd.ctxCluster x ≠ cname))
  ∧
  (∀ Extra (e : Env (Clientcmd.Config Extra)) o newCfg cname w,
     (Clientcmd.resolveContext e o newCfg cname w).1 ≠ w →
     ∃ x, Clientcmd.Contexts newCfg !! EmptyString = Some x ∧
          Clientcmd.ctxCluster x = cname).
Proof.
  split.
  - intros Extra. apply cc_resolveContext_named.
  - intros Extra. apply cc_resolveContext_asks.
Qed.

Lemma clientcmd_selection_needs_empty_name_witness :
  (let e := Scenario.env Scenario.C.disk Scenario.C.pasted false Scenario.rotate in
   Clientcmd.Contexts Scenario.C.pasted !! EmptyString = None ∧
   (Clientcmd.resolveContext e Clientcmd.sourceOrder Scenario.C.pasted
      "prod-cluster" Scenario.world).1 = Scenario.world)
  ∧
  (let e := Scenario.env Scenario.C.disk Reruns.anonymous false
              (Reruns.pickDev EmptyString) in
   let r := Clientcmd.resolveContext e Clientcmd.sourceOrder Reruns.anonymous
              "prod-cluster" Scenario.world in
   r.1 ≠ Scenario.world ∧
   asked r.1 = [Select "Select context from pasted config" [EmptyString]] ∧
   ∃ x, Clientcmd.Contexts Reruns.anonymous !! EmptyString = Some x ∧
        Clientcmd.ctxCluster x = "prod-cluster").
Proof.
  destruct clientcmd_selection_needs_empty_name as [Hnamed Hasks]. split.
  - intros e.
    assert (Hno : Clientcmd.Contexts Scenario.C.pasted !! EmptyString = None)
      by (vm_compute; reflexivity).
    split; [exact Hno|].
    destruct (Hnamed unit e Clientcmd.sourceOrder Scenario.C.pasted
                "prod-cluster" Scenario.world Hno)
      as [(x & -> & _)|[-> _]]; reflexivity.
  - intros e r.
    assert (Hshown : asked r.1
                     = [Select "Select context from pasted config" [EmptyString]])
      by (vm_compute; reflexivity).
    assert (Hne : r.1 ≠ Scenario.world).
    { intros H. rewrite H in Hshown. discriminate. }
    split; [exact Hne|]. split; [exact Hshown|].
    exact (Hasks unit e Clientcmd.sourceOrder Reruns.anonymous "prod-cluster"
             Scenario.world Hne).
Defined.



(** X12: when the kubeconfig cannot be loaded (no home directory for a
    path that starts with a tilde, unreadable file, file that does not
    parse) the run ends with that diagnostic before the first prompt, in
    the world it started in. *)
Theorem load_failure_before_prompts :
  (∀ e w w1 f,
     Yaml.load e w = (w1, inl f) →
     Yaml.main e w = (w, inl f) ∧ w1 = w ∧
     (f = HomeDirFailed ∨ (∃ p, f = ReadConfigFailed p) ∨ f = ParseConfigFailed))
  ∧
  (∀ Extra (zero : Extra) e o w w1 f,
     Clientcmd.load e w = (w1, inl f) →
     Clientcmd.main zero e o w = (w, inl f) ∧ w1 = w ∧
     (f = HomeDirFailed ∨ (∃ p, f = ReadConfigFailed p) ∨ f = ParseConfigFailed)).
Proof.
  split.
  - intros e w w1 f Hl. destruct (yaml_load_failure e w w1 f Hl) as [H1 H2].
    split_and!; try done.
    assert (Hf : failsOnly (fun f => f = HomeDirFailed
                                     ∨ (∃ p, f = ReadConfigFailed p)
                                     ∨ f = ParseConfigFailed) (Yaml.load e)).
    { unfold Yaml.load.
      apply failsOnly_bind; [apply failsOnly_expandHome; auto|]. intros p.
      apply failsOnly_bind; [apply failsOnly_readFile; eauto|]. intros d.
      apply failsOnly_bind; [apply failsOnly_orExit; auto|]. intros c.
      apply failsOnly_ret. }
    exact (Hf _ _ _ Hl).
  - intros Extra zero e o w w1 f Hl.
    destruct (cc_load_failure zero e o w w1 f Hl) as [H1 H2].
    split_and!; try done.
    assert (Hf : failsOnly (fun f => f = HomeDirFailed
                                     ∨ (∃ p, f = ReadConfigFailed p)
                                     ∨ f = ParseConfigFailed) (Clientcmd.load e)).
    { unfold Clientcmd.load.
      apply failsOnly_bind; [apply failsOnly_expandHome; auto|]. intros p.
      apply failsOnly_bind; [apply failsOnly_readFile; eauto|]. intros d.
      apply failsOnly_bind; [apply failsOnly_orExit; auto|]. intros c.
      apply failsOnly_ret. }
    exact (Hf _ _ _ Hl).
Qed.

Lemma load_failure_before_prompts_witness :
  (let e := Scenario.env Scenario.Y.disk Scenario.Y.pasted false Scenario.rotate in
   Yaml.load e Reruns.bareWorld
     = (Reruns.bareWorld, inl (ReadConfigFailed "/home/op/.kube/config")) ∧
   Yaml.main e Reruns.bareWorld
     = (Reruns.bareWorld, inl (ReadConfigFailed "/home/op/.kube/config")))
  ∧
  (let e := Scenario.env Scenario.C.disk Scenario.C.pasted false Scenario.rotate in
   Clientcmd.load e Reruns.bareWorld
     = (Reruns.bareWorld, inl (ReadConfigFailed "/home/op/.kube/config")) ∧
   Clientcmd.main tt e Clientcmd.sourceOrder Reruns.bareWorld
     = (Reruns.bareWorld, inl (ReadConfigFailed "/home/op/.kube/config"))).
Proof.
  destruct load_failure_before_prompts as [HY HC]. split.
  - intros e.
    assert (Hl : Yaml.load e Reruns.bareWorld
                 = (Reruns.bareWorld,
                    inl (ReadConfigFailed "/home/op/.kube/config")))
      by (vm_compute; reflexivity).
    split; [exact Hl|]. exact (proj1 (HY e _ _ _ Hl)).
  - intros e.
    assert (Hl : Clientcmd.load e Reruns.bareWorld
                 = (Reruns.bareWorld,
                    inl (ReadConfigFailed "/home/op/.kube/config")))
      by (vm_compute; reflexivity).
    split; [exact Hl|].
    exact (proj1 (HC unit tt e Clientcmd.sourceOrder _ _ _ Hl)).
Defined.



(** X14 (YAML variant): the backup name carries the day only, so a second
    successful apply run on the same day, on the same path, writes its
    backup over the first one: the bytes the first run saved are replaced
    by the document the first run wrote. *)
Theorem same_day_backup_overwritten :
  ∀ e1 e2 w w1 w2,
    tryFlag e1 = false → tryFlag e2 = false →
    configFlag e1 = configFlag e2 → userHomeDir e1 = userHomeDir e2 →
    filepathJoin e1 = filepathJoin e2 →
    Go.formatYYYYMMDD (now e1) = Go.formatYYYYMMDD (now e2) →
    Yaml.main e1 w = (w1, inr tt) →
    Yaml.main e2 w1 = (w2, inr tt) →
    ∃ p original merged1,
      files w !! p = Some original ∧
      files w1 !! p = Some merged1 ∧
      files w1 !! Yaml.backupPath e1 p = Some original ∧
      Yaml.backupPath e2 p = Yaml.backupPath e1 p ∧
      files w2 !! Yaml.backupPath e1 p = Some merged1.
Proof. apply yaml_same_day_backup. Qed.

Lemma same_day_backup_overwritten_witness :
  let e1 := Reruns.envAfter Scenario.Y.disk Reruns.mergedY Scenario.Y.pasted
              Scenario.clock in
  let e2 := Reruns.envAfter Scenario.Y.disk Reruns.mergedY Scenario.Y.pasted
              Reruns.laterClock in
  let w1 := (Yaml.main e1 Scenario.world).1 in
  let w2 := (Yaml.main e2 w1).1 in
  Yaml.main e1 Scenario.world = (w1, inr tt) ∧
  Yaml.main e2 w1 = (w2, inr tt) ∧
  files w1 !! "/home/op/.kube/config.backup.20261103" = Some Scenario.diskData ∧
  ∃ p original merged1,
    files Scenario.world !! p = Some original ∧
    files w1 !! p = Some merged1 ∧
    files w1 !! Yaml.backupPath e1 p = Some original ∧
    Yaml.backupPath e2 p = Yaml.backupPath e1 p ∧
    files w2 !! Yaml.backupPath e1 p = Some merged1.
Proof.
  intros e1 e2 w1 w2.
  assert (R1 : Yaml.main e1 Scenario.world = (w1, inr tt))
    by (vm_compute; reflexivity).
  assert (R2 : Yaml.main e2 w1 = (w2, inr tt)) by (vm_compute; reflexivity).
  split; [exact R1|]. split; [exact R2|].
  split; [vm_compute; reflexivity|].
  apply (same_day_backup_overwritten e1 e2 Scenario.world w1 w2);
    solve [reflexivity | vm_compute; reflexivity | exact R1 | exact R2].
Defined.



(** X16: a run that succeeds has shown at least three forms (the context
    selection, the confirmation or the three inputs of a new context, the
    paste) and at most five in the YAML variant, six in the clientcmd
    variant; the forms are appended to those shown before. *)
Theorem forms_of_a_run :
  (∀ e w w',
     Yaml.main e w = (w', inr tt) →
     ∃ shown, asked w' = asked w ++ shown ∧ 3 ≤ length shown ≤ 5)
  ∧
  (∀ Extra (zero : Extra) e o w w',
     Clientcmd.main zero e o w = (w', inr tt) →
     ∃ shown, asked w' = asked w ++ shown ∧ 3 ≤ length shown ≤ 6).
Proof.
  split.
  - apply yaml_main_asks.
  - intros Extra. apply cc_main_asks.
Qed.

Lemma forms_of_a_run_witness :
  (let e := Scenario.env Scenario.Y.disk Scenario.Y.pasted false Scenario.rotate in
   let w' := (Yaml.main e Scenario.world).1 in
   Yaml.main e Scenario.world = (w', inr tt) ∧ length (asked w') = 3 ∧
   ∃ shown, asked w' = asked Scenario.world ++ shown ∧ 3 ≤ length shown ≤ 5)
  ∧
  (let e := Scenario.env Scenario.C.disk Scenario.C.pasted false Scenario.create in
   let w' := (Clientcmd.main tt e Clientcmd.sourceOrder Scenario.world).1 in
   Clientcmd.main tt e Clientcmd.sourceOrder Scenario.world = (w', inr tt) ∧
   ∃ shown, asked w' = asked Scenario.world ++ shown ∧ 3 ≤ length shown ≤ 6).
Proof.
  destruct forms_of_a_run as [HY HC]. split.
  - intros e w'.
    assert (Hrun : Yaml.main e Scenario.world = (w', inr tt))
      by (vm_compute; reflexivity).
    split; [exact Hrun|]. split; [vm_compute; reflexivity|].
    exact (HY e _ _ Hrun).
  - intros e w'.
    assert (Hrun : Clientcmd.main tt e Clientcmd.sourceOrder Scenario.world
                   = (w', inr tt))
      by (vm_compute; reflexivity).
    split; [exact Hrun|].
    exact (HC unit tt e _ _ _ Hrun).
Defined.

(** X17: a shown secret is never longer than fifteen bytes nor longer than
    the secret, and cutting what was cut changes nothing; the same bound
    holds for binary secrets, which are shown in base64. *)
Theorem shown_secret_bounds :
  (∀ s, String.length (shorten s) ≤ 15 ∧
        String.length (shorten s) ≤ String.length s ∧
        shorten (shorten s) = shorten s)
  ∧
  (∀ data, String.length (shortenBytes data) ≤ 15).
Proof.
  split.
  - intros s. pose proof (shorten_length s) as H.
    destruct (Nat.leb_spec (String.length s) 15);
      split_and!; try lia; apply shorten_again.
  - apply shortenBytes_length.
Qed.

(** X18 (clientcmd variant): binary data of one to nine bytes is shown
    whole in base64; from ten bytes on the base64 text is cut to its first
    five and last five characters around three dots, thirteen characters
    in all. *)
Theorem binary_secret_threshold :
  ∀ data,
    (1 ≤ length data ≤ 9 → shortenBytes data = Go.EncodeToString data) ∧
    (10 ≤ length data →
       shortenBytes data
       = substring 0 5 (Go.EncodeToString data) +:+ "..."
           +:+ substring (String.length (Go.EncodeToString data) - 5) 5
                 (Go.EncodeToString data) ∧
       String.length (shortenBytes data) = 13).
Proof. apply shortenBytes_threshold. Qed.

Lemma binary_secret_threshold_witness :
  shortenBytes (Go.bytesOfString "123456789") = "MTIzNDU2Nzg5" ∧
  shortenBytes (Go.bytesOfString "1234567890") = "MTIzN...5MA==".
Proof.
  split.
  - rewrite (proj1 (binary_secret_threshold (Go.bytesOfString "123456789")))
      by (vm_compute; lia).
    reflexivity.
  - rewrite (proj1 (proj2 (binary_secret_threshold
                             (Go.bytesOfString "1234567890"))
                      ltac:(vm_compute; lia))).
    reflexivity.
Defined.

(** ** How the target context is chosen *)

Lemma yaml_selectTarget_new e cfg w w' cfg1 ti :
  Yaml.selectTarget e cfg w = (w', inr (cfg1, ti, true)) →
  ∃ x, Yaml.Contexts cfg1 = Yaml.Contexts cfg ++ [x] ∧
       ti = length (Yaml.Contexts cfg) ∧
       Yaml.Contexts cfg1 !! ti = Some x ∧
       Yaml.Clusters cfg1 = Yaml.Clusters cfg ∧
       Yaml.Users cfg1 = Yaml.Users cfg ∧
       Yaml.CurrentContext cfg1 = Yaml.CurrentContext cfg ∧
       Yaml.askUpdateServer e true (Yaml.target cfg1 ti) w' = (w', inr false).
Proof.
  unfold Yaml.selectTarget. intros H.
  apply bind_inr in H as (sel & w1 & Hsel & H).
  destruct (String.eqb sel "new context").
  - apply bind_inr in H as ([[a b] c] & w3 & Hn & H).
    apply ret_inr in H as [[= -> ->] ->].
    eexists. split; [reflexivity|]. simpl.
    rewrite length_app. simpl.
    replace (length (Yaml.Contexts cfg) + 1 - 1) with (length (Yaml.Contexts cfg))
      by lia.
    split_and!; try done.
    by rewrite lookup_app_r, Nat.sub_diag.
  - destruct (Yaml.findContext sel (Yaml.Contexts cfg)) as [[i x]|];
      [|discriminate].
    apply ret_inr in H as [[= _ _] _].
Qed.

Lemma yaml_selectTarget_old e cfg w w' cfg1 ti :
  Yaml.selectTarget e cfg w = (w', inr (cfg1, ti, false)) →
  cfg1 = cfg ∧
  ∃ x, Yaml.Contexts cfg !! ti = Some x ∧
       onSelect (operator e) "Select a context to update"
         (map Yaml.nxName (Yaml.Contexts cfg) ++ ["new context"])
       = Some (Yaml.nxName x) ∧
       Yaml.nxName x ≠ "new context" ∧
       ∀ j y, Yaml.Contexts cfg !! j = Some y → j < ti →
              Yaml.nxName y ≠ Yaml.nxName x.
Proof.
  unfold Yaml.selectTarget. intros H.
  apply bind_inr in H as (sel & w1 & Hsel & H).
  unfold select, answer in Hsel.
  destruct (onSelect _ _ _) as [v|] eqn:Hop; [|discriminate].
  injection Hsel as <- <-.
  destruct (String.eqb_spec v "new context") as [->|Hne].
  - apply bind_inr in H as ([[a b] c] & w3 & Hn & H).
    apply ret_inr in H as [[= _ _] _].
  - destruct (Yaml.findContext v (Yaml.Contexts cfg)) as [[i x]|] eqn:Hf;
      [|discriminate].
    apply ret_inr in H as [[= -> ->] _]. split; [done|].
    unfold Yaml.findContext in Hf.
    destruct (proj1 (list_find_Some _ _ _ _) Hf) as (Hi & Hn & Hlt).
    simpl in Hn. subst v.
    exists x. split_and!; done.
Qed.

Section ClientcmdTarget.
Context {Extra : Type} (zero : Extra).
Variable e : Env (Clientcmd.Config Extra).
Variable o : Clientcmd.MapOrder.
Implicit Types cfg : Clientcmd.Config Extra.

Lemma cc_selectTarget_new cfg w w' cfg1 tn :
  Clientcmd.selectTarget zero e o cfg w = (w', inr (cfg1, tn, true)) →
  ∃ cluster user,
    Clientcmd.Contexts cfg1
    = <[tn := {| Clientcmd.ctxCluster := cluster;
                 Clientcmd.AuthInfo := user;
                 Clientcmd.contextRest := zero |}]> (Clientcmd.Contexts cfg) ∧
    Clientcmd.Clusters cfg1 = Clientcmd.Clusters cfg ∧
    Clientcmd.AuthInfos cfg1 = Clientcmd.AuthInfos cfg ∧
    Clientcmd.CurrentContext cfg1 = Clientcmd.CurrentContext cfg ∧
    Clientcmd.configRest cfg1 = Clientcmd.configRest cfg ∧
    Clientcmd.askUpdateServer e true (Clientcmd.target zero cfg1 tn) w'
    = (w', inr false).
Proof.
  unfold Clientcmd.selectTarget. intros H.
  apply bind_inr in H as (sel & w1 & Hsel & H).
  destruct (String.eqb sel "new context").
  - apply bind_inr in H as ([[a b] c] & w3 & Hn & H).
    apply ret_inr in H as [[= -> ->] ->].
    by exists b, c.
  - destruct (Clientcmd.Contexts cfg !! sel); [|discriminate].
    apply ret_inr in H as [[= _ _] _].
Qed.

Lemma cc_selectTarget_old cfg w w' cfg1 tn :
  Clientcmd.selectTarget zero e o cfg w = (w', inr (cfg1, tn, false)) →
  cfg1 = cfg ∧ tn ≠ "new context" ∧ is_Some (Clientcmd.Contexts cfg !! tn).
Proof.
  unfold Clientcmd.selectTarget. intros H.
  apply bind_inr in H as (sel & w1 & Hsel & H).
  destruct (String.eqb_spec sel "new context") as [->|Hne].
  - apply bind_inr in H as ([[a b] c] & w3 & Hn & H).
    apply ret_inr in H as [[= _ _] _].
  - destruct (Clientcmd.Contexts cfg !! sel) eqn:Hx; [|discriminate].
    apply ret_inr in H as [[= -> ->] _]. by rewrite Hx.
Qed.

End ClientcmdTarget.

(** X19: how the target context enters the document.  In the YAML variant
    a new context is appended after the contexts of the file, also when
    one of them has the same name, and it is the target; in the clientcmd
    variant it is stored under its name, in place of a context that had
    that name.  Clusters, users and the current context stay, and the
    confirmation about the server is not shown: the answer is no.  An
    existing context is taken as it is; in the YAML variant it is the
    first one of the selected name. *)
Theorem target_context_entry :
  (∀ e cfg w w' cfg1 ti,
     Yaml.selectTarget e cfg w = (w', inr (cfg1, ti, true)) →
     ∃ x, Yaml.Contexts cfg1 = Yaml.Contexts cfg ++ [x] ∧
          ti = length (Yaml.Contexts cfg) ∧
          Yaml.Contexts cfg1 !! ti = Some x ∧
          Yaml.Clusters cfg1 = Yaml.Clusters cfg ∧
          Yaml.Users cfg1 = Yaml.Users cfg ∧
          Yaml.CurrentContext cfg1 = Yaml.CurrentContext cfg ∧
          Yaml.askUpdateServer e true (Yaml.target cfg1 ti) w' = (w', inr false))
  ∧
  (∀ e cfg w w' cfg1 ti,
     Yaml.selectTarget e cfg w = (w', inr (cfg1, ti, false)) →
     cfg1 = cfg ∧
     ∃ x, Yaml.Contexts cfg !! ti = Some x ∧
          onSelect (operator e) "Select a context to update"
            (map Yaml.nxName (Yaml.Contexts cfg) ++ ["new context"])
          = Some (Yaml.nxName x) ∧
          Yaml.nxName x ≠ "new context" ∧
          ∀ j y, Yaml.Contexts cfg !! j = Some y → j < ti →
                 Yaml.nxName y ≠ Yaml.nxName x)
  ∧
  (∀ Extra (zero : Extra) e o cfg w w' cfg1 tn,
     Clientcmd.selectTarget zero e o cfg w = (w', inr (cfg1, tn, true)) →
     ∃ cluster user,
       Clientcmd.Contexts cfg1
       = <[tn := {| Clientcmd.ctxCluster := cluster;
                    Clientcmd.AuthInfo := user;
                    Clientcmd.contextRest := zero |}]> (Clientcmd.Contexts cfg) ∧
       Clientcmd.Clusters cfg1 = Clientcmd.Clusters cfg ∧
       Clientcmd.AuthInfos cfg1 = Clientcmd.AuthInfos cfg ∧
       Clientcmd.CurrentContext cfg1 = Clientcmd.CurrentContext cfg ∧
       Clientcmd.configRest cfg1 = Clientcmd.configRest cfg ∧
       Clientcmd.askUpdateServer e true (Clientcmd.target zero cfg1 tn) w'
       = (w', inr false))
  ∧
  (∀ Extra (zero : Extra) e o cfg w w' cfg1 tn,
     Clientcmd.selectTarget zero e o cfg w = (w', inr (cfg1, tn, false)) →
     cfg1 = cfg ∧ tn ≠ "new context" ∧ is_Some (Clientcmd.Contexts cfg !! tn)).
Proof.
  split_and!.
  - apply yaml_selectTarget_new.
  - apply yaml_selectTarget_old.
  - intros Extra. apply cc_selectTarget_new.
  - intros Extra. apply cc_selectTarget_old.
Qed.

Lemma target_context_entry_witness :
  (let e := Scenario.env Scenario.Y.disk Scenario.Y.pasted false Reruns.recreate in
   let r := Yaml.selectTarget e Scenario.Y.disk Scenario.world in
   let again := {| Yaml.nxName := "dev";
                   Yaml.nxContext := {| Yaml.ctxCluster := "prod-cluster";
                                        Yaml.ctxUser := "prod-user" |} |} in
   let cfg1 := Yaml.withContexts Scenario.Y.disk
                 (Yaml.Contexts Scenario.Y.disk ++ [again]) in
   r = (r.1, inr (cfg1, 2, true)) ∧
   map Yaml.nxName (Yaml.Contexts cfg1) = ["dev"; "prod"; "dev"] ∧
   Yaml.askUpdateServer e true (Yaml.target cfg1 2) r.1 = (r.1, inr false))
  ∧
  (let e := Scenario.env Scenario.Y.disk Scenario.Y.pasted false Scenario.rotate in
   let r := Yaml.selectTarget e Scenario.Y.disk Scenario.world in
   r = (r.1, inr (Scenario.Y.disk, 1, false)) ∧
   ∃ x, Yaml.Contexts Scenario.Y.disk !! 1 = Some x ∧ Yaml.nxName x = "prod")
  ∧
  (let e := Scenario.env Scenario.C.disk Scenario.C.pasted false Reruns.recreate in
   let r := Clientcmd.selectTarget tt e Clientcmd.sourceOrder Scenario.C.disk
              Scenario.world in
   let again := {| Clientcmd.ctxCluster := "prod-cluster";
                   Clientcmd.AuthInfo := "prod-user";
                   Clientcmd.contextRest := tt |} in
   let cfg1 := Clientcmd.withContexts Scenario.C.disk
                 (<["dev" := again]> (Clientcmd.Contexts Scenario.C.disk)) in
   r = (r.1, inr (cfg1, "dev", true)) ∧
   Clientcmd.Contexts Scenario.C.disk !! "dev"
   = Some {| Clientcmd.ctxCluster := "dev-cluster";
             Clientcmd.AuthInfo := "dev-user";
             Clientcmd.contextRest := tt |} ∧
   Clientcmd.Contexts cfg1 !! "dev" = Some again ∧
   Clientcmd.askUpdateServer e true (Clientcmd.target tt cfg1 "dev") r.1
   = (r.1, inr false))
  ∧
  (let e := Scenario.env Scenario.C.disk Scenario.C.pasted false Scenario.rotate in
   let r := Clientcmd.selectTarget tt e Clientcmd.sourceOrder Scenario.C.disk
              Scenario.world in
   r = (r.1, inr (Scenario.C.disk, "prod", false)) ∧
   is_Some (Clientcmd.Contexts Scenario.C.disk !! "prod")).
Proof.
  destruct target_context_entry as (HYn & HYo & HCn & HCo). split_and!.
  - intros e r again cfg1.
    assert (Hr : r = (r.1, inr (cfg1, 2, true))) by (vm_compute; reflexivity).
    split; [exact Hr|].
    destruct (HYn e _ _ _ _ _ Hr) as (x & Hx & _ & _ & _ & _ & _ & Hask).
    split; [reflexivity|exact Hask].
  - intros e r.
    assert (Hr : r = (r.1, inr (Scenario.Y.disk, 1, false)))
      by (vm_compute; reflexivity).
    split; [exact Hr|].
    destruct (HYo e _ _ _ _ _ Hr) as (_ & x & Hx & Hop & _).
    exists x. split; [exact Hx|].
    assert (E : Some (Yaml.nxName x) = Some "prod") by (rewrite <- Hop; reflexivity).
    by injection E.
  - intros e r again cfg1.
    assert (Hr : r = (r.1, inr (cfg1, "dev", true))) by (vm_compute; reflexivity).
    split; [exact Hr|].
    destruct (HCn unit tt e _ _ _ _ _ _ Hr) as (c & u & Hx & _ & _ & _ & _ & Hask).
    split; [vm_compute; reflexivity|].
    split; [apply lookup_insert_eq|exact Hask].
  - intros e r.
    assert (Hr : r = (r.1, inr (Scenario.C.disk, "prod", false)))
      by (vm_compute; reflexivity).
    split; [exact Hr|].
    exact (proj2 (proj2 (HCo unit tt e _ _ _ _ _ _ Hr))).
Defined.

(** ** Where the pasted user comes from *)

Lemma yaml_resolveUser_source e newCfg x w w' u :
  Yaml.resolveUser e newCfg x w = (w', inr u) →
  (∃ j, Yaml.Users newCfg !! j = Some u) ∧
  ((Yaml.nuName u = Yaml.ctxUser (Yaml.nxContext x) ∧ w' = w) ∨
   (Yaml.findUser (Yaml.ctxUser (Yaml.nxContext x)) (Yaml.Users newCfg) = None ∧
    asked w' = asked w ++ [Select "Select a user from the pasted kubeconfig"
                             (map Yaml.nuName (Yaml.Users newCfg))] ∧
    onSelect (operator e) "Select a user from the pasted kubeconfig"
      (map Yaml.nuName (Yaml.Users newCfg)) = Some (Yaml.nuName u))).
Proof.
  unfold Yaml.resolveUser.
  destruct (Yaml.findUser (Yaml.ctxUser _) _) as [[j v]|] eqn:Hf.
  - intros H. apply ret_inr in H as [-> ->].
    destruct (proj1 (list_find_Some _ _ _ _) Hf) as (Hj & Hn & _).
    split; [by exists j|]. by left.
  - intros H. apply bind_inr in H as (sel & w1 & Hsel & H).
    unfold select, answer in Hsel.
    destruct (onSelect _ _ _) as [a|] eqn:Hop; [|discriminate].
    injection Hsel as <- <-.
    destruct (Yaml.findUser a (Yaml.Users newCfg)) as [[j v]|] eqn:Hf2;
      [|discriminate].
    apply ret_inr in H as [-> ->].
    destruct (proj1 (list_find_Some _ _ _ _) Hf2) as (Hj & Hn & _).
    simpl in Hn. subst a.
    split; [by exists j|]. right. done.
Qed.

Lemma cc_resolveUser_source {Extra} (e : Env (Clientcmd.Config Extra)) o
    (newCfg : Clientcmd.Config Extra) px w w' pu :
  Clientcmd.resolveUser e o newCfg px w = (w', inr pu) →
  ∃ x, px = Some x ∧
    ((∃ u, pu = Some u ∧
           Clientcmd.AuthInfos newCfg !! Clientcmd.AuthInfo x = Some u ∧
           w' = w) ∨
     (Clientcmd.AuthInfos newCfg !! Clientcmd.AuthInfo x = None ∧
      asked w' = asked w
        ++ [Select "Select user from pasted config"
              (Clientcmd.rangeMap o 4 (Clientcmd.AuthInfos newCfg)).*1] ∧
      ∃ k, onSelect (operator e) "Select user from pasted config"
             (Clientcmd.rangeMap o 4 (Clientcmd.AuthInfos newCfg)).*1 = Some k ∧
           pu = Clientcmd.AuthInfos newCfg !! k)).
Proof.
  unfold Clientcmd.resolveUser. destruct px as [x|]; [|discriminate].
  intros H. exists x. split; [done|].
  destruct (Clientcmd.AuthInfos newCfg !! Clientcmd.AuthInfo x) as [u|] eqn:Hu.
  - apply ret_inr in H as [-> ->]. left. by exists u.
  - apply bind_inr in H as (sel & w1 & Hsel & H).
    unfold select, answer in Hsel.
    destruct (onSelect _ _ _) as [a|] eqn:Hop; [|discriminate].
    injection Hsel as <- <-.
    apply ret_inr in H as [-> ->]. right. split_and!; try done. by exists a.
Qed.

(** X20: the user handed to the merge is read from the pasted document,
    never from the file on disk.  It is the pasted user that the pasted
    context names, and then nothing is asked; when the pasted document has
    no user of that name, one selection over the pasted user names is
    shown and the answer is looked up among the pasted users. *)
Theorem pasted_user_source :
  (∀ e newCfg x w w' u,
     Yaml.resolveUser e newCfg x w = (w', inr u) →
     (∃ j, Yaml.Users newCfg !! j = Some u) ∧
     ((Yaml.nuName u = Yaml.ctxUser (Yaml.nxContext x) ∧ w' = w) ∨
      (Yaml.findUser (Yaml.ctxUser (Yaml.nxContext x)) (Yaml.Users newCfg)
         = None ∧
       asked w' = asked w ++ [Select "Select a user from the pasted kubeconfig"
                                (map Yaml.nuName (Yaml.Users newCfg))] ∧
       onSelect (operator e) "Select a user from the pasted kubeconfig"
         (map Yaml.nuName (Yaml.Users newCfg)) = Some (Yaml.nuName u))))
  ∧
  (∀ Extra (e : Env (Clientcmd.Config Extra)) o newCfg px w w' pu,
     Clientcmd.resolveUser e o newCfg px w = (w', inr pu) →
     ∃ x, px = Some x ∧
       ((∃ u, pu = Some u ∧
              Clientcmd.AuthInfos newCfg !! Clientcmd.AuthInfo x = Some u ∧
              w' = w) ∨
        (Clientcmd.AuthInfos newCfg !! Clientcmd.AuthInfo x = None ∧
         asked w' = asked w
           ++ [Select "Select user from pasted config"
                 (Clientcmd.rangeMap o 4 (Clientcmd.AuthInfos newCfg)).*1] ∧
         ∃ k, onSelect (operator e) "Select user from pasted config"
                (Clientcmd.rangeMap o 4 (Clientcmd.AuthInfos newCfg)).*1
              = Some k ∧
              pu = Clientcmd.AuthInfos newCfg !! k))).
Proof.
  split.
  - apply yaml_resolveUser_source.
  - intros Extra. apply cc_resolveUser_source.
Qed.

Lemma pasted_user_source_witness :
  (let e := Scenario.env Scenario.Y.disk Scenario.Y.pasted false Scenario.rotate in
   let x := {| Yaml.nxName := "prod-paste";
               Yaml.nxContext := {| Yaml.ctxCluster := "prod-cluster";
                                    Yaml.ctxUser := "prod-user2" |} |} in
   Yaml.resolveUser e Scenario.Y.pasted x Scenario.world
     = (Scenario.world, inr Scenario.Y.pastedUser2) ∧
   ∃ j, Yaml.Users Scenario.Y.pasted !! j = Some Scenario.Y.pastedUser2)
  ∧
  (let e := Scenario.env Scenario.Y.disk Scenario.Y.pasted false
              (Reruns.pickDev "prod-user2") in
   let x := {| Yaml.nxName := "prod-paste";
               Yaml.nxContext := {| Yaml.ctxCluster := "prod-cluster";
                                    Yaml.ctxUser := "nobody" |} |} in
   let r := Yaml.resolveUser e Scenario.Y.pasted x Scenario.world in
   r = (r.1, inr Scenario.Y.pastedUser2) ∧
   ∃ j, Yaml.Users Scenario.Y.pasted !! j = Some Scenario.Y.pastedUser2)
  ∧
  (let e := Scenario.env Scenario.C.disk Scenario.C.pasted false Scenario.rotate in
   let x := {| Clientcmd.ctxCluster := "prod-cluster";
               Clientcmd.AuthInfo := "prod-user2";
               Clientcmd.contextRest := tt |} in
   Clientcmd.resolveUser e Clientcmd.sourceOrder Scenario.C.pasted (Some x)
     Scenario.world
     = (Scenario.world, inr (Some Scenario.C.pastedUser2)) ∧
   ∃ y, Some x = Some y).
Proof.
  destruct pasted_user_source as [HY HC]. split_and!.
  - intros e x.
    assert (Hr : Yaml.resolveUser e Scenario.Y.pasted x Scenario.world
                 = (Scenario.world, inr Scenario.Y.pastedUser2))
      by (vm_compute; reflexivity).
    split; [exact Hr|]. exact (proj1 (HY e _ _ _ _ _ Hr)).
  - intros e x r.
    assert (Hr : r = (r.1, inr Scenario.Y.pastedUser2))
      by (vm_compute; reflexivity).
    split; [exact Hr|]. exact (proj1 (HY e _ _ _ _ _ Hr)).
  - intros e x.
    assert (Hr : Clientcmd.resolveUser e Clientcmd.sourceOrder Scenario.C.pasted
                   (Some x) Scenario.world
                 = (Scenario.world, inr (Some Scenario.C.pastedUser2)))
      by (vm_compute; reflexivity).
    split; [exact Hr|].
    destruct (HC unit e _ _ _ _ _ _ Hr) as (y & Hy & _). by exists y.
Defined.
